(** * DRAGIN: adaptive retrieval-augmented generation (src/generate.py)

    A shallow embedding of [src/generate.py]: the generation client
    ([BasicGenerator]), the usage counter ([Counter]), the retrieval gateway
    ([BasicRAG]), the hallucination detectors ([TokenRAG.modifier],
    [EntityRAG.modifier], [AttnWeightRAG.modifier]), the query reformulator
    ([AttnWeightRAG.keep_real_words]) and the inference loops.

    Conventions.
    - A Python [str] is a list of code points ([Py.str]); slices, [find],
      [strip], [split], [join] and [replace] follow CPython.
    - A Python exception is a constructor of [exn]; a call that can raise
      returns a [result].  Methods of the RAG classes mutate [self.counter]
      and talk to the language model and the retrievers: they live in the
      monad [M], a state monad whose state survives a raised exception, as a
      mutated Python object does.
    - transformers, torch, numpy, spaCy and the retriever back ends are
      external: they are the fields of the record [Backend].
    - Floating-point numbers are the carrier of the class [Float]; the
      structural results hold for every arithmetic, the numerical ones are
      proved for the exact instance [num] (rationals with the IEEE special
      values, no rounding). *)

From Stdlib Require Import List ZArith QArith Qround Bool Lia Arith.
From Stdlib Require Import Ascii String Permutation Sorted.
Import ListNotations.

Local Open Scope Z_scope.

(* ================================================================== *)
(** * Python values: strings, slices, exceptions *)
(* ================================================================== *)

Module Py.

(** A character is its Unicode code point. *)
Definition char := N.
Definition str := list char.

(** An ASCII literal of the source. *)
Definition lit (s : String.string) : str :=
  map N_of_ascii (list_ascii_of_string s).

Fixpoint eqb (a b : str) : bool :=
  match a, b with
  | [], [] => true
  | x :: a', y :: b' => N.eqb x y && eqb a' b'
  | _, _ => false
  end.

Definition len {A} (l : list A) : Z := Z.of_nat (List.length l).

(** [s.startswith(p)] *)
Fixpoint startswith (s p : str) : bool :=
  match p, s with
  | [], _ => true
  | x :: p', y :: s' => N.eqb x y && startswith s' p'
  | _ :: _, [] => false
  end.

(** [s.find(sub)]: the lowest index where [sub] occurs, or -1. *)
Fixpoint find (s sub : str) : Z :=
  if startswith s sub then 0
  else match s with
       | [] => -1
       | _ :: s' => let r := find s' sub in if r <? 0 then -1 else r + 1
       end.

(** [sub in s] *)
Definition contains (sub s : str) : bool := 0 <=? find s sub.

(** Index normalisation of a slice bound: negative bounds count from the
    end, and every bound is clipped to [0, len]. *)
Definition clip (n i : Z) : nat :=
  Z.to_nat (if i <? 0 then Z.max (i + n) 0 else Z.min i n).

(** [l[lo:hi]] for optional bounds (step 1). *)
Definition slice {A} (lo hi : option Z) (l : list A) : list A :=
  let n := len l in
  let a := match lo with Some i => clip n i | None => O end in
  let b := match hi with Some i => clip n i | None => List.length l end in
  firstn (b - a) (skipn a l).

(** [l[i]], with a negative index counting from the end. *)
Definition index {A} (l : list A) (i : Z) : option A :=
  let n := len l in
  if (0 <=? i) && (i <? n) then nth_error l (Z.to_nat i)
  else if (i <? 0) && (- n <=? i) then nth_error l (Z.to_nat (i + n))
  else None.

(** The characters [str.isspace] accepts. *)
Definition isspace (c : char) : bool :=
  let z := Z.of_N c in
  ((9 <=? z) && (z <=? 13)) || ((28 <=? z) && (z <=? 32))
  || (z =? 133) || (z =? 160) || (z =? 5760)
  || ((8192 <=? z) && (z <=? 8202))
  || (z =? 8232) || (z =? 8233) || (z =? 8239) || (z =? 8287) || (z =? 12288).

Fixpoint lstrip_by (f : char -> bool) (s : str) : str :=
  match s with
  | c :: s' => if f c then lstrip_by f s' else s
  | [] => []
  end.

Definition strip_by (f : char -> bool) (s : str) : str :=
  rev (lstrip_by f (rev (lstrip_by f s))).

(** [s.strip()] *)
Definition strip (s : str) : str := strip_by isspace s.

(** [s.strip(chars)] *)
Definition strip_chars (chars : str) (s : str) : str :=
  strip_by (fun c => existsb (N.eqb c) chars) s.

(** [sep.join(parts)] *)
Fixpoint join (sep : str) (parts : list str) : str :=
  match parts with
  | [] => []
  | [p] => p
  | p :: rest => p ++ sep ++ join sep rest
  end.

(** [s.split(sep)] for a one-character separator, the only kind the
    source uses: the result always has at least one element. *)
Fixpoint split1 (sep : char) (s : str) : str * list str :=
  match s with
  | [] => ([], [])
  | c :: s' =>
      let '(hd, tl) := split1 sep s' in
      if N.eqb c sep then ([], hd :: tl) else (c :: hd, tl)
  end.

Definition split (sep : char) (s : str) : list str :=
  let '(hd, tl) := split1 sep s in hd :: tl.

(** [s.replace(old, new)]: every non-overlapping occurrence, left to
    right.  [skip] counts the characters of a match still to drop. *)
Fixpoint replace_from (old new : str) (skip : nat) (s : str) : str :=
  match s with
  | [] => []
  | c :: s' =>
      match skip with
      | S k => replace_from old new k s'
      | O =>
          if startswith s old
          then new ++ replace_from old new (List.length old - 1) s'
          else c :: replace_from old new O s'
      end
  end.

Definition replace (old new s : str) : str :=
  match old with
  | [] => new ++ flat_map (fun c => c :: new) s
  | _ => replace_from old new O s
  end.

Definition newline : char := 10%N.
Definition space : char := 32%N.
Definition hyphen : char := 45%N.

(** [str(n)] for the integers of the prompts ([i+1], an index). *)
Fixpoint digits (fuel : nat) (n : N) (acc : str) : str :=
  match fuel with
  | O => acc
  | S fuel' =>
      let acc' := (48 + N.modulo n 10)%N :: acc in
      if (n <? 10)%N then acc' else digits fuel' (N.div n 10) acc'
  end.

Definition of_nat (n : nat) : str :=
  digits (S n) (N.of_nat n) [].

End Py.

Definition str : Type := Py.str.
Notation "'py' s" := (Py.lit s%string) (at level 9, s at level 0, only parsing).

(** The exceptions the source can raise. *)
Inductive exn : Type :=
| ValueError | NameError | KeyError | IndexError | TypeError
| AttributeError | AssertionError | NotImplementedError
| UnboundLocalError | OverflowError.

Inductive result (A : Type) : Type :=
| Ok (a : A)
| Raise (e : exn).
Arguments Ok {A} a.
Arguments Raise {A} e.

Definition rbind {A B} (r : result A) (k : A -> result B) : result B :=
  match r with
  | Ok a => k a
  | Raise e => Raise e
  end.

Definition exn_eqb (a b : exn) : bool :=
  match a, b with
  | ValueError, ValueError | NameError, NameError | KeyError, KeyError
  | IndexError, IndexError | TypeError, TypeError
  | AttributeError, AttributeError | AssertionError, AssertionError
  | NotImplementedError, NotImplementedError
  | UnboundLocalError, UnboundLocalError | OverflowError, OverflowError => true
  | _, _ => false
  end.

(** [l[i]] raising [IndexError] out of range. *)
Definition getitem {A} (l : list A) (i : Z) : result A :=
  match Py.index l i with
  | Some a => Ok a
  | None => Raise IndexError
  end.

(** [l[i] = v]: the list with position [i] overwritten. *)
Fixpoint set_nth {A} (l : list A) (i : nat) (v : A) : list A :=
  match l, i with
  | [], _ => []
  | _ :: l', O => v :: l'
  | x :: l', S i' => x :: set_nth l' i' v
  end.

Definition setitem {A} (l : list A) (i : Z) (v : A) : result (list A) :=
  let n := Py.len l in
  if (0 <=? i) && (i <? n) then Ok (set_nth l (Z.to_nat i) v)
  else if (i <? 0) && (- n <=? i) then Ok (set_nth l (Z.to_nat (i + n)) v)
  else Raise IndexError.

(** [[f(x) for x in xs]] where [f] may raise: the first exception wins. *)
Fixpoint map_result {A B} (f : A -> result B) (xs : list A)
  : result (list B) :=
  match xs with
  | [] => Ok []
  | x :: xs' =>
      rbind (f x) (fun y => rbind (map_result f xs') (fun ys => Ok (y :: ys)))
  end.

(** The stable sort by insertion: [precedes x y] says that [x] must come
    before [y]; elements that neither precedes keep their order.  It is
    what Python's [sorted] returns whenever the keys are comparable (a
    stable sort has one result then). *)
Fixpoint insert_by {A} (precedes : A -> A -> bool) (x : A) (l : list A)
  : list A :=
  match l with
  | [] => [x]
  | y :: l' => if precedes x y then x :: l else y :: insert_by precedes x l'
  end.

Definition sorted_by {A} (precedes : A -> A -> bool) (l : list A) : list A :=
  fold_left (fun acc x => insert_by precedes x acc) l [].

(* ================================================================== *)
(** * Floating-point arithmetic *)
(* ================================================================== *)

(** The operations the source applies to Python floats, numpy scalars and
    torch scalars.  [fltb a b] is [a < b]; [ftrunc] is [int(x)]; [fexp] is
    [math.exp], which raises [OverflowError] when the result is beyond the
    largest float; [fsorted_desc key xs] is
    [sorted(xs, key=key, reverse=True)] for a float key, the result of
    CPython's sort, which with a NaN among the keys is not one fixed order
    of them. *)
Class Float (F : Type) : Type := {
  of_Z : Z -> F;
  fadd : F -> F -> F;
  fneg : F -> F;
  fmul : F -> F -> F;
  fdiv : F -> F -> F;
  fltb : F -> F -> bool;
  fmax : F -> F -> F;
  fmin : F -> F -> F;
  fexp : F -> result F;
  ftrunc : F -> result Z;
  fsorted_desc : forall A : Type, (A -> F) -> list A -> list A
}.
Arguments fsorted_desc {F _ A} key xs.

Section FloatOps.
Context {F : Type} `{Float F}.

Definition fzero : F := of_Z 0.
Definition fone : F := of_Z 1.
Definition fsub (a b : F) : F := fadd a (fneg b).
(** [a > b] *)
Definition fgtb (a b : F) : bool := fltb b a.

(** Python's [sum(xs)]: a left fold that starts from 0. *)
Definition fsum (xs : list F) : F := fold_left fadd xs fzero.

(** [np.mean(xs)]: the sum over the count; 0/0 on an empty array. *)
Definition np_mean (xs : list F) : F := fdiv (fsum xs) (of_Z (Py.len xs)).

(** [np.max(xs)] and [np.min(xs)] raise [ValueError] on an empty array
    (a reduction with no identity). *)
Definition np_max (xs : list F) : result F :=
  match xs with
  | [] => Raise ValueError
  | x :: xs' => Ok (fold_left fmax xs' x)
  end.

Definition np_min (xs : list F) : result F :=
  match xs with
  | [] => Raise ValueError
  | x :: xs' => Ok (fold_left fmin xs' x)
  end.
End FloatOps.

(** Exact arithmetic: the rationals with the IEEE special values.  Nothing
    is rounded and nothing overflows; zero is unsigned. *)
Inductive num : Type :=
| Fin (q : Q)
| PInf
| NInf
| NaN.

Module Num.

Definition Qlt_bool (a b : Q) : bool := negb (Qle_bool b a).

Definition inf (negative : bool) : num := if negative then NInf else PInf.

Definition add (a b : num) : num :=
  match a, b with
  | NaN, _ | _, NaN => NaN
  | Fin x, Fin y => Fin (x + y)
  | PInf, NInf | NInf, PInf => NaN
  | PInf, _ | _, PInf => PInf
  | NInf, _ | _, NInf => NInf
  end.

Definition neg (a : num) : num :=
  match a with
  | Fin x => Fin (- x)
  | PInf => NInf
  | NInf => PInf
  | NaN => NaN
  end.

(** An infinity of sign [negative] scaled by the finite [x]. *)
Definition scale_inf (negative : bool) (x : Q) : num :=
  if Qeq_bool x 0 then NaN
  else inf (xorb negative (Qlt_bool x 0)).

Definition mul (a b : num) : num :=
  match a, b with
  | NaN, _ | _, NaN => NaN
  | Fin x, Fin y => Fin (x * y)
  | PInf, Fin y | Fin y, PInf => scale_inf false y
  | NInf, Fin y | Fin y, NInf => scale_inf true y
  | PInf, PInf | NInf, NInf => PInf
  | PInf, NInf | NInf, PInf => NInf
  end.

Definition div (a b : num) : num :=
  match a, b with
  | NaN, _ | _, NaN => NaN
  | Fin x, Fin y =>
      if Qeq_bool y 0
      then (if Qeq_bool x 0 then NaN else inf (Qlt_bool x 0))
      else Fin (x / y)
  | Fin _, _ => Fin 0
  | PInf, Fin y => inf (Qlt_bool y 0)
  | NInf, Fin y => inf (negb (Qlt_bool y 0))
  | _, _ => NaN
  end.

Definition ltb (a b : num) : bool :=
  match a, b with
  | Fin x, Fin y => Qlt_bool x y
  | NInf, Fin _ | NInf, PInf | Fin _, PInf => true
  | _, _ => false
  end.

(** numpy and torch maxima and minima propagate NaN. *)
Definition max (a b : num) : num :=
  match a, b with
  | NaN, _ | _, NaN => NaN
  | _, _ => if ltb a b then b else a
  end.

Definition min (a b : num) : num :=
  match a, b with
  | NaN, _ | _, NaN => NaN
  | _, _ => if ltb b a then b else a
  end.

Definition truncate (x : Q) : Z :=
  if Qlt_bool x 0 then Qceiling x else Qfloor x.

Definition trunc (a : num) : result Z :=
  match a with
  | Fin x => Ok (truncate x)
  | NaN => Raise ValueError
  | _ => Raise OverflowError
  end.

(** The largest double whose exponential is a double,
    [709.782712893384] ([0x1.62e42fefa39efp+9]): above it [math.exp]
    raises [OverflowError]. *)
Definition exp_max : Q := 6243314768165359 # 8796093022208.

(** The exponential is a parameter [qexp] of the instance: the theorems
    that depend on it say what they need of it.  [math.exp(inf)] is
    [inf], and raises nothing. *)
Definition exp (qexp : Q -> Q) (a : num) : result num :=
  match a with
  | Fin x =>
      if Qlt_bool exp_max x then Raise OverflowError else Ok (Fin (qexp x))
  | PInf => Ok PInf
  | NInf => Ok (Fin 0)
  | NaN => Ok NaN
  end.

Definition float (qexp : Q -> Q) : Float num := {|
  of_Z := fun z => Fin (inject_Z z);
  fadd := add;
  fneg := neg;
  fmul := mul;
  fdiv := div;
  fltb := ltb;
  fmax := max;
  fmin := min;
  fexp := exp qexp;
  ftrunc := trunc;
  fsorted_desc := fun A key => sorted_by (fun x y => ltb (key y) (key x))
|}.

(** A rational stand-in for [exp], used where a concrete run is needed:
    the second-order Taylor polynomial. *)
Definition taylor2 (x : Q) : Q := 1 + x + x * x / 2.

End Num.

(* ================================================================== *)
(** * The external collaborators and the state of a run *)
(* ================================================================== *)

(** A retriever object.  [NotImplementedErrorInstance] is the exception
    object that [_retriever_selector] hands back for an unknown kind. *)
Inductive Retriever : Type :=
| BM25 (kwargs : list (str * str))
| SGPT (kwargs : list (str * str))
| DatabricksVectorSearch (kwargs : list (str * str))
| NotImplementedErrorInstance.

(** [retriever.__class__.__name__] *)
Definition class_name (r : Retriever) : str :=
  match r with
  | BM25 _ => py "BM25"
  | SGPT _ => py "SGPT"
  | DatabricksVectorSearch _ => py "DatabricksVectorSearch"
  | NotImplementedErrorInstance => py "NotImplementedError"
  end.

(** What a run asks of the outside world, in order. *)
Inductive Event : Type :=
| EvGenerate (input_ids : list Z) (max_new_tokens : Z)
| EvForward (input_ids : list Z)
| EvSearch (r : Retriever) (query : str) (topk : Z).

(** transformers, torch, spaCy and the retrievers.  The model and the
    retrievers receive the number of requests made before theirs, so that
    two equal requests may be answered differently (sampling, a changing
    index).
    - [lm_generate n ids k] is the continuation [model.generate] appends to
      the prompt [ids], each new token with its transition score;
    - [last_layer_attention n ids] is
      [model(ids, output_attentions=True).attentions[-1][0]], indexed
      [head][query position][key position]: for every head a square
      matrix of the size of [ids], the shape for which the tensor
      operations below are written;
    - [id_to_token] is the vocabulary entry that [convert_ids_to_tokens]
      looks up for each id;
    - [sents], [ents] and [content_words] are spaCy's sentence texts, entity
      texts, and the texts of the tokens tagged NOUN, ADJ, VERB, PROPN or
      NUM;
    - [search n r query topk max_query_length] is the passages
      [r.retrieve] ranks for the one query it is given ([docs[0]]); only
      BM25 is passed a [max_query_length]. *)
Record Backend (F : Type) : Type := {
  apply_chat_template : str -> bool -> str;
  encode : str -> list Z;
  decode : bool -> list Z -> str;
  id_to_token : Z -> str;
  tokenize : str -> list str;
  space_token : str;
  eos_token : str;
  newline_token : Z;
  lm_generate : nat -> list Z -> Z -> list (Z * F);
  last_layer_attention : nat -> list Z -> list (list (list F));
  sents : str -> list str;
  ents : str -> list str;
  content_words : str -> list str;
  search : nat -> Retriever -> str -> Z -> option Z -> list str
}.
Arguments apply_chat_template {F} _ _ _.
Arguments encode {F} _ _.
Arguments decode {F} _ _ _.
Arguments id_to_token {F} _ _.
Arguments tokenize {F} _ _.
Arguments space_token {F} _.
Arguments eos_token {F} _.
Arguments newline_token {F} _.
Arguments lm_generate {F} _ _ _ _.
Arguments last_layer_attention {F} _ _ _.
Arguments sents {F} _ _.
Arguments ents {F} _ _.
Arguments content_words {F} _ _.
Arguments search {F} _ _ _ _ _ _.

Module Counter.

Record t : Type := mk {
  retrieve : Z;
  generate : Z;
  hallucinated : Z;
  token : Z;
  sentence : Z
}.

(** [Counter.__init__] *)
Definition init : t := mk 0 0 0 0 0.

(** [Counter.calc]: the difference with an earlier snapshot. *)
Definition calc (self other_counter : t) : t :=
  mk (retrieve self - retrieve other_counter)
     (generate self - generate other_counter)
     (hallucinated self - hallucinated other_counter)
     (token self - token other_counter)
     (sentence self - sentence other_counter).

End Counter.

(** The mutable part of a run: [self.counter] and the requests made. *)
Record State : Type := mkState {
  counter : Counter.t;
  events : list Event
}.

Definition clock (st : State) : nat := List.length (events st).

(** Stateful code that may raise: the state reached is kept either way. *)
Definition M (A : Type) : Type := State -> result A * State.

Definition ret {A} (a : A) : M A := fun st => (Ok a, st).

Definition raise {A} (e : exn) : M A := fun st => (Raise e, st).

Definition bind {A B} (c : M A) (k : A -> M B) : M B :=
  fun st =>
    match c st with
    | (Ok a, st') => k a st'
    | (Raise e, st') => (Raise e, st')
    end.

Definition lift {A} (r : result A) : M A := fun st => (r, st).

Definition request {A} (ev : Event) (answer : nat -> A) : M A :=
  fun st => (Ok (answer (clock st)),
             mkState (counter st) (events st ++ [ev])).

Definition update_counter (f : Counter.t -> Counter.t) : M unit :=
  fun st => (Ok tt, mkState (f (counter st)) (events st)).

Declare Scope m_scope.
Delimit Scope m_scope with m.
Notation "x <- c ;; k" := (bind c (fun x => k))
  (at level 61, c at next level, right associativity) : m_scope.
Notation "' pat <- c ;; k" := (bind c (fun x => match x with pat => k end))
  (at level 61, pat pattern, c at next level, right associativity) : m_scope.
Notation "c ;;; k" := (bind c (fun _ => k))
  (at level 61, right associativity) : m_scope.
Local Open Scope m_scope.

(** [for x in xs: body] over an accumulator. *)
Fixpoint for_each {A B} (xs : list A) (acc : B) (body : B -> A -> M B) : M B :=
  match xs with
  | [] => ret acc
  | x :: xs' => acc' <- body acc x ;; for_each xs' acc' body
  end.

(** [enumerate(xs)], from index [i]. *)
Fixpoint enumerate_from {A} (i : nat) (xs : list A) : list (nat * A) :=
  match xs with
  | [] => []
  | x :: xs' => (i, x) :: enumerate_from (S i) xs'
  end.

Definition enumerate {A} (xs : list A) : list (nat * A) := enumerate_from O xs.

Fixpoint zip_with {A B C} (f : A -> B -> C) (xs : list A) (ys : list B)
  : list C :=
  match xs, ys with
  | x :: xs', y :: ys' => f x y :: zip_with f xs' ys'
  | _, _ => []
  end.

(* ================================================================== *)
(** * BasicGenerator *)
(* ================================================================== *)

(** The components of the tuples that [generate] returns. *)
Inductive pyval (F : Type) : Type :=
| PStr (s : str)
| PNone
| PIds (rows : list (list Z))
| PFloats (xs : list F)
| PStrs (l : list str)
| POutputs.
Arguments PStr {F} s.
Arguments PNone {F}.
Arguments PIds {F} rows.
Arguments PFloats {F} xs.
Arguments PStrs {F} l.
Arguments POutputs {F}.

(** [a, b, c = t] and [a, b, c, d = t]: a tuple of any other length raises
    [ValueError]. *)
Definition unpack3 {A} (t : list A) : result (A * A * A) :=
  match t with
  | [a; b; c] => Ok (a, b, c)
  | _ => Raise ValueError
  end.

Definition unpack4 {A} (t : list A) : result (A * A * A * A) :=
  match t with
  | [a; b; c; d] => Ok (a, b, c, d)
  | _ => Raise ValueError
  end.

(** The dynamic type a later use demands of a component. *)
Definition as_str {F} (v : pyval F) : result str :=
  match v with PStr s => Ok s | _ => Raise AttributeError end.

Definition as_ids {F} (v : pyval F) : result (list (list Z)) :=
  match v with PIds r => Ok r | _ => Raise TypeError end.

Definition as_floats {F} (v : pyval F) : result (list F) :=
  match v with PFloats x => Ok x | _ => Raise TypeError end.

Definition as_strs {F} (v : pyval F) : result (list str) :=
  match v with PStrs l => Ok l | _ => Raise TypeError end.

Module BasicGenerator.
Section WithBackend.
Context {F : Type} `{Float F} (W : Backend F).

(** The token id of [</think>] in the Qwen vocabulary. *)
Definition think_end : Z := 151668.

(** [len(ids) - ids[::-1].index(151668)], or 0 when the id is absent: the
    position just after its last occurrence. *)
Fixpoint after_last (ids : list Z) : nat :=
  match ids with
  | [] => O
  | i :: ids' =>
      match after_last ids' with
      | O => if i =? think_end then 1%nat else O
      | S k => S (S k)
      end
  end.

Definition generate (input_text : str) (max_length : Z)
    (enable_thinking return_logprobs : bool) : M (list (pyval F)) :=
  let text := apply_chat_template W input_text enable_thinking in
  let input_ids := encode W text in
  let input_length := Py.len input_ids in
  out <- request (EvGenerate input_ids max_length)
           (fun n => lm_generate W n input_ids max_length) ;;
  let sequences := input_ids ++ map fst out in
  if return_logprobs then
    let transition_scores := map snd out in
    let generated_ids := Py.slice (Some input_length) None sequences in
    let text := decode W false generated_ids in
    let tokens := map (fun t => decode W false [t]) generated_ids in
    let logprobs := transition_scores in
    if Nat.eqb (List.length tokens) (List.length logprobs)
    then ret [PStr text; PIds [generated_ids]; PFloats logprobs; POutputs]
    else raise AssertionError
  else
    let generated_ids := Py.slice (Some input_length) None sequences in
    let index := Z.of_nat (after_last generated_ids) in
    let text :=
      Py.strip_chars [Py.newline]
        (decode W true (Py.slice (Some index) None generated_ids)) in
    ret [PStr text; PNone; PNone; PNone].

(** The merge of sub-word tokens into whitespace-delimited units:
    [range_] holds the first and the last index of every unit. *)
Definition bump_last (range_ : list (nat * nat)) : list (nat * nat) :=
  match rev range_ with
  | [] => range_
  | (a, b) :: front => rev front ++ [(a, S b)]
  end.

Definition merge_step (ids : list Z) (tokens : list str)
    (range_ : list (nat * nat)) (it : nat * str) : list (nat * nat) :=
  let '(i, t) := it in
  if Nat.eqb i 0
     || Py.startswith t (space_token W)
     || (nth i ids 0 =? newline_token W)
     || Py.eqb (nth (i - 1) tokens []) (eos_token W)
  then range_ ++ [(i, i)]
  else bump_last range_.

Definition merge_ranges (ids : list Z) (tokens : list str)
  : list (nat * nat) :=
  fold_left (merge_step ids tokens) (enumerate tokens) [].

(** [l[r[0] : r[1]+1]] *)
Definition unit_slice {A} (r : nat * nat) (l : list A) : list A :=
  Py.slice (Some (Z.of_nat (fst r))) (Some (Z.of_nat (snd r) + 1)) l.

(** Reductions of a tensor along an axis.  [col_reduce f rows] folds the
    rows position by position: over [atten[h]] it reduces [dim=1] of
    [atten] (the query positions), over a list of per-head vectors it
    reduces [dim=0] (the heads). *)
Definition col_reduce (f : F -> F -> F) (rows : list (list F)) : list F :=
  match rows with
  | [] => []
  | r :: rs => fold_left (zip_with f) rs r
  end.

(** [torch.max(atten, dim=1)] (the values) *)
Definition torch_max_dim1 (atten : list (list (list F))) : list (list F) :=
  map (col_reduce fmax) atten.

(** [torch.sum(atten, dim=1)] *)
Definition torch_sum_dim1 (atten : list (list (list F))) : list (list F) :=
  map (col_reduce fadd) atten.

(** [torch.mean(x, dim=0)] *)
Definition torch_mean_dim0 (x : list (list F)) : list F :=
  map (fun v => fdiv v (of_Z (Py.len x))) (col_reduce fadd x).

(** [for i in range(n): mean_atten[i] /= (n - i)] *)
Definition decay (mean_atten : list F) : list F :=
  let n := Py.len mean_atten in
  map (fun iv => fdiv (snd iv) (of_Z (n - Z.of_nat (fst iv))))
      (enumerate mean_atten).

(** [atten[:, -1]]: the last row of every head. *)
Definition last_rows (atten : list (list (list F))) : list (list F) :=
  map (fun head => last head []) atten.

(** The reduction of the last-layer attention to one weight by position,
    for the attention of at least one generated token, which is what
    [model.generate] hands over ([torch.max] over a dimension of size zero
    and [atten[:, -1]] on an empty tensor raise [IndexError]). *)
Definition reduce_attention (solver : str) (atten : list (list (list F)))
  : result (list F) :=
  if Py.eqb solver (py "max") then
    Ok (torch_mean_dim0 (torch_max_dim1 atten))
  else if Py.eqb solver (py "avg") then
    Ok (decay (torch_mean_dim0 (torch_sum_dim1 atten)))
  else if Py.eqb solver (py "last_token") then
    Ok (torch_mean_dim0 (last_rows atten))
  else Raise NotImplementedError.

Definition generate_attn (input_text : str) (max_length : Z) (solver : str)
    (use_entropy use_logprob : bool)
  : M (str * list str * list F * option (list F) * option (list F)) :=
  t <- generate input_text max_length false true ;;
  '(text, generated_ids, logprobs, outputs) <- lift (unpack4 t) ;;
  text <- lift (as_str text) ;;
  generated_ids <- lift (as_ids generated_ids) ;;
  logprobs <- lift (as_floats logprobs) ;;
  ids0 <- lift (getitem generated_ids 0) ;;
  (* merge tokens *)
  let tokens := map (id_to_token W) ids0 in
  (* 266 is the code point of the marker that byte-level vocabularies
     write for a line feed *)
  let tokens := map (Py.replace [266%N] [Py.newline]) tokens in
  let range_ := merge_ranges ids0 tokens in
  (* attention *)
  atten <- request (EvForward ids0)
             (fun n => last_layer_attention W n ids0) ;;
  mean_atten <- lift (reduce_attention solver atten) ;;
  let mean_atten :=
    if (1 <? Py.len mean_atten) && Py.eqb (nth 0 tokens []) (eos_token W)
    then let s := fsum (Py.slice (Some 1) None mean_atten) in
         map (fun v => fdiv v s) mean_atten
    else mean_atten in
  (* regular tokens *)
  let seqlist :=
    map (fun r => Py.replace (space_token W) []
                    (List.concat (unit_slice r tokens))) range_ in
  let attns := map (fun r => fsum (unit_slice r mean_atten)) range_ in
  (* -log prob *)
  let seqlogprobs :=
    if use_logprob
    then Some (map (fun r =>
                 fdiv (fsum (unit_slice r logprobs))
                      (of_Z (Z.of_nat (snd r) - Z.of_nat (fst r) + 1)))
               range_)
    else None in
  (* entropy: [scores] is bound neither in this function nor in the
     module, so reading it raises NameError *)
  seqentropies <-
    (if use_entropy then raise NameError else ret (@None (list F))) ;;
  ret (text, seqlist, attns, seqlogprobs, seqentropies).

End WithBackend.
End BasicGenerator.

(* ================================================================== *)
(** * BasicRAG: configuration, construction, retrieval gateway *)
(* ================================================================== *)

(** One entry of [retriever_configs]: [{name: {retriever_type, description,
    **kwargs}}]. *)
Record RetrieverConfig : Type := {
  rc_name : str;
  retriever_type : str;
  description : str;
  rc_kwargs : list (str * str)
}.

(** The options [BasicRAG.__init__] copies from [args] onto [self].  An
    option that the source looks up in [self.__dict__] before reading it is
    an [option]. *)
Record Args (F : Type) : Type := {
  method : str;
  retriever_configs : option (list RetrieverConfig);
  query_formulation : str;
  query_decomposition : bool;
  hallucination_threshold : F;
  sentence_solver : str;
  entity_solver : str;
  retrieve_topk : Z;
  generate_max_length : Z;
  fix_length : Z;
  use_counter : bool;
  enable_thinking : bool;
  check_real_words : option bool;
  retrieve_keep_top_k : option Z;
  retrieve_keep_ratio : option F
}.
Arguments method {F} _.
Arguments retriever_configs {F} _.
Arguments query_formulation {F} _.
Arguments query_decomposition {F} _.
Arguments hallucination_threshold {F} _.
Arguments sentence_solver {F} _.
Arguments entity_solver {F} _.
Arguments retrieve_topk {F} _.
Arguments generate_max_length {F} _.
Arguments fix_length {F} _.
Arguments use_counter {F} _.
Arguments enable_thinking {F} _.
Arguments check_real_words {F} _.
Arguments retrieve_keep_top_k {F} _.
Arguments retrieve_keep_ratio {F} _.

(** A Python [dict] with string keys, in insertion order. *)
Definition dict (V : Type) : Type := list (str * V).

Fixpoint dict_get {V} (d : dict V) (k : str) : option V :=
  match d with
  | [] => None
  | (k', v) :: d' => if Py.eqb k' k then Some v else dict_get d' k
  end.

(** [d[k] = v]: an existing key keeps its place. *)
Fixpoint dict_set {V} (d : dict V) (k : str) (v : V) : dict V :=
  match d with
  | [] => [(k, v)]
  | (k', v') :: d' =>
      if Py.eqb k' k then (k, v) :: d' else (k', v') :: dict_set d' k v
  end.

(** [d[k]], raising [KeyError]. *)
Definition dict_item {V} (d : dict V) (k : str) : result V :=
  match dict_get d k with
  | Some v => Ok v
  | None => Raise KeyError
  end.

(** The value [self.retrievers[name]]. *)
Record RetrieverEntry : Type := {
  entry_description : str;
  entry_retriever : Retriever
}.

(** The attributes of a constructed RAG object that never change.
    [self.retrievers] and [self.multi_vector_index] exist only when
    [retriever_configs] was configured. *)
Record RAG (F : Type) : Type := {
  args : Args F;
  gateway : option (bool * dict RetrieverEntry)
}.
Arguments args {F} _.
Arguments gateway {F} _.

(** A few-shot demonstration [d], read as [d["case"]]. *)
Record Demo : Type := { demo_case : str }.

Module BasicRAG.
Section WithBackend.
Context {F : Type} `{Float F} (W : Backend F).

(** [_retriever_selector]: an unknown kind reaches the last branch, which
    is a [return] of a [NotImplementedError] object, not a [raise]. *)
Definition _retriever_selector (retriever_type : str)
    (kwargs : list (str * str)) : result Retriever :=
  if Py.eqb retriever_type (py "BM25") then Ok (BM25 kwargs)
  else if Py.eqb retriever_type (py "SGPT") then Ok (SGPT kwargs)
  else if Py.eqb retriever_type (py "DatabricksVectorSearch")
  then Ok (DatabricksVectorSearch kwargs)
  else Ok NotImplementedErrorInstance.

Fixpoint build_retrievers (configs : list RetrieverConfig)
    (retrievers : dict RetrieverEntry) : result (dict RetrieverEntry) :=
  match configs with
  | [] => Ok retrievers
  | config :: rest =>
      rbind (_retriever_selector (retriever_type config) (rc_kwargs config))
        (fun retriever =>
           build_retrievers rest
             (dict_set retrievers (rc_name config)
                {| entry_description := description config;
                   entry_retriever := retriever |}))
  end.

(** [BasicRAG.__init__]: the object and its fresh counter. *)
Definition init (a : Args F) : result (RAG F * Counter.t) :=
  match retriever_configs a with
  | Some configs =>
      let multi_vector_index :=
        if Nat.eqb (List.length configs) 1 then false else true in
      rbind (build_retrievers configs [])
        (fun retrievers =>
           Ok ({| args := a;
                  gateway := Some (multi_vector_index, retrievers) |},
               Counter.init))
  | None => Ok ({| args := a; gateway := None |}, Counter.init)
  end.

Definition incr_retrieve : M unit :=
  update_counter (fun c =>
    Counter.mk (Counter.retrieve c + 1) (Counter.generate c)
      (Counter.hallucinated c) (Counter.token c) (Counter.sentence c)).

Definition incr_hallucinated : M unit :=
  update_counter (fun c =>
    Counter.mk (Counter.retrieve c) (Counter.generate c)
      (Counter.hallucinated c + 1) (Counter.token c) (Counter.sentence c)).

(** [Counter.add_generate(text, tokenizer)] *)
Definition add_generate (text : str) : M unit :=
  update_counter (fun c =>
    Counter.mk (Counter.retrieve c) (Counter.generate c + 1)
      (Counter.hallucinated c)
      (Counter.token c + Py.len (encode W text))
      (Counter.sentence c + Py.len (sents W text))).

(** [if self.use_counter == True: self.counter.add_generate(...)] *)
Definition count_generate (self : RAG F) (text : str) : M unit :=
  if use_counter (args self) then add_generate text else ret tt.

Definition _retrieve (query : str) (retriever : Retriever) (topk : Z)
    (max_query_length : Z) : M (list str) :=
  incr_retrieve ;;;
  let retriever_type := class_name retriever in
  if Py.eqb retriever_type (py "BM25") then
    request (EvSearch retriever query topk)
      (fun n => search W n retriever query topk (Some max_query_length))
  else if Py.eqb retriever_type (py "SGPT") then
    request (EvSearch retriever query topk)
      (fun n => search W n retriever query topk None)
  else if Py.eqb retriever_type (py "DatabricksVectorSearch") then
    request (EvSearch retriever query topk)
      (fun n => search W n retriever query topk None)
  else raise NotImplementedError.

(** The menu of indices in the selection prompt. *)
Definition index_menu (retrievers : dict RetrieverEntry) : str :=
  flat_map (fun kv => py "- " ++ fst kv ++ py ": "
                      ++ entry_description (snd kv) ++ [Py.newline])
           retrievers.

Definition selection_prompt (query : str)
    (retrievers : dict RetrieverEntry) : str :=
  py "Return which vector indices to select based on the query and index descriptions."
  ++ [Py.newline]
  ++ py "User query: " ++ query ++ [Py.newline]
  ++ py "Vector Index Summary:" ++ [Py.newline]
  ++ index_menu retrievers
  ++ py "Output ONLY your index selection(s) in bullet points ('-'), separated by a '\n':".

(** [ret.split("-")[-1].strip()] *)
Definition index_name (line : str) : str :=
  Py.strip (last (Py.split Py.hyphen line) []).

Definition retrieve (self : RAG F) (query : str) (topk : Z)
    (max_query_length : Z) : M (list str) :=
  incr_retrieve ;;;
  match gateway self with
  | None => raise AttributeError
  | Some (multi_vector_index, retrievers) =>
      if negb multi_vector_index then
        retriever_name <- lift (getitem (map fst retrievers) 0) ;;
        entry <- lift (dict_item retrievers retriever_name) ;;
        _retrieve query (entry_retriever entry) topk max_query_length
      else
        (* generator decides which index to choose *)
        let prompt := selection_prompt query retrievers in
        t <- BasicGenerator.generate W prompt 64 false false ;;
        first <- lift (getitem t 0) ;;
        model_output <- lift (as_str first) ;;
        let model_output := Py.strip model_output in
        for_each (Py.split Py.newline model_output) []
          (fun docs line =>
             entry <- lift (dict_item retrievers (index_name line)) ;;
             more <- _retrieve query (entry_retriever entry) topk
                       max_query_length ;;
             ret (docs ++ more))
  end.

Definition nonempty_stripped_sentences (text : str) : list str :=
  filter (fun sent => 0 <? Py.len sent) (map Py.strip (sents W text)).

Definition get_top_sentence (text : str) : str :=
  hd [] (nonempty_stripped_sentences text).

Definition get_last_sentence (text : str) : str :=
  last (nonempty_stripped_sentences text) [].

(** ["".join([d["case"] + "\n" for d in demo])] *)
Definition demo_prompt (demo : list Demo) : str :=
  flat_map (fun d => demo_case d ++ [Py.newline]) demo.

(** [for i, doc in enumerate(docs): prompt += f"[{i+1}] {doc}\n"] *)
Definition context_lines (docs : list str) : str :=
  flat_map (fun id => py "[" ++ Py.of_nat (S (fst id)) ++ py "] "
                      ++ snd id ++ [Py.newline])
           (enumerate docs).

(** The test that ends every inference loop:
    [tokens_count > generate_max_length or len(text) <= old_len
     or "the answer is" in text]. *)
Definition stop (self : RAG F) (old_len : Z) (text : str) : bool :=
  let tokens_count := Py.len (encode W text) in
  (generate_max_length (args self) <? tokens_count)
  || (Py.len text <=? old_len)
  || Py.contains (py "the answer is") text.

(** The three worked examples of the decomposition prompt, line by line;
    the last line ends with a double quote (code point 34). *)
Definition decompose_examples : str :=
  Py.join [Py.newline]
    [ py "### Example 1:";
      py "User Query:";
      py "How does attention work in transformers, and how is it different from RNNs?";
      [];
      py "Decomposed Output:";
      py "- How does attention work in transformers?";
      py "- How is attention different from RNNs?";
      [];
      py "### Example 2:";
      py "User Query:";
      py "Compare the effectiveness of FiD, RAG-Token, and DRAGIN for long-context QA.";
      [];
      py "Decomposed Output:";
      py "- How effective is FiD for long-context QA?";
      py "- How effective is RAG-Token for long-context QA?";
      py "- How effective is DRAGIN for long-context QA?";
      [];
      py "### Example 3:";
      py "User Query:";
      py "What are the benefits of using vector databases in RAG pipelines?";
      [];
      py "Decomposed Output:";
      py "- What are the benefits of using vector databases in RAG pipelines?"
      ++ [34%N] ]
  ++ [Py.newline].

(** [BasicRAG.decompose_query]: the lines of the generator's answer. *)
Definition decompose_query (self : RAG F) (question : str)
  : M (list str) :=
  let prompt :=
    py "Decompose the user query below into sub-queries if the question contains multiple parts or comparisons. Leave it unchanged otherwsie. Output the subqueries or original question in bullet points ('-') separated by '\n'."
    ++ [Py.newline] in
  let prompt := prompt ++ decompose_examples in
  let prompt :=
    prompt ++ [Py.newline] ++ py "User Query: " ++ question
    ++ [Py.newline] ++ py "Decomposed Output:" in
  t <- BasicGenerator.generate W prompt (generate_max_length (args self))
         (enable_thinking (args self)) false ;;
  '(text, _, _, _) <- lift (unpack4 t) ;;
  text <- lift (as_str text) ;;
  ret (Py.split Py.newline text).

(** [BasicRAG.inference]: the answer without retrieval. *)
Definition inference (self : RAG F) (question : str) (demo : list Demo)
    (case : str) : M str :=
  if Py.eqb (query_formulation (args self)) (py "direct") then
    let prompt := demo_prompt demo in
    let prompt := prompt ++ case in
    t <- BasicGenerator.generate W prompt (generate_max_length (args self))
           false false ;;
    '(text, _, _, _) <- lift (unpack4 t) ;;
    text <- lift (as_str text) ;;
    count_generate self text ;;;
    ret text
  else raise AssertionError.

End WithBackend.
End BasicRAG.

(* ================================================================== *)
(** * TokenRAG and EntityRAG: the probability-based detectors *)
(* ================================================================== *)

(** The literal placeholder of a flagged token or entity. *)
Definition placeholder : str := py "[xxx]".

Module TokenRAG.
Section WithBackend.
Context {F : Type} `{Float F} (W : Backend F).

(** [{"avg": np.mean, "max": np.max, "min": np.min}
      .get(self.sentence_solver, lambda x: 0)(probs)] *)
Definition sentence_reduce (sentence_solver : str) (probs : list F)
  : result F :=
  if Py.eqb sentence_solver (py "avg") then Ok (np_mean probs)
  else if Py.eqb sentence_solver (py "max") then np_max probs
  else if Py.eqb sentence_solver (py "min") then np_min probs
  else Ok (of_Z 0).

(** The [while tr < len(tokens)] scan of one sentence: [rest] is
    [tokens[tr:]]; the result is the final [tr]. *)
Fixpoint scan (sent : str) (rest : list str) (pos tr : Z) : Z :=
  match rest with
  | [] => tr
  | tok :: rest' =>
      let apr := Py.find (Py.slice (Some pos) None sent) tok in
      if apr =? -1 then tr
      else scan sent rest' (apr + Py.len tok) (tr + 1)
  end.

(** The replacement of the flagged units of [curr] by the placeholder,
    left to right: [units] pairs every uncertainty with its token (or
    entity). *)
Fixpoint mask (threshold : F) (units : list (F * str)) (curr : str)
    (pos : Z) : str :=
  match units with
  | [] => curr
  | (prob, tok) :: units' =>
      let apr := Py.find (Py.slice (Some pos) None curr) tok + pos in
      if fgtb prob threshold
      then mask threshold units'
             (Py.slice None (Some apr) curr ++ placeholder
              ++ Py.slice (Some (apr + Py.len tok)) None curr)
             (apr + Py.len placeholder)
      else mask threshold units' curr (apr + Py.len tok)
  end.

(** [1 - exp(v)], with the [OverflowError] of [math.exp]. *)
Definition uncertainty (v : F) : result F :=
  rbind (fexp v) (fun e => Ok (fsub (of_Z 1) e)).

(** The sentences before [sid], joined: the kept prefix. *)
Definition kept_prefix (sentences : list str) (sid : nat) : str :=
  if Nat.eqb sid 0 then []
  else Py.join [Py.space] (Py.slice None (Some (Z.of_nat sid)) sentences).

(** The body of [for sid, sent in enumerate(sentences)], from sentence
    [sid] on with the current [tid]. *)
Fixpoint detect (self : RAG F) (text : str) (tokens : list str)
    (logprobs : list F) (sentences : list str) (todo : list str)
    (sid : nat) (tid : Z) : result (str * option str * bool) :=
  match todo with
  | [] => Ok (text, None, false)
  | sent :: todo' =>
      let tr := scan sent (Py.slice (Some tid) None tokens) 0 tid in
      rbind (map_result uncertainty
               (Py.slice (Some tid) (Some (tr + 1)) logprobs))
        (fun probs =>
      rbind (sentence_reduce (sentence_solver (args self)) probs)
        (fun p =>
           if fgtb p (hallucination_threshold (args self)) then
             let prev := kept_prefix sentences sid in
             let curr := nth sid sentences [] in
             let units :=
               combine probs (Py.slice (Some tid) (Some (tr + 1)) tokens) in
             Ok (prev,
                 Some (mask (hallucination_threshold (args self))
                         units curr 0),
                 true)
           else
             detect self text tokens logprobs sentences todo' (S sid)
               (tr + 1)))
  end.

Definition modifier (self : RAG F) (text : str) (tokens : list str)
    (logprobs : list F) : result (str * option str * bool) :=
  let sentences := BasicRAG.nonempty_stripped_sentences W text in
  detect self text tokens logprobs sentences sentences O 0.

(** [TokenRAG.inference], with the detector [self.modifier] that the
    class of [self] supplies.  [loop fuel text] runs at most [fuel]
    iterations of [while True] and answers [None] when they do not
    suffice. *)
Section Inference.
Variable modifier_of_self :
  RAG F -> str -> list str -> list F -> result (str * option str * bool).
Variables (self : RAG F) (question : str) (demo : list Demo) (case : str).

(** One iteration, up to the stop test: the new [text]. *)
Definition iteration (text : str) : M str :=
  let prompt := BasicRAG.demo_prompt demo in
  let prompt := prompt ++ case ++ [Py.space] ++ text in
  t <- BasicGenerator.generate W prompt (generate_max_length (args self))
         false true ;;
  '(new_text, tokens, logprobs) <- lift (unpack3 t) ;;
  new_text <- lift (as_str new_text) ;;
  tokens <- lift (as_strs tokens) ;;
  logprobs <- lift (as_floats logprobs) ;;
  BasicRAG.count_generate W self new_text ;;;
  '(ptext, curr, hallucination) <-
    lift (modifier_of_self self new_text tokens logprobs) ;;
  if negb hallucination then
    ret (Py.strip text ++ [Py.space] ++ Py.strip new_text)
  else
    retrieve_question <-
      (if Py.eqb (query_formulation (args self)) (py "direct") then
         match curr with
         | Some curr => ret (Py.replace placeholder [] curr)
         | None => raise AttributeError
         end
       else if Py.eqb (query_formulation (args self)) (py "forward_all")
       then
         let tmp_all := [question; text; ptext] in
         ret (Py.join [Py.space]
                (filter (fun s => 0 <? Py.len s) tmp_all))
       else
         (* [raise NotImplemented]: not an exception class *)
         raise TypeError) ;;
    docs <- BasicRAG.retrieve W self retrieve_question
              (retrieve_topk (args self)) 64 ;;
    let prompt := BasicRAG.demo_prompt demo in
    let prompt := prompt ++ py "Context:" ++ [Py.newline] in
    let prompt := prompt ++ BasicRAG.context_lines docs in
    let prompt :=
      prompt ++ py "Answer in the same format as before."
      ++ [Py.newline] in
    let prompt :=
      prompt ++ case ++ [Py.space] ++ text ++ [Py.space]
      ++ Py.strip ptext in
    t <- BasicGenerator.generate W prompt
           (generate_max_length (args self)) false false ;;
    '(new_text, _, _) <- lift (unpack3 t) ;;
    new_text <- lift (as_str new_text) ;;
    (if use_counter (args self)
     then BasicRAG.add_generate W new_text ;;;
          BasicRAG.incr_hallucinated
     else ret tt) ;;;
    ret (Py.strip text ++ [Py.space] ++ Py.strip ptext ++ [Py.space]
         ++ Py.strip new_text).

Fixpoint loop (fuel : nat) (text : str) : M (option str) :=
  match fuel with
  | O => ret None
  | S fuel' =>
      let old_len := Py.len text in
      text' <- iteration text ;;
      if BasicRAG.stop W self old_len text' then ret (Some text')
      else loop fuel' text'
  end.

Definition inference_with (fuel : nat) : M (option str) := loop fuel [].
End Inference.

Definition inference (fuel : nat) (self : RAG F) (question : str)
    (demo : list Demo) (case : str) : M (option str) :=
  inference_with modifier self question demo case fuel.

End WithBackend.
End TokenRAG.

Module EntityRAG.
Section WithBackend.
Context {F : Type} `{Float F} (W : Backend F).

(** [for j in range(j, j + n): belonging[j] = tid] *)
Fixpoint fill (n : nat) (j : Z) (tid : Z) (belonging : list Z)
  : result (list Z) :=
  match n with
  | O => Ok belonging
  | S n' =>
      rbind (setitem belonging j tid)
        (fun belonging' => fill n' (j + 1) tid belonging')
  end.

(** The token that owns every character of [text]: the loop over
    [enumerate(tokens)], with its [assert apr != -1]. *)
Fixpoint own (text : str) (tokens : list (nat * str)) (pos : Z)
    (belonging : list Z) : result (list Z) :=
  match tokens with
  | [] => Ok belonging
  | (tid, tok) :: tokens' =>
      let apr := Py.find (Py.slice (Some pos) None text) tok + pos in
      if apr =? -1 then Raise AssertionError
      else
        rbind (fill (Z.to_nat (apr + Py.len tok - pos)) pos
                 (Z.of_nat tid) belonging)
          (fun belonging' =>
             own text tokens' (apr + Py.len tok) belonging')
  end.

Definition belonging_of (text : str) (tokens : list str)
  : result (list Z) :=
  own text (enumerate tokens) 0 (repeat (-1) (List.length text)).

(** The token interval [(el, er)] of every entity of one sentence. *)
Fixpoint intervals (text : str) (belonging : list Z) (entities : list str)
    (pos : Z) : result (list (Z * Z)) :=
  match entities with
  | [] => Ok []
  | ent :: entities' =>
      let apr := Py.find (Py.slice (Some pos) None text) ent + pos in
      rbind (getitem belonging apr) (fun el =>
      rbind (getitem belonging (apr + Py.len ent - 1)) (fun er =>
      rbind (intervals text belonging entities' (apr + Py.len ent))
        (fun tmp => Ok ((el, er) :: tmp))))
  end.

(** [{"avg": np.mean, "max": np.max, "min": np.min,
      "first": lambda x: x[0] if len(x) > 0 else 0}
      .get(self.entity_solver, lambda x: 0)(probs)] *)
Definition entity_reduce (entity_solver : str) (probs : list F)
  : result F :=
  if Py.eqb entity_solver (py "avg") then Ok (np_mean probs)
  else if Py.eqb entity_solver (py "max") then np_max probs
  else if Py.eqb entity_solver (py "min") then np_min probs
  else if Py.eqb entity_solver (py "first") then
    Ok (match probs with x :: _ => x | [] => of_Z 0 end)
  else Ok (of_Z 0).

(** [entity]: the entity texts of every sentence. *)
Definition entity_of (sentences : list str) : list (list str) :=
  map (ents W) sentences.

(** [entity_intv] *)
Definition entity_intv_of (text : str) (tokens : list str)
    (sentences : list str) : result (list (list (Z * Z))) :=
  rbind (belonging_of text tokens) (fun belonging =>
    map_result
      (fun se => intervals text belonging (snd se) (Py.find text (fst se)))
      (combine sentences (entity_of sentences))).

(** [entity_prob] *)
Definition entity_prob_of (self : RAG F) (logprobs : list F)
    (entity_intv : list (list (Z * Z))) : result (list (list F)) :=
  map_result
    (map_result
       (fun itv =>
          entity_reduce (entity_solver (args self))
            (Py.slice (Some (fst itv)) (Some (snd itv + 1)) logprobs)))
    entity_intv.

(** The last loop, [for sid in range(len(sentences))], from [sid] on:
    [todo] pairs [entity_prob[sid]] with [entity[sid]]. *)
Fixpoint detect (self : RAG F) (text : str) (sentences : list str)
    (todo : list (list F * list str)) (sid : nat)
  : result (str * option str * bool) :=
  match todo with
  | [] => Ok (text, None, false)
  | (entity_prob_sid, entity_sid) :: todo' =>
      if Nat.eqb (List.length entity_prob_sid) 0
      then detect self text sentences todo' (S sid)
      else
        rbind (map_result TokenRAG.uncertainty entity_prob_sid)
          (fun probs =>
        rbind (TokenRAG.sentence_reduce (sentence_solver (args self)) probs)
          (fun p =>
             if fgtb p (hallucination_threshold (args self)) then
               let prev := TokenRAG.kept_prefix sentences sid in
               let curr := nth sid sentences [] in
               Ok (prev,
                   Some (TokenRAG.mask (hallucination_threshold (args self))
                           (combine probs entity_sid) curr 0),
                   true)
             else detect self text sentences todo' (S sid)))
  end.

Definition modifier (self : RAG F) (text : str) (tokens : list str)
    (logprobs : list F) : result (str * option str * bool) :=
  let sentences := BasicRAG.nonempty_stripped_sentences W text in
  let entity := entity_of sentences in
  rbind (entity_intv_of text tokens sentences) (fun entity_intv =>
  rbind (entity_prob_of self logprobs entity_intv) (fun entity_prob =>
    detect self text sentences (combine entity_prob entity) O)).

(** [EntityRAG.inference] is [super().inference]: the loop of TokenRAG
    around this class's [modifier]. *)
Definition inference (fuel : nat) (self : RAG F) (question : str)
    (demo : list Demo) (case : str) : M (option str) :=
  TokenRAG.inference_with W modifier self question demo case fuel.

End WithBackend.
End EntityRAG.

(* ================================================================== *)
(** * AttnWeightRAG: the attention-weighted detector and reformulator *)
(* ================================================================== *)

(** [range(lo, hi)] for [0 <= lo]. *)
Definition range (lo hi : Z) : list Z :=
  map Z.of_nat (seq (Z.to_nat lo) (Z.to_nat hi - Z.to_nat lo)).

Module AttnWeightRAG.
Section WithBackend.
Context {F : Type} `{Float F} (W : Backend F).

(** [for i in range(tid + 1, len(tokens)): seq = " ".join(tokens[tl:i]);
    if sent in seq: tr = i; break] *)
Fixpoint first_containing (sent : str) (tokens : list str) (tl : Z)
    (candidates : list Z) (tr : Z) : Z :=
  match candidates with
  | [] => tr
  | i :: rest =>
      let seq := Py.join [Py.space] (Py.slice (Some tl) (Some i) tokens) in
      if Py.contains sent seq then i
      else first_containing sent tokens tl rest tr
  end.

(** [match(tok)]: some real word occurs in [tok]. *)
Definition matches (real_words : list str) (tok : str) : bool :=
  existsb (fun word => Py.contains word tok) real_words.

Fixpoint detect (self : RAG F) (text : str) (tokens : list str)
    (attentions weight : list F) (sentences : list str) (todo : list str)
    (sid : nat) (tid : Z)
  : result (bool * str * option (list str) * option (list Z)) :=
  match todo with
  | [] => Ok (false, text, None, None)
  | sent :: todo' =>
      let is_last := Z.of_nat sid =? Py.len sentences - 1 in
      let tl := tid in
      let tr :=
        if is_last then Py.len tokens
        else first_containing sent tokens tl
               (range (tid + 1) (Py.len tokens)) tid in
      let tid := if is_last then tid else tr in
      (* value = attenion * (-log prob) *)
      let attns := Py.slice (Some tl) (Some tr) attentions in
      let total := fsum attns in
      let attns := map (fun a => fdiv a total) attns in
      rbind (map_result
               (fun i =>
                  rbind (getitem attns (i - tl)) (fun a =>
                  rbind (getitem weight i) (fun w =>
                    Ok (fmul (fmul a w) (of_Z (tr - tl))))))
               (range tl tr))
        (fun value =>
           let thres :=
             map (fun v =>
                    if fgtb v (hallucination_threshold (args self))
                    then 1 else 0) value in
           if existsb (Z.eqb 1) thres then
             rbind
               (match check_real_words (args self) with
                | Some true =>
                    let real_words := content_words W sent in
                    map_result
                      (fun it =>
                         rbind (getitem tokens (tl + Z.of_nat (fst it)))
                           (fun tok =>
                              Ok (if negb (matches real_words tok)
                                  then 0 else snd it)))
                      (enumerate thres)
                | _ => Ok thres
                end)
               (fun thres =>
                  let prev := TokenRAG.kept_prefix sentences sid in
                  Ok (true, prev,
                      Some (Py.slice (Some tl) (Some tr) tokens),
                      Some thres))
           else
             detect self text tokens attentions weight sentences todo'
               (S sid) tid)
  end.

Definition modifier (self : RAG F) (text : str) (tokens : list str)
    (attentions weight : list F)
  : result (bool * str * option (list str) * option (list Z)) :=
  let sentences := filter (fun sent => 0 <? Py.len sent) (sents W text) in
  detect self text tokens attentions weight sentences sentences O 0.

(** The merge of [keep_real_words]: as in [generate_attn], without the
    end-of-sequence test. *)
Definition merge_step (ids : list Z) (range_ : list (nat * nat))
    (it : nat * str) : list (nat * nat) :=
  let '(i, t) := it in
  if Nat.eqb i 0
     || Py.startswith t (space_token W)
     || (nth i ids 0 =? newline_token W)
  then range_ ++ [(i, i)]
  else BasicGenerator.bump_last range_.

(** [torch.mean(atten_tmp, dim=0)]: the mean of the head matrices. *)
Definition mean_heads (atten : list (list (list F))) : list (list F) :=
  let total :=
    match atten with
    | [] => []
    | m :: ms => fold_left (zip_with (zip_with fadd)) ms m
    end in
  map (map (fun v => fdiv v (of_Z (Py.len atten)))) total.

(** [t = torch.zeros(n); t[:len(v)] = v] *)
Definition pad (n : nat) (v : list F) : list F :=
  firstn n (v ++ repeat fzero n).

(** The attention that the unit [r] pays to every earlier unit. *)
Definition unit_attention (atten_tmp : list (list F)) (input_length : nat)
    (range_ : list (nat * nat)) (r : nat * nat) : result (list F) :=
  rbind
    (fold_left
       (fun acc i =>
          rbind acc (fun att =>
            if i =? 0 then Ok att
            else
              rbind (getitem atten_tmp (i - 1)) (fun row =>
                let v := Py.slice None (Some (Z.of_nat (fst r))) row in
                let total := fsum v in
                let v := map (fun x => fdiv x total) v in
                Ok (zip_with fadd att (pad input_length v)))))
       (range (Z.of_nat (fst r)) (Z.of_nat (snd r) + 1))
       (Ok (repeat fzero input_length)))
    (fun att =>
       let att :=
         map (fun x =>
                fdiv x (of_Z (Z.of_nat (snd r) - Z.of_nat (fst r) + 1)))
             att in
       (* merge token for att *)
       Ok (map (fun rr => fsum (BasicGenerator.unit_slice rr att)) range_)).

(** The pairs [(att, tok, i)] of the real words outside the flagged
    span. *)
Fixpoint real_pairs_of (real_words : list str) (curr_st : Z)
    (curr_hit : list Z) (forward_attns : list F)
    (tokens : list (nat * str)) : result (list (F * str * Z)) :=
  match tokens with
  | [] => Ok []
  | (i, tok) :: tokens' =>
      let i := Z.of_nat i in
      rbind (getitem forward_attns i) (fun att =>
      rbind (if curr_st <=? i
             then rbind (getitem curr_hit (i - curr_st))
                    (fun hit => Ok (negb (hit =? 0)))
             else Ok false)
        (fun skip =>
      rbind (real_pairs_of real_words curr_st curr_hit forward_attns
               tokens')
        (fun rest =>
           if skip then Ok rest
           else if matches real_words tok then Ok ((att, tok, i) :: rest)
           else Ok rest)))
  end.

(** [top_k], which is bound only when one of the two options is set. *)
Definition top_k_of (self : RAG F) (candidates : Z) : result Z :=
  match retrieve_keep_top_k (args self) with
  | Some k => Ok (Z.min k candidates)
  | None =>
      match retrieve_keep_ratio (args self) with
      | Some ratio => ftrunc (fmul (of_Z candidates) ratio)
      | None => Raise UnboundLocalError
      end
  end.

(** The last four statements of [keep_real_words]: the [top_k] pairs of
    highest attention, back in the order of the text. *)
Definition select (top_k : Z) (real_pairs : list (F * str * Z))
  : list (F * str * Z) :=
  let real_pairs := fsorted_desc (fun x => fst (fst x)) real_pairs in
  let real_pairs := Py.slice None (Some top_k) real_pairs in
  sorted_by (fun x y => snd x <? snd y) real_pairs.

(** [all_text]: the forward context and the flagged tokens. *)
Definition all_text_of (prev_text : str) (curr_tokens : list str) : str :=
  let curr_text := Py.join [Py.space] curr_tokens in
  prev_text ++ [Py.space] ++ curr_text.

(** [range_] and the merged [tokens] of a re-tokenised text. *)
Definition merged_ranges (input_ids : list Z) : list (nat * nat) :=
  fold_left (merge_step input_ids)
    (enumerate (map (id_to_token W) input_ids)) [].

Definition merged_tokens (input_ids : list Z) : list str :=
  let tokens_tmp := map (id_to_token W) input_ids in
  map (fun r => Py.replace (space_token W) []
                  (List.concat (BasicGenerator.unit_slice r tokens_tmp)))
      (merged_ranges input_ids).

Definition keep_real_words (self : RAG F) (prev_text : str)
    (curr_tokens : list str) (curr_hit : list Z) : M str :=
  let all_text := all_text_of prev_text curr_tokens in
  let input_ids := encode W all_text in
  let input_length := List.length input_ids in
  atten_tmp <- request (EvForward input_ids)
                 (fun n => last_layer_attention W n input_ids) ;;
  (* merge tokens *)
  let range_ := merged_ranges input_ids in
  let tokens := merged_tokens input_ids in
  let curr_st := Py.len tokens - Py.len curr_tokens in
  let atten_tmp := mean_heads atten_tmp in
  attns <- lift (map_result (unit_attention atten_tmp input_length range_)
                   range_) ;;
  '(forward_attns, hit_cnt) <-
    lift (fold_left
            (fun acc ih =>
               rbind acc (fun '(forward_attns, hit_cnt) =>
                 if snd ih =? 1 then
                   rbind (getitem attns (curr_st + Z.of_nat (fst ih)))
                     (fun a =>
                        Ok (zip_with fadd forward_attns a, hit_cnt + 1))
                 else Ok (forward_attns, hit_cnt)))
            (enumerate curr_hit)
            (Ok (repeat fzero (List.length tokens), 0))) ;;
  let forward_attns :=
    map (fun x => fdiv x (of_Z hit_cnt)) forward_attns in
  let real_words := content_words W all_text in
  real_pairs <- lift (real_pairs_of real_words curr_st curr_hit
                        forward_attns (enumerate tokens)) ;;
  top_k <- lift (top_k_of self (Py.len real_pairs)) ;;
  ret (Py.join [Py.space] (map (fun x => snd (fst x))
                             (select top_k real_pairs))).

(** [fetch_last_n_tokens] *)
Definition fetch_last_n_tokens (text : str) (num : Z) : str :=
  let tokens := tokenize W text in
  if Py.len tokens <=? num then text
  else Py.join [Py.space] (Py.slice (Some (- num)) None tokens).

Section Inference.
Variables (self : RAG F) (question : str) (demo : list Demo) (case : str).

(** The query of the next retrieval, by [query_formulation]. *)
Definition formulate (text ptext : str) (curr_tokens : list str)
    (curr_hit : list Z) : M str :=
  let forward_all :=
    Py.join [Py.space]
      (filter (fun s => 0 <? Py.len s) [question; text; ptext]) in
  let qf := query_formulation (args self) in
  if Py.eqb qf (py "current") then
    ret (Py.join [Py.space] curr_tokens)
  else if Py.eqb qf (py "current_wo_wrong") then
    ret (Py.join [Py.space]
           (map (fun th => if snd th =? 0 then fst th else [])
                (combine curr_tokens curr_hit)))
  else if Py.eqb qf (py "forward_all") then ret forward_all
  else if Py.eqb qf (py "last_sentence") then
    ret (BasicRAG.get_last_sentence W forward_all)
  else if Py.eqb qf (py "last_n_tokens") then
    match retrieve_keep_top_k (args self) with
    | Some k => ret (fetch_last_n_tokens forward_all k)
    | None => raise AssertionError
    end
  else if Py.eqb qf (py "real_words") then
    keep_real_words self
      (question ++ [Py.space] ++ text ++ [Py.space] ++ ptext)
      curr_tokens curr_hit
  else raise NotImplementedError.

(** The lines [case], [User Query: ...], [Answer generated so far: ...]
    that are not empty, joined by a newline. *)
Definition joined_lines (lines : list str) : str :=
  Py.join [Py.newline] (filter (fun s => 0 <? Py.len s) lines).

Definition iteration (text : str) : M str :=
  let prompt := BasicRAG.demo_prompt demo in
  let tmp_li :=
    [case; py "User Query: " ++ question;
     py "Answer generated so far: " ++ text] in
  let prompt :=
    prompt ++ joined_lines tmp_li ++ [Py.newline]
    ++ py "Refine the answer here:" in
  let is_dragin := Py.eqb (method (args self)) (py "dragin") in
  '(new_text, tokens, attns, logprobs, entropies) <-
    BasicGenerator.generate_attn W prompt
      (generate_max_length (args self)) (py "max")
      is_dragin (Py.eqb (method (args self)) (py "attn_prob")) ;;
  weight <-
    (if is_dragin then
       match entropies with
       | Some e => ret e
       | None => raise TypeError
       end
     else
       match logprobs with
       | Some l => ret (map fneg l)
       | None => raise TypeError
       end) ;;
  BasicRAG.count_generate W self new_text ;;;
  '(hallucination, ptext, curr_tokens, curr_hit) <-
    lift (modifier self new_text tokens attns weight) ;;
  if negb hallucination then
    ret (Py.strip text ++ [Py.space] ++ Py.strip new_text)
  else
    curr_tokens <-
      lift (match curr_tokens with
            | Some c => Ok c
            | None => Raise TypeError
            end) ;;
    curr_hit <-
      lift (match curr_hit with
            | Some c => Ok c
            | None => Raise TypeError
            end) ;;
    retrieve_question <- formulate text ptext curr_tokens curr_hit ;;
    docs <- BasicRAG.retrieve W self retrieve_question
              (retrieve_topk (args self)) 64 ;;
    let prompt := BasicRAG.demo_prompt demo in
    let prompt := prompt ++ py "Context:" ++ [Py.newline] in
    let prompt := prompt ++ BasicRAG.context_lines docs in
    let prompt :=
      prompt
      ++ py "Answer the user query below ONLY using the context above."
      ++ [Py.newline] in
    let prompt :=
      prompt ++ py "User Query: " ++ question ++ [Py.newline] in
    let tmp_li :=
      [case;
       py "Answer generated so far: " ++ text ++ [Py.space] ++ ptext] in
    let prompt :=
      prompt ++ joined_lines tmp_li ++ [Py.newline]
      ++ py "Refine the answer here:" in
    t <- BasicGenerator.generate W prompt
           (generate_max_length (args self)) false false ;;
    '(new_text, _, _, _) <- lift (unpack4 t) ;;
    new_text <- lift (as_str new_text) ;;
    (if use_counter (args self)
     then BasicRAG.add_generate W new_text ;;;
          BasicRAG.incr_hallucinated
     else ret tt) ;;;
    let tmp_li := [Py.strip text; Py.strip ptext; Py.strip new_text] in
    ret (Py.join [Py.space] (filter (fun s => 0 <? Py.len s) tmp_li)).

Fixpoint loop (fuel : nat) (text : str) : M (option str) :=
  match fuel with
  | O => ret None
  | S fuel' =>
      let old_len := Py.len text in
      text' <- iteration text ;;
      if BasicRAG.stop W self old_len text' then ret (Some text')
      else loop fuel' text'
  end.
End Inference.

Definition inference (fuel : nat) (self : RAG F) (question : str)
    (demo : list Demo) (case : str) : M (option str) :=
  loop self question demo case fuel [].

End WithBackend.
End AttnWeightRAG.

(* ================================================================== *)
(** * FixLengthRAG *)
(* ================================================================== *)

Module FixLengthRAG.
Section WithBackend.
Context {F : Type} `{Float F} (W : Backend F).
Variables (self : RAG F) (question : str) (demo : list Demo) (case : str).

(** One iteration up to the stop test: the new [text], the next
    [retrieve_question], and whether the iteration left the loop by its
    own [break]. *)
Definition iteration (text retrieve_question : str)
  : M (str * str * bool) :=
  docs <- BasicRAG.retrieve W self retrieve_question
            (retrieve_topk (args self)) 64 ;;
  let prompt := BasicRAG.demo_prompt demo in
  let prompt := prompt ++ py "Context:" ++ [Py.newline] in
  let prompt := prompt ++ BasicRAG.context_lines docs in
  let prompt :=
    prompt ++ py "Answer in t he same format as before." ++ [Py.newline] in
  let prompt := prompt ++ case ++ [Py.space] ++ text in
  if Py.eqb (method (args self)) (py "fix-length-retrieval") then
    t <- BasicGenerator.generate W prompt (fix_length (args self))
           false false ;;
    '(new_text, _, _) <- lift (unpack3 t) ;;
    new_text <- lift (as_str new_text) ;;
    BasicRAG.count_generate W self new_text ;;;
    ret (Py.strip text ++ [Py.space] ++ Py.strip new_text,
         Py.strip new_text, false)
  else
    (* fix sentence *)
    t <- BasicGenerator.generate W prompt (generate_max_length (args self))
           false false ;;
    '(new_text, _, _) <- lift (unpack3 t) ;;
    new_text <- lift (as_str new_text) ;;
    BasicRAG.count_generate W self new_text ;;;
    let new_text := Py.strip new_text in
    let sentences := map Py.strip (sents W new_text) in
    match sentences with
    | [] => ret (text, retrieve_question, true)
    | first :: _ =>
        ret (Py.strip text ++ [Py.space] ++ first, first, false)
    end.

Fixpoint loop (fuel : nat) (text retrieve_question : str)
  : M (option str) :=
  match fuel with
  | O => ret None
  | S fuel' =>
      let old_len := Py.len text in
      '(text', retrieve_question', broke) <-
        iteration text retrieve_question ;;
      if broke then ret (Some text')
      else if BasicRAG.stop W self old_len text' then ret (Some text')
      else loop fuel' text' retrieve_question'
  end.

Definition inference (fuel : nat) : M (option str) :=
  if Py.eqb (query_formulation (args self)) (py "direct")
  then loop fuel [] question
  else raise AssertionError.

End WithBackend.
End FixLengthRAG.

(* ================================================================== *)
(** * SingleRAG *)
(* ================================================================== *)

Module SingleRAG.
Section WithBackend.
Context {F : Type} `{Float F} (W : Backend F).
Variables (self : RAG F) (question : str) (demo : list Demo) (case : str).

(** The documents of the one retrieval up front: for the question, or for
    every line of its decomposition. *)
Definition documents : M (list str) :=
  if query_decomposition (args self) then
    subqueries <- BasicRAG.decompose_query W self question ;;
    for_each subqueries []
      (fun docs subquery =>
         more <- BasicRAG.retrieve W self (Py.strip subquery)
                   (retrieve_topk (args self)) 64 ;;
         ret (docs ++ more))
  else
    BasicRAG.retrieve W self question (retrieve_topk (args self)) 64.

(** [SingleRAG.inference].  The call of [generate] passes
    [enable_thinking=enable_thinking], a name that is bound neither in the
    method nor in the module: evaluating the argument raises NameError
    before [generate] is entered. *)
Definition inference : M str :=
  if Py.eqb (query_formulation (args self)) (py "direct") then
    docs <- documents ;;
    let prompt := BasicRAG.demo_prompt demo in
    let prompt := prompt ++ py "Context:" ++ [Py.newline] in
    let prompt := prompt ++ BasicRAG.context_lines docs in
    let prompt :=
      prompt
      ++ py "Answer the user query below ONLY using the context above and admit that you don't know if there is no relevant context."
      ++ [Py.newline] in
    let prompt :=
      prompt ++ py "**********" ++ [Py.newline] ++ py "User Query: "
      ++ question ++ [Py.newline] ++ py "**********" in
    let prompt := prompt ++ case in
    enable_thinking <- @raise bool NameError ;;
    t <- BasicGenerator.generate W prompt (generate_max_length (args self))
           enable_thinking false ;;
    '(text, _, _, _) <- lift (unpack4 t) ;;
    text <- lift (as_str text) ;;
    BasicRAG.count_generate W self text ;;;
    ret text
  else raise AssertionError.

End WithBackend.
End SingleRAG.

(* ================================================================== *)
(** * A small concrete world, for running the definitions *)
(* ================================================================== *)

Module Toy.

(** Exact arithmetic, with the Taylor stand-in for [exp]. *)
#[global] Instance float : Float num := Num.float Num.taylor2.

(** A tokenizer with one token by character, a model that answers
    [ok] with certainty, a segmenter that cuts after every full stop, an
    entity recogniser that knows [Paris] and a retriever that returns its
    query. *)
Fixpoint cut (s : str) (cur : str) : list str :=
  match s with
  | [] => match cur with [] => [] | _ => [rev cur] end
  | c :: s' =>
      if N.eqb c 46 then rev (c :: cur) :: cut s' []
      else cut s' (c :: cur)
  end.

(** The world whose model always writes [said]. *)
Definition world_saying (said : str) : Backend num := {|
  apply_chat_template := fun s _ => s;
  encode := fun s => map Z.of_N s;
  decode := fun _ ids => map Z.to_N ids;
  id_to_token := fun i => [Z.to_N i];
  tokenize := fun s => map (fun c => [c]) s;
  space_token := [Py.space];
  eos_token := py "<eos>";
  newline_token := 10;
  lm_generate := fun _ _ _ => map (fun c => (Z.of_N c, Fin 0)) said;
  last_layer_attention :=
    fun _ ids => [map (fun _ => map (fun _ => Fin 1) ids) ids];
  sents := fun s => cut s [];
  ents := fun s => if Py.contains (py "Paris") s then [py "Paris"] else [];
  content_words := fun s => Py.split Py.space s;
  search := fun _ _ q _ _ => [q]
|}.

Definition world : Backend num := world_saying (py "ok").

Definition args0 : Args num := {|
  method := py "attn_prob";
  retriever_configs :=
    Some [ {| rc_name := py "wiki"; retriever_type := py "BM25";
              description := py "Wikipedia"; rc_kwargs := [] |} ];
  query_formulation := py "direct";
  query_decomposition := false;
  hallucination_threshold := Fin (1 # 2);
  sentence_solver := py "avg";
  entity_solver := py "avg";
  retrieve_topk := 1;
  generate_max_length := 4;
  fix_length := 2;
  use_counter := true;
  enable_thinking := false;
  check_real_words := None;
  retrieve_keep_top_k := Some 2;
  retrieve_keep_ratio := None
|}.

(** The same options with the retrievers [configs]. *)
Definition with_retrievers (configs : list RetrieverConfig) : Args num := {|
  method := method args0;
  retriever_configs := Some configs;
  query_formulation := query_formulation args0;
  query_decomposition := query_decomposition args0;
  hallucination_threshold := hallucination_threshold args0;
  sentence_solver := sentence_solver args0;
  entity_solver := entity_solver args0;
  retrieve_topk := retrieve_topk args0;
  generate_max_length := generate_max_length args0;
  fix_length := fix_length args0;
  use_counter := use_counter args0;
  enable_thinking := enable_thinking args0;
  check_real_words := check_real_words args0;
  retrieve_keep_top_k := retrieve_keep_top_k args0;
  retrieve_keep_ratio := retrieve_keep_ratio args0
|}.

(** The same options with other reduction policies and threshold. *)
Definition with_policy (sentence entity : str) (threshold : num)
  : Args num := {|
  method := method args0;
  retriever_configs := retriever_configs args0;
  query_formulation := query_formulation args0;
  query_decomposition := query_decomposition args0;
  hallucination_threshold := threshold;
  sentence_solver := sentence;
  entity_solver := entity;
  retrieve_topk := retrieve_topk args0;
  generate_max_length := generate_max_length args0;
  fix_length := fix_length args0;
  use_counter := use_counter args0;
  enable_thinking := enable_thinking args0;
  check_real_words := check_real_words args0;
  retrieve_keep_top_k := retrieve_keep_top_k args0;
  retrieve_keep_ratio := retrieve_keep_ratio args0
|}.

(** The same options with a kept ratio in place of a kept count. *)
Definition with_ratio (ratio : num) : Args num := {|
  method := method args0;
  retriever_configs := retriever_configs args0;
  query_formulation := query_formulation args0;
  query_decomposition := query_decomposition args0;
  hallucination_threshold := hallucination_threshold args0;
  sentence_solver := sentence_solver args0;
  entity_solver := entity_solver args0;
  retrieve_topk := retrieve_topk args0;
  generate_max_length := generate_max_length args0;
  fix_length := fix_length args0;
  use_counter := use_counter args0;
  enable_thinking := enable_thinking args0;
  check_real_words := check_real_words args0;
  retrieve_keep_top_k := None;
  retrieve_keep_ratio := Some ratio
|}.

Definition wiki : RetrieverConfig :=
  {| rc_name := py "wiki"; retriever_type := py "BM25";
     description := py "Wikipedia"; rc_kwargs := [] |}.

Definition news : RetrieverConfig :=
  {| rc_name := py "news"; retriever_type := py "SGPT";
     description := py "News"; rc_kwargs := [] |}.

(** A retriever of a kind that the gateway does not know. *)
Definition faiss : RetrieverConfig :=
  {| rc_name := py "docs"; retriever_type := py "FAISS";
     description := py "Manuals"; rc_kwargs := [] |}.

Definition rag (a : Args num) : RAG num :=
  match BasicRAG.init a with
  | Ok (self, _) => self
  | Raise _ => {| args := a; gateway := None |}
  end.

Definition st0 : State := mkState Counter.init [].

(** The same options with another method, query formulation and
    decomposition switch. *)
Definition with_method (m formulation : str) (decompose : bool)
  : Args num := {|
  method := m;
  retriever_configs := retriever_configs args0;
  query_formulation := formulation;
  query_decomposition := decompose;
  hallucination_threshold := hallucination_threshold args0;
  sentence_solver := sentence_solver args0;
  entity_solver := entity_solver args0;
  retrieve_topk := retrieve_topk args0;
  generate_max_length := generate_max_length args0;
  fix_length := fix_length args0;
  use_counter := use_counter args0;
  enable_thinking := enable_thinking args0;
  check_real_words := check_real_words args0;
  retrieve_keep_top_k := retrieve_keep_top_k args0;
  retrieve_keep_ratio := retrieve_keep_ratio args0
|}.

(** The same options with neither a kept count nor a kept ratio. *)
Definition without_keep : Args num := {|
  method := method args0;
  retriever_configs := retriever_configs args0;
  query_formulation := query_formulation args0;
  query_decomposition := query_decomposition args0;
  hallucination_threshold := hallucination_threshold args0;
  sentence_solver := sentence_solver args0;
  entity_solver := entity_solver args0;
  retrieve_topk := retrieve_topk args0;
  generate_max_length := generate_max_length args0;
  fix_length := fix_length args0;
  use_counter := use_counter args0;
  enable_thinking := enable_thinking args0;
  check_real_words := check_real_words args0;
  retrieve_keep_top_k := None;
  retrieve_keep_ratio := None
|}.

End Toy.

(* ================================================================== *)
(** * The vocabulary of the results *)
(* ================================================================== *)

(** The attention-reduction policies that [generate_attn] knows. *)
Definition known_solver (solver : str) : bool :=
  Py.eqb solver (py "max") || Py.eqb solver (py "avg")
  || Py.eqb solver (py "last_token").

Definition is_search (ev : Event) : bool :=
  match ev with EvSearch _ _ _ => true | _ => false end.

Definition is_generate (ev : Event) : bool :=
  match ev with EvGenerate _ _ => true | _ => false end.

(** The number of requests to a retriever, and to [model.generate]. *)
Definition searches (st : State) : Z :=
  Py.len (filter is_search (events st)).

Definition generations (st : State) : Z :=
  Py.len (filter is_generate (events st)).

(** A retriever object of one of the three supported classes. *)
Definition supported (r : Retriever) : bool :=
  match r with NotImplementedErrorInstance => false | _ => true end.

(** The reduction as the specification words it: the weights are summed over the
    heads, the mean is taken over the layers (one layer is read, the last)
    and position [i] is divided by the number of remaining positions.  The
    weight of a position in a head is the attention it receives. *)
Definition avg_as_specified {F : Type} `{Float F} (atten : list (list (list F)))
  : list F :=
  let received_by_head := map (BasicGenerator.col_reduce fadd) atten in
  let summed_over_heads := BasicGenerator.col_reduce fadd received_by_head in
  let mean_over_layers := BasicGenerator.torch_mean_dim0 [summed_over_heads] in
  BasicGenerator.decay mean_over_layers.

(** The sum of a list of rationals. *)
Definition Qsum (xs : list Q) : Q := fold_right Qplus 0%Q xs.

(** The attention that position [k] receives in one head (over the query
    positions), and in all heads. *)
Definition received (head : list (list Q)) (k : nat) : Q :=
  Qsum (map (fun row => nth k row 0%Q) head).

Definition received_all (atten : list (list (list Q))) (k : nat) : Q :=
  Qsum (map (fun head => received head k) atten).

(** The column sums in the rationals. *)
Definition colQ (rows : list (list Q)) : list Q :=
  match rows with
  | [] => []
  | r :: rs => fold_left (zip_with Qplus) rs r
  end.

(** The shape of a matrix: at least one row, every row of width [K]. *)
Definition rect (K : nat) (rows : list (list Q)) : Prop :=
  rows <> [] /\ Forall (fun row => List.length row = K) rows.

(** The mean over the heads and the positional decay, in the rationals. *)
Definition meanQ (x : list (list Q)) : list Q :=
  map (fun v => v / inject_Z (Py.len x))%Q (colQ x).

Definition decayQ (m : list Q) : list Q :=
  map (fun iv => snd iv / inject_Z (Py.len m - Z.of_nat (fst iv)))%Q
      (enumerate m).

(** A name that is none of the sentence policies [avg], [max], [min]. *)
Definition unknown_sentence_solver (name : str) : bool :=
  negb (Py.eqb name (py "avg")) && negb (Py.eqb name (py "max"))
  && negb (Py.eqb name (py "min")).

(** A name that is none of the entity policies [avg], [max], [min],
    [first]. *)
Definition unknown_entity_solver (name : str) : bool :=
  unknown_sentence_solver name && negb (Py.eqb name (py "first")).

(** A finite number that is zero. *)
Definition zeroish (x : num) : Prop := exists q, x = Fin q /\ (q == 0)%Q.

Section Vocabulary.
Context {F : Type} `{Float F} (W : Backend F).

(** The state after one request to the language model. *)
Definition after_generate (input_text : str) (max_length : Z)
    (enable_thinking : bool) (st : State) : State :=
  mkState (counter st)
    (events st
     ++ [EvGenerate (encode W (apply_chat_template W input_text
                                 enable_thinking)) max_length]).

(** The lines of the index selection that the generator returns when
    [retrieve] asks for it in state [st]. *)
Definition selected_lines (retrievers : dict RetrieverEntry) (query : str)
    (st : State) : list str :=
  match BasicGenerator.generate W
          (BasicRAG.selection_prompt query retrievers) 64 false false
          (snd (BasicRAG.incr_retrieve st)) with
  | (Ok (PStr model_output :: _), _) =>
      Py.split Py.newline (Py.strip model_output)
  | _ => []
  end.

(** The loop of the multi-index mode over the selected lines. *)
Definition gateway_body (retrievers : dict RetrieverEntry) (query : str)
    (topk max_query_length : Z) (docs : list str) (line : str)
  : M (list str) :=
  entry <- lift (dict_item retrievers (BasicRAG.index_name line)) ;;
  more <- BasicRAG._retrieve W query (entry_retriever entry) topk
            max_query_length ;;
  ret (docs ++ more).

(** The position of a pair [(att, tok, i)], and its token with it. *)
Definition pair_index (x : F * str * Z) : Z := snd x.
Definition pair_token (x : F * str * Z) : str * Z := (snd (fst x), snd x).
End Vocabulary.

(** The units [rs] tile the positions from [s] up to [e]: the first begins
    at [s], each next one begins just after the one before, the last ends
    at [e - 1], and none is empty. *)
Fixpoint tiles (s : nat) (rs : list (nat * nat)) (e : nat) : Prop :=
  match rs with
  | [] => s = e
  | (a, b) :: rs' => a = s /\ (a <= b)%nat /\ tiles (S b) rs' e
  end.

(** The configuration that [retriever_configs] lists last under [name]. *)
Definition last_config (name : str) (configs : list RetrieverConfig)
  : option RetrieverConfig :=
  List.find (fun c => Py.eqb (rc_name c) name) (rev configs).

(** The entry that [__init__] stores for a configuration. *)
Definition entry_of_config (c : RetrieverConfig) : RetrieverEntry :=
  {| entry_description := description c;
     entry_retriever :=
       match BasicRAG._retriever_selector (retriever_type c) (rc_kwargs c)
       with
       | Ok r => r
       | Raise _ => NotImplementedErrorInstance
       end |}.

(** The passages that the retriever [r] ranks for [query] when it is asked
    as request number [n]: only BM25 is given the query length bound. *)
Definition passages {F : Type} (W : Backend F) (n : nat) (r : Retriever)
    (query : str) (topk max_query_length : Z) : list str :=
  search W n r query topk
    (match r with BM25 _ => Some max_query_length | _ => None end).

(** The passages of the indices that the lines name, line after line, the
    first of them asked as request number [n]. *)
Fixpoint gathered {F : Type} (W : Backend F)
    (retrievers : dict RetrieverEntry) (query : str)
    (topk max_query_length : Z) (n : nat) (lines : list str) : list str :=
  match lines with
  | [] => []
  | line :: rest =>
      match dict_get retrievers (BasicRAG.index_name line) with
      | Some entry =>
          passages W n (entry_retriever entry) query topk max_query_length
          ++ gathered W retrievers query topk max_query_length (S n) rest
      | None => []
      end
  end.

(** The generation requests that [self.counter.generate] has not
    counted. *)
Definition uncounted (st : State) : Z :=
  generations st - Counter.generate (counter st).

(** A computation that leaves at least [d] more generation requests
    uncounted than it found, whether it returns or raises. *)
Definition gains {A : Type} (d : Z) (m : M A) : Prop :=
  forall st, uncounted st + d <= uncounted (snd (m st)).

(** The test [i >= curr_st and curr_hit[i - curr_st]] of
    [keep_real_words], for a position whose mark exists. *)
Definition is_flagged (curr_st : Z) (curr_hit : list Z) (i : Z) : bool :=
  (curr_st <=? i) && negb (nth (Z.to_nat (i - curr_st)) curr_hit 0 =? 0).

(** A token of the re-tokenised text that [keep_real_words] may keep: it
    is not flagged and a real word occurs in it. *)
Definition is_candidate (real_words : list str) (curr_st : Z)
    (curr_hit : list Z) (it : nat * str) : bool :=
  negb (is_flagged curr_st curr_hit (Z.of_nat (fst it)))
  && AttnWeightRAG.matches real_words (snd it).

(** A token with its position in the text. *)
Definition position_token (it : nat * str) : str * Z :=
  (snd it, Z.of_nat (fst it)).

(** The candidates, in the order of the text. *)
Definition candidates_of (real_words : list str) (curr_st : Z)
    (curr_hit : list Z) (tokens : list str) : list (str * Z) :=
  map position_token
    (filter (is_candidate real_words curr_st curr_hit) (enumerate tokens)).

(** [len(l[:top_k])] for a list of [n] elements. *)
Definition kept_count (top_k n : Z) : Z :=
  if top_k <? 0 then Z.max (n + top_k) 0 else Z.min top_k n.

(** [l1] is [l2] with elements left out: the elements of [l1] stand in
    [l2], in the same order. *)
Inductive subseq {A : Type} : list A -> list A -> Prop :=
| subseq_nil : forall l, subseq [] l
| subseq_skip : forall x l1 l2, subseq l1 l2 -> subseq l1 (x :: l2)
| subseq_take : forall x l1 l2, subseq l1 l2 -> subseq (x :: l1) (x :: l2).

(** A unit of [mask] whose uncertainty is above the threshold. *)
Definition above {F : Type} `{Float F} (threshold : F) (unit : F * str)
  : bool :=
  fgtb (fst unit) threshold.

(* ================================================================== *)
(** * Runs of the definitions *)
(* ================================================================== *)

Example find_ex : Py.find (py "Hello world.") (py "world") = 6.
Proof. reflexivity. Qed.

Example find_missing_ex : Py.find (py "Hello") (py "xyz") = -1.
Proof. reflexivity. Qed.

Example slice_ex : Py.slice (Some 1) (Some (-1)) (py "abcd") = py "bc".
Proof. reflexivity. Qed.

Example split_ex :
  Py.split Py.newline (py "- a") = [py "- a"]
  /\ Py.split Py.hyphen (py "- a") = [[]; py " a"].
Proof. split; reflexivity. Qed.

Example replace_ex :
  Py.replace (py "[xxx]") [] (py "a [xxx] b[xxx]") = py "a  b".
Proof. reflexivity. Qed.

Example strip_ex : Py.strip (py "  a b ") = py "a b".
Proof. reflexivity. Qed.

Example of_nat_ex : Py.of_nat 12 = py "12" /\ Py.of_nat 0 = py "0".
Proof. split; reflexivity. Qed.

Example np_mean_empty_is_nan :
  @np_mean num (Num.float Num.taylor2) [] = NaN.
Proof. reflexivity. Qed.

Example np_max_empty_raises :
  @np_max num (Num.float Num.taylor2) [] = Raise ValueError.
Proof. reflexivity. Qed.

Example toy_attn_inference :
  fst (AttnWeightRAG.inference Toy.world 5 (Toy.rag Toy.args0)
         (py "q?") [] (py "c") Toy.st0)
  = Ok (Some (py "ok ok")).
Proof. vm_compute. reflexivity. Qed.

(* ================================================================== *)
(** * Properties of the generation client *)
(* ================================================================== *)

Lemma slice_drop_prefix {A} (a b : list A) :
  Py.slice (Some (Py.len a)) None (a ++ b) = b.
Proof.
  unfold Py.slice, Py.clip, Py.len.
  assert (Hlt : (Z.of_nat (List.length a) <? 0) = false)
    by (apply Z.ltb_ge; lia).
  rewrite Hlt, length_app.
  replace (Z.to_nat (Z.min (Z.of_nat (List.length a))
                       (Z.of_nat (List.length a + List.length b))))
    with (List.length a) by lia.
  replace (List.length a + List.length b - List.length a)%nat
    with (List.length b) by lia.
  rewrite skipn_app, skipn_all, Nat.sub_diag. simpl.
  apply firstn_all.
Qed.

Section GenerateFacts.
Context {F : Type} `{Float F} (W : Backend F).

(** With [return_logprobs=True], [generate] returns the 4-tuple
    [(text, generated_ids, logprobs, outputs)]: its assertion on the
    lengths always holds. *)
Lemma generate_logprobs_tuple input_text max_length enable_thinking st :
  exists text ids logprobs,
    BasicGenerator.generate W input_text max_length enable_thinking true st
    = (Ok [PStr text; PIds [ids]; PFloats logprobs; POutputs],
       after_generate W input_text max_length enable_thinking st)
    /\ List.length ids = List.length logprobs.
Proof.
  unfold BasicGenerator.generate, bind, request, after_generate. simpl.
  rewrite slice_drop_prefix.
  rewrite !length_map, Nat.eqb_refl.
  do 3 eexists. split; [reflexivity|].
  now rewrite !length_map.
Qed.

(** Without log-probabilities it returns [(text, None, None, None)]. *)
Lemma generate_text_tuple input_text max_length enable_thinking st :
  exists text,
    BasicGenerator.generate W input_text max_length enable_thinking false st
    = (Ok [PStr text; PNone; PNone; PNone],
       after_generate W input_text max_length enable_thinking st).
Proof.
  unfold BasicGenerator.generate, bind, request, after_generate. simpl.
  eexists. reflexivity.
Qed.

(** Either way the tuple has four components, so unpacking it into
    three names raises [ValueError]. *)
Lemma generate_unpack3 input_text max_length enable_thinking
    return_logprobs st :
  exists t,
    BasicGenerator.generate W input_text max_length enable_thinking
      return_logprobs st
    = (Ok t, after_generate W input_text max_length enable_thinking st)
    /\ unpack3 t = Raise ValueError.
Proof.
  destruct return_logprobs.
  - destruct (generate_logprobs_tuple input_text max_length
                enable_thinking st) as (text & ids & lps & Hg & _).
    eexists. split; [exact Hg | reflexivity].
  - destruct (generate_text_tuple input_text max_length
                enable_thinking st) as (text & Hg).
    eexists. split; [exact Hg | reflexivity].
Qed.
End GenerateFacts.

(** C5.  Every call of [TokenRAG.inference], and of [EntityRAG.inference]
    which delegates to it, raises the unpacking error [ValueError] in its
    first iteration: [generate] with [return_logprobs=True] returns four
    values and the call site binds three names.  When the exception leaves,
    the model has been asked once, nothing was retrieved and the counter is
    untouched. *)
Theorem token_inference_unpack_error :
  forall {F : Type} `{Float F} (W : Backend F) (self : RAG F)
         (question : str) (demo : list Demo) (case : str) (fuel : nat)
         (st : State),
    let prompt := BasicRAG.demo_prompt demo ++ case ++ [Py.space] ++ [] in
    let st' :=
      after_generate W prompt (generate_max_length (args self)) false st in
    TokenRAG.inference W (S fuel) self question demo case st
    = (Raise ValueError, st')
    /\ EntityRAG.inference W (S fuel) self question demo case st
       = (Raise ValueError, st').
Proof.
  intros F HF W self question demo case fuel st prompt st'.
  unfold TokenRAG.inference, EntityRAG.inference, TokenRAG.inference_with.
  split.
  - simpl. unfold TokenRAG.iteration, bind at 1 2.
    destruct (generate_unpack3 W prompt (generate_max_length (args self))
                false true st) as (t & Hg & Hu).
    fold prompt. rewrite Hg. unfold lift. rewrite Hu. reflexivity.
  - simpl. unfold TokenRAG.iteration, bind at 1 2.
    destruct (generate_unpack3 W prompt (generate_max_length (args self))
                false true st) as (t & Hg & Hu).
    fold prompt. rewrite Hg. unfold lift. rewrite Hu. reflexivity.
Qed.

Section GenerateAttnFacts.
Context {F : Type} `{Float F} (W : Backend F).

Lemma reduce_attention_outcome solver atten :
  if known_solver solver
  then exists m, BasicGenerator.reduce_attention solver atten = Ok m
  else BasicGenerator.reduce_attention solver atten
       = Raise NotImplementedError.
Proof.
  unfold known_solver, BasicGenerator.reduce_attention.
  destruct (Py.eqb solver (py "max")); simpl; [eexists; reflexivity|].
  destruct (Py.eqb solver (py "avg")); simpl; [eexists; reflexivity|].
  destruct (Py.eqb solver (py "last_token")); simpl;
    [eexists; reflexivity | reflexivity].
Qed.

(** What a call with [use_entropy=True] raises. *)
Lemma generate_attn_entropy_outcome input_text max_length solver
    use_logprob st :
  fst (BasicGenerator.generate_attn W input_text max_length solver true
         use_logprob st)
  = Raise (if known_solver solver then NameError
           else NotImplementedError).
Proof.
  unfold BasicGenerator.generate_attn.
  destruct (generate_logprobs_tuple W input_text max_length false st)
    as (text & ids & lps & Hg & _).
  unfold bind at 1. rewrite Hg.
  unfold lift, bind, request, getitem. simpl.
  pose proof (reduce_attention_outcome solver
                (last_layer_attention W
                   (clock (after_generate W input_text max_length false st))
                   ids)) as Hr.
  destruct (known_solver solver).
  - destruct Hr as (m & Hr). rewrite Hr. reflexivity.
  - rewrite Hr. reflexivity.
Qed.
End GenerateAttnFacts.

(** C6.  A call of [generate_attn] with [use_entropy=True] never returns:
    with an attention-reduction policy that the method knows ([max],
    [avg], [last_token]; the callers pass none and so use the default
    [max]) it raises [NameError] at the read of the unbound [scores], and
    a policy name that it does not know is refused earlier, with
    [NotImplementedError].  The loop of the ['dragin'] variant calls it
    with the default policy, so its first iteration raises [NameError]. *)
Theorem generate_attn_entropy_raises :
  forall {F : Type} `{Float F} (W : Backend F),
    (forall input_text max_length solver use_logprob st,
       fst (BasicGenerator.generate_attn W input_text max_length solver true
              use_logprob st)
       = Raise (if known_solver solver then NameError
                else NotImplementedError))
    /\ (forall self question demo case fuel st,
          Py.eqb (method (args self)) (py "dragin") = true ->
          fst (AttnWeightRAG.inference W (S fuel) self question demo case st)
          = Raise NameError).
Proof.
  intros F HF W. split.
  - intros. apply generate_attn_entropy_outcome.
  - intros self question demo case fuel st Hm.
    unfold AttnWeightRAG.inference. simpl.
    unfold AttnWeightRAG.iteration. rewrite Hm.
    unfold bind at 1 2.
    match goal with
    | |- context [BasicGenerator.generate_attn W ?p ?m ?s true ?u st] =>
        pose proof (generate_attn_entropy_outcome W p m s u st) as Hg;
        destruct (BasicGenerator.generate_attn W p m s true u st) as [r st']
    end.
    simpl in Hg. subst r. reflexivity.
Qed.

(** A policy name that no caller passes: [median] is refused at the
    reduction, before the entropies are reached. *)
Lemma generate_attn_entropy_not_always_nameerror :
  fst (BasicGenerator.generate_attn Toy.world (py "q") 4 (py "median")
         true false Toy.st0)
  <> Raise NameError.
Proof. vm_compute. discriminate. Qed.

(** The call that the ['dragin'] variant makes, in the toy world. *)
Lemma generate_attn_entropy_raises_witness :
  fst (AttnWeightRAG.inference Toy.world 1
         {| args := {| method := py "dragin";
                       retriever_configs := None;
                       query_formulation := py "direct";
                       query_decomposition := false;
                       hallucination_threshold := Fin (1 # 2);
                       sentence_solver := py "avg";
                       entity_solver := py "avg";
                       retrieve_topk := 1;
                       generate_max_length := 4;
                       fix_length := 2;
                       use_counter := true;
                       enable_thinking := false;
                       check_real_words := None;
                       retrieve_keep_top_k := None;
                       retrieve_keep_ratio := None |};
            gateway := None |}
         (py "q?") [] (py "c") Toy.st0)
  = Raise NameError.
Proof.
  apply (proj2 (generate_attn_entropy_raises Toy.world)).
  reflexivity.
Defined.

(* ================================================================== *)
(** * Properties of the retrieval gateway *)
(* ================================================================== *)

Lemma py_eqb_refl (s : str) : Py.eqb s s = true.
Proof.
  induction s as [|c s IH]; simpl; [reflexivity|].
  now rewrite N.eqb_refl, IH.
Qed.

Lemma py_eqb_eq (a b : str) : Py.eqb a b = true -> a = b.
Proof.
  revert b. induction a as [|x a IH]; intros [|y b] Hab; simpl in Hab;
    try discriminate; [reflexivity|].
  apply andb_true_iff in Hab. destruct Hab as [Hxy Hab].
  apply N.eqb_eq in Hxy. subst. f_equal. now apply IH.
Qed.

Lemma getitem_head {A} (x : A) (l : list A) : getitem (x :: l) 0 = Ok x.
Proof.
  unfold getitem, Py.index, Py.len.
  assert (Hlt : (0 <? Z.of_nat (List.length (x :: l))) = true)
    by (apply Z.ltb_lt; simpl List.length; lia).
  rewrite Hlt. reflexivity.
Qed.

Section GatewayFacts.
Context {F : Type} `{Float F} (W : Backend F).

Lemma build_retrievers_ok configs :
  forall acc, exists retrievers,
    BasicRAG.build_retrievers configs acc = Ok retrievers
    /\ (acc <> [] -> retrievers <> [])
    /\ (configs <> [] -> retrievers <> []).
Proof.
  induction configs as [|config rest IH]; intros acc; simpl.
  - exists acc. repeat split; auto; congruence.
  - unfold BasicRAG._retriever_selector.
    set (r := if Py.eqb (retriever_type config) (py "BM25") then _ else _).
    assert (Hr : exists x, r = Ok x).
    { subst r.
      destruct (Py.eqb (retriever_type config) (py "BM25"));
        [eexists; reflexivity|].
      destruct (Py.eqb (retriever_type config) (py "SGPT"));
        [eexists; reflexivity|].
      destruct (Py.eqb (retriever_type config)
                  (py "DatabricksVectorSearch")); eexists; reflexivity. }
    destruct Hr as (x & ->). simpl.
    destruct (IH (dict_set acc (rc_name config)
                    {| entry_description := description config;
                       entry_retriever := x |}))
      as (rs & Hrs & Hne & _).
    exists rs. split; [exact Hrs|].
    assert (Hset : dict_set acc (rc_name config)
                     {| entry_description := description config;
                        entry_retriever := x |} <> []).
    { destruct acc as [|[k v] acc]; simpl; [congruence|].
      destruct (Py.eqb k (rc_name config)); congruence. }
    split; intros _; apply Hne, Hset.
Qed.

(** [BasicRAG.__init__] never raises, whatever the retriever kinds. *)
Lemma init_never_raises (a : Args F) :
  exists self, BasicRAG.init a = Ok (self, Counter.init) /\ args self = a.
Proof.
  unfold BasicRAG.init. destruct (retriever_configs a) as [configs|].
  - destruct (build_retrievers_ok configs []) as (rs & Hrs & _).
    rewrite Hrs. simpl. eexists. split; reflexivity.
  - eexists. split; reflexivity.
Qed.

(** In single-index mode the dictionary of retrievers is not empty. *)
Lemma init_single_nonempty (a : Args F) self c retrievers :
  BasicRAG.init a = Ok (self, c) ->
  gateway self = Some (false, retrievers) ->
  retrievers <> [].
Proof.
  unfold BasicRAG.init. destruct (retriever_configs a) as [configs|].
  - destruct (build_retrievers_ok configs []) as (rs & Hrs & _ & Hne).
    rewrite Hrs. simpl. intros Hi Hg. inversion Hi; subst. simpl in Hg.
    destruct configs as [|c1 [|c2 configs]]; simpl in Hg;
      try discriminate.
    inversion Hg; subst. apply Hne. congruence.
  - intros Hi Hg. inversion Hi; subst. discriminate.
Qed.

(** [_retrieve] counts itself once, then asks the retriever once or
    raises [NotImplementedError]. *)
Lemma _retrieve_effect query retriever topk max_query_length st :
  let '(r, st') :=
    BasicRAG._retrieve W query retriever topk max_query_length st in
  Counter.retrieve (counter st') = Counter.retrieve (counter st) + 1
  /\ generations st' = generations st
  /\ if supported retriever
     then (exists docs, r = Ok docs) /\ searches st' = searches st + 1
     else r = Raise NotImplementedError /\ searches st' = searches st.
Proof.
  unfold BasicRAG._retrieve, BasicRAG.incr_retrieve, update_counter,
    bind, request, raise, searches, generations, Py.len.
  destruct retriever; simpl; rewrite ?filter_app, ?length_app; simpl;
    (split; [reflexivity|]); (split; [lia|]);
    (split; [eauto | lia]).
Qed.

Lemma gateway_loop_ok retrievers query topk mql lines :
  forall docs st out st',
    for_each lines docs (gateway_body W retrievers query topk mql) st
    = (Ok out, st') ->
    Counter.retrieve (counter st')
    = Counter.retrieve (counter st) + Py.len lines
    /\ searches st' = searches st + Py.len lines
    /\ generations st' = generations st.
Proof.
  induction lines as [|line lines IH]; intros docs st out st' Hrun.
  - simpl in Hrun. inversion Hrun; subst. unfold Py.len. simpl.
    repeat split; lia.
  - simpl in Hrun. unfold bind at 1 in Hrun.
    unfold gateway_body at 1 in Hrun. unfold bind at 1, lift in Hrun.
    unfold dict_item in Hrun.
    destruct (dict_get retrievers (BasicRAG.index_name line))
      as [entry|]; [|discriminate].
    unfold bind at 1 in Hrun.
    pose proof (_retrieve_effect query (entry_retriever entry) topk mql st)
      as He.
    destruct (BasicRAG._retrieve W query (entry_retriever entry) topk mql st)
      as [r st1].
    destruct He as (Hc & Hgen & Hs).
    destruct r as [more|e]; [|discriminate].
    unfold ret at 1 in Hrun.
    apply IH in Hrun. destruct Hrun as (Hc' & Hs' & Hg').
    destruct (supported (entry_retriever entry)).
    + destruct Hs as (_ & Hs).
      unfold Py.len in *. simpl List.length.
      repeat split; lia.
    + destruct Hs as (Hs & _). discriminate.
Qed.

Lemma gateway_loop_keyerror retrievers query topk mql pre line post :
  dict_get retrievers (BasicRAG.index_name line) = None ->
  Forall (fun l => exists entry,
              dict_get retrievers (BasicRAG.index_name l) = Some entry
              /\ supported (entry_retriever entry) = true) pre ->
  forall docs st,
    let '(r, st') :=
      for_each (pre ++ line :: post) docs
        (gateway_body W retrievers query topk mql) st in
    r = Raise KeyError
    /\ searches st' = searches st + Py.len pre
    /\ generations st' = generations st.
Proof.
  intros Hline Hpre. induction Hpre as [|l pre (entry & Hl & Hsup) _ IH];
    intros docs st.
  - simpl. unfold bind at 1. unfold gateway_body at 1.
    unfold bind at 1, lift, dict_item. rewrite Hline.
    unfold Py.len. simpl. repeat split; lia.
  - simpl. unfold bind at 1. unfold gateway_body at 1.
    unfold bind at 1, lift, dict_item. rewrite Hl.
    unfold bind at 1.
    pose proof (_retrieve_effect query (entry_retriever entry) topk mql st)
      as He.
    destruct (BasicRAG._retrieve W query (entry_retriever entry) topk mql st)
      as [r st1].
    rewrite Hsup in He. destruct He as (_ & Hgen & (more & ->) & Hs).
    unfold ret at 1.
    specialize (IH (docs ++ more) st1).
    destruct (for_each (pre ++ line :: post) (docs ++ more)
                (gateway_body W retrievers query topk mql) st1) as [r st'].
    destruct IH as (-> & Hs' & Hg').
    unfold Py.len in *. simpl List.length.
    repeat split; lia.
Qed.

(** [retrieve] in multi-index mode, as its two stages. *)
Lemma retrieve_multi self retrievers query topk mql st :
  gateway self = Some (true, retrievers) ->
  exists st1,
    BasicRAG.retrieve W self query topk mql st
    = for_each (selected_lines W retrievers query st) []
        (gateway_body W retrievers query topk mql) st1
    /\ Counter.retrieve (counter st1) = Counter.retrieve (counter st) + 1
    /\ searches st1 = searches st
    /\ generations st1 = generations st + 1.
Proof.
  intros Hg. unfold BasicRAG.retrieve, selected_lines. rewrite Hg.
  unfold bind at 1.
  set (st0 := snd (BasicRAG.incr_retrieve st)).
  assert (Hst0 : BasicRAG.incr_retrieve st = (Ok tt, st0)) by reflexivity.
  rewrite Hst0. cbv beta iota. change (negb true) with false. cbv iota.
  destruct (generate_text_tuple W
              (BasicRAG.selection_prompt query retrievers) 64 false st0)
    as (text & Hgen).
  unfold bind at 1. rewrite Hgen. cbv beta iota.
  unfold bind at 1, lift, getitem. simpl Py.index. cbv beta iota.
  unfold bind at 1. simpl as_str. cbv beta iota.
  fold (gateway_body W retrievers query topk mql).
  exists (after_generate W (BasicRAG.selection_prompt query retrievers)
            64 false st0).
  split; [reflexivity|].
  unfold after_generate, searches, generations, Py.len. subst st0. simpl.
  rewrite !filter_app, !length_app. simpl.
  repeat split; lia.
Qed.

(** Whatever its outcome, the loop never asks a retriever without counting
    it. *)
Lemma gateway_loop_overcounts retrievers query topk mql lines :
  forall docs st,
    let '(r, st') :=
      for_each lines docs (gateway_body W retrievers query topk mql) st in
    Counter.retrieve (counter st) - searches st
    <= Counter.retrieve (counter st') - searches st'.
Proof.
  induction lines as [|line lines IH]; intros docs st; simpl; [lia|].
  unfold bind at 1. unfold gateway_body at 1.
  unfold bind at 1, lift, dict_item.
  destruct (dict_get retrievers (BasicRAG.index_name line)) as [entry|];
    [|lia].
  unfold bind at 1.
  pose proof (_retrieve_effect query (entry_retriever entry) topk mql st)
    as He.
  destruct (BasicRAG._retrieve W query (entry_retriever entry) topk mql st)
    as [[more|e] st1]; destruct He as (Hc & _ & Hs).
  - unfold ret at 1. specialize (IH (docs ++ more) st1).
    destruct (for_each lines (docs ++ more)
                (gateway_body W retrievers query topk mql) st1) as [r st'].
    destruct (supported (entry_retriever entry));
      destruct Hs as (_ & Hs); lia.
  - destruct (supported (entry_retriever entry));
      destruct Hs as (_ & Hs); lia.
Qed.

(** Every call of [retrieve], in either mode, returning or raising,
    counts at least one retrieval more than the retrievers were asked. *)
Lemma retrieve_overcounts self query topk mql st :
  let '(r, st') := BasicRAG.retrieve W self query topk mql st in
  searches st' - searches st + 1
  <= Counter.retrieve (counter st') - Counter.retrieve (counter st).
Proof.
  destruct (gateway self) as [[[|] retrievers]|] eqn:Hg.
  - destruct (retrieve_multi self retrievers query topk mql st Hg)
      as (st1 & Heq & Hc1 & Hs1 & _).
    rewrite Heq.
    pose proof (gateway_loop_overcounts retrievers query topk mql
                  (selected_lines W retrievers query st) [] st1) as Hloop.
    destruct (for_each (selected_lines W retrievers query st) []
                (gateway_body W retrievers query topk mql) st1) as [r st'].
    lia.
  - unfold BasicRAG.retrieve. rewrite Hg. unfold bind at 1.
    set (st0 := snd (BasicRAG.incr_retrieve st)).
    assert (Hst0 : BasicRAG.incr_retrieve st = (Ok tt, st0)) by reflexivity.
    rewrite Hst0. cbv beta iota. change (negb false) with true. cbv iota.
    assert (Hc0 : Counter.retrieve (counter st0)
                  = Counter.retrieve (counter st) + 1) by reflexivity.
    assert (Hs0 : searches st0 = searches st) by reflexivity.
    destruct retrievers as [|[k v] rest].
    + unfold bind at 1, lift. simpl. lia.
    + unfold bind at 1, lift. simpl map. rewrite getitem_head.
      cbv beta iota.
      unfold bind at 1, dict_item. simpl dict_get. rewrite py_eqb_refl.
      cbv beta iota.
      pose proof (_retrieve_effect query (entry_retriever v) topk mql st0)
        as He.
      destruct (BasicRAG._retrieve W query (entry_retriever v) topk mql st0)
        as [r st'].
      destruct He as (Hc & _ & Hs).
      destruct (supported (entry_retriever v)); destruct Hs as (_ & Hs);
        lia.
  - unfold BasicRAG.retrieve. rewrite Hg. unfold bind at 1. simpl.
    unfold searches. simpl events. lia.
Qed.
End GatewayFacts.

(** C10.  On a constructed RAG object, a call of [retrieve] in single-index
    mode leaves [counter.retrieve] two higher, whether the inner
    [_retrieve] returns or raises, while the retriever is asked at most
    once.  In multi-index mode a call that returns has raised the counter
    by one plus the number of selected lines, and has asked the retrievers
    once per line.  In every call, of either mode and of either outcome,
    the counter rises by more than the number of retrieval requests. *)
Theorem retrieve_counter_double_counts :
  forall {F : Type} `{Float F} (W : Backend F) (a : Args F) (self : RAG F)
         (c : Counter.t) (retrievers : dict RetrieverEntry)
         (query : str) (topk max_query_length : Z) (st : State),
    BasicRAG.init a = Ok (self, c) ->
    (gateway self = Some (false, retrievers) ->
     let '(r, st') :=
       BasicRAG.retrieve W self query topk max_query_length st in
     Counter.retrieve (counter st') = Counter.retrieve (counter st) + 2
     /\ searches st' <= searches st + 1
     /\ ((exists docs, r = Ok docs) -> searches st' = searches st + 1))
    /\ (gateway self = Some (true, retrievers) ->
        forall docs st',
          BasicRAG.retrieve W self query topk max_query_length st
          = (Ok docs, st') ->
          let n := Py.len (selected_lines W retrievers query st) in
          Counter.retrieve (counter st')
          = Counter.retrieve (counter st) + 1 + n
          /\ searches st' = searches st + n)
    /\ (let '(r, st') :=
          BasicRAG.retrieve W self query topk max_query_length st in
        searches st' - searches st
        < Counter.retrieve (counter st') - Counter.retrieve (counter st)).
Proof.
  intros F HF W a self c retrievers query topk mql st Hinit.
  split; [|split];
    [| |pose proof (retrieve_overcounts W self query topk mql st) as Ho;
        destruct (BasicRAG.retrieve W self query topk mql st) as [r st'];
        lia].
  - intros Hg.
    pose proof (init_single_nonempty a self c retrievers Hinit Hg) as Hne.
    destruct retrievers as [|[k v] rest]; [congruence|].
    unfold BasicRAG.retrieve. rewrite Hg.
    unfold bind at 1.
    set (st0 := snd (BasicRAG.incr_retrieve st)).
    assert (Hst0 : BasicRAG.incr_retrieve st = (Ok tt, st0)) by reflexivity.
    rewrite Hst0. cbv beta iota. change (negb false) with true. cbv iota.
    unfold bind at 1, lift. simpl map. rewrite getitem_head. cbv beta iota.
    unfold bind at 1, dict_item. simpl dict_get. rewrite py_eqb_refl.
    cbv beta iota.
    pose proof (_retrieve_effect W query (entry_retriever v) topk mql st0)
      as He.
    destruct (BasicRAG._retrieve W query (entry_retriever v) topk mql st0)
      as [r st'].
    destruct He as (Hc & _ & Hs).
    assert (Hc0 : Counter.retrieve (counter st0)
                  = Counter.retrieve (counter st) + 1) by reflexivity.
    assert (Hs0 : searches st0 = searches st) by reflexivity.
    destruct (supported (entry_retriever v)).
    + destruct Hs as (_ & Hs). repeat split; try lia.
    + destruct Hs as (-> & Hs). repeat split; try lia.
      intros (docs & Hd). discriminate.
  - intros Hg docs st' Hrun n.
    destruct (retrieve_multi W self retrievers query topk mql st Hg)
      as (st1 & Heq & Hc1 & Hs1 & _).
    rewrite Heq in Hrun.
    apply gateway_loop_ok in Hrun. destruct Hrun as (Hc & Hs & _).
    subst n. split; lia.
Qed.

(** C9, as the code has it.  In multi-index mode, when a selected line does
    not name a configured index, and the lines before it name indices with
    supported retrievers, [retrieve] raises [KeyError] (the dictionary
    lookup), after one request to the generator and one retrieval for each
    earlier line: nothing is caught and nothing is asked again. *)
Theorem retrieve_unknown_index_keyerror :
  forall {F : Type} `{Float F} (W : Backend F) (self : RAG F)
         (retrievers : dict RetrieverEntry) (query : str)
         (topk max_query_length : Z) (st : State)
         (pre : list str) (line : str) (post : list str),
    gateway self = Some (true, retrievers) ->
    selected_lines W retrievers query st = pre ++ line :: post ->
    dict_get retrievers (BasicRAG.index_name line) = None ->
    Forall (fun l => exists entry,
                dict_get retrievers (BasicRAG.index_name l) = Some entry
                /\ supported (entry_retriever entry) = true) pre ->
    let '(r, st') :=
      BasicRAG.retrieve W self query topk max_query_length st in
    r = Raise KeyError
    /\ generations st' = generations st + 1
    /\ searches st' = searches st + Py.len pre.
Proof.
  intros F HF W self retrievers query topk mql st pre line post
    Hg Hsel Hline Hpre.
  destruct (retrieve_multi W self retrievers query topk mql st Hg)
    as (st1 & Heq & _ & Hs1 & Hg1).
  rewrite Heq, Hsel.
  pose proof (gateway_loop_keyerror W retrievers query topk mql pre line post
                Hline Hpre [] st1) as Hloop.
  destruct (for_each (pre ++ line :: post) []
              (gateway_body W retrievers query topk mql) st1) as [r st'].
  destruct Hloop as (-> & Hs & Hgen). repeat split; lia.
Qed.

(** C10 at work: one configured index, then two indices of which the
    generator selects both. *)
Lemma retrieve_counter_double_counts_witness :
  let W := Toy.world_saying (py "- wiki" ++ [Py.newline] ++ py "- news") in
  let single := Toy.with_retrievers [Toy.wiki] in
  let multi := Toy.with_retrievers [Toy.wiki; Toy.news] in
  (BasicRAG.init single = Ok (Toy.rag single, Counter.init)
   /\ Counter.retrieve
        (counter (snd (BasicRAG.retrieve W (Toy.rag single) (py "q") 1 64
                         Toy.st0)))
      = Counter.retrieve (counter Toy.st0) + 2)
  /\ (BasicRAG.init multi = Ok (Toy.rag multi, Counter.init)
      /\ Counter.retrieve
           (counter (snd (BasicRAG.retrieve W (Toy.rag multi) (py "q") 1 64
                            Toy.st0)))
         = Counter.retrieve (counter Toy.st0) + 1 + 2
      /\ searches (snd (BasicRAG.retrieve W (Toy.rag multi) (py "q") 1 64
                          Toy.st0))
         = searches Toy.st0 + 2).
Proof.
  intros W single multi. split.
  - split; [reflexivity|].
    destruct (retrieve_counter_double_counts W single (Toy.rag single)
                Counter.init
                [(py "wiki",
                  {| entry_description := py "Wikipedia";
                     entry_retriever := BM25 [] |})]
                (py "q") 1 64 Toy.st0 eq_refl) as (Hsingle & _ & _).
    specialize (Hsingle eq_refl).
    destruct (BasicRAG.retrieve W (Toy.rag single) (py "q") 1 64 Toy.st0)
      as [r st'].
    exact (proj1 Hsingle).
  - split; [reflexivity|].
    destruct (retrieve_counter_double_counts W multi (Toy.rag multi)
                Counter.init
                [(py "wiki",
                  {| entry_description := py "Wikipedia";
                     entry_retriever := BM25 [] |});
                 (py "news",
                  {| entry_description := py "News";
                     entry_retriever := SGPT [] |})]
                (py "q") 1 64 Toy.st0 eq_refl) as (_ & Hmulti & _).
    specialize (Hmulti eq_refl).
    remember (BasicRAG.retrieve W (Toy.rag multi) (py "q") 1 64 Toy.st0)
      as run eqn:Hrun.
    assert (Hok : exists docs, run = (Ok docs, snd run))
      by (subst run; vm_compute; eexists; reflexivity).
    destruct Hok as (docs & Hok).
    exact (Hmulti docs (snd run) Hok).
Defined.

(** C9, as stated, fails: the generator selects [ok], which names no
    index, and the error that [retrieve] raises is a [KeyError], not a
    [NotImplementedError]. *)
Lemma retrieve_unknown_index_not_notimplemented :
  fst (BasicRAG.retrieve Toy.world
         (Toy.rag (Toy.with_retrievers [Toy.wiki; Toy.news]))
         (py "q") 1 64 Toy.st0)
  <> Raise NotImplementedError.
Proof. vm_compute. discriminate. Qed.

(** C9 at work on the same call. *)
Lemma retrieve_unknown_index_keyerror_witness :
  let self := Toy.rag (Toy.with_retrievers [Toy.wiki; Toy.news]) in
  fst (BasicRAG.retrieve Toy.world self (py "q") 1 64 Toy.st0)
  = Raise KeyError
  /\ generations (snd (BasicRAG.retrieve Toy.world self (py "q") 1 64
                         Toy.st0))
     = generations Toy.st0 + 1.
Proof.
  intros self.
  pose proof (retrieve_unknown_index_keyerror Toy.world self
                [(py "wiki",
                  {| entry_description := py "Wikipedia";
                     entry_retriever := BM25 [] |});
                 (py "news",
                  {| entry_description := py "News";
                     entry_retriever := SGPT [] |})]
                (py "q") 1 64 Toy.st0 [] (py "ok") []
                eq_refl eq_refl eq_refl (Forall_nil _)) as Hk.
  destruct (BasicRAG.retrieve Toy.world self (py "q") 1 64 Toy.st0)
    as [r st'].
  destruct Hk as (Hr & Hgen & _). split; assumption.
Defined.

(** C8.  [BasicRAG.__init__] raises for no configuration.  With the
    unknown retriever kind [FAISS], [_retriever_selector] returns the
    [NotImplementedError] object, which is stored as the retriever, and the
    error surfaces at the first retrieval, raised by [_retrieve]. *)
Theorem init_unknown_kind_is_deferred :
  (forall a : Args num,
      exists self, BasicRAG.init a = Ok (self, Counter.init))
  /\ let a := Toy.with_retrievers [Toy.faiss] in
     let self :=
       {| args := a;
          gateway :=
            Some (false,
                  [(py "docs",
                    {| entry_description := py "Manuals";
                       entry_retriever := NotImplementedErrorInstance |})])
       |} in
     BasicRAG.init a = Ok (self, Counter.init)
     /\ fst (BasicRAG.retrieve Toy.world self (py "q") 1 64 Toy.st0)
        = Raise NotImplementedError.
Proof.
  split.
  - intros a. destruct (init_never_raises a) as (self & Hinit & _).
    exists self. exact Hinit.
  - split; reflexivity.
Qed.

(* ================================================================== *)
(** * Properties of the real-words reformulation *)
(* ================================================================== *)

Section SortedBy.
Context {A : Type}.

Lemma insert_by_perm (precedes : A -> A -> bool) x l :
  Permutation (insert_by precedes x l) (x :: l).
Proof.
  induction l as [|y l IH]; simpl; [apply Permutation_refl|].
  destruct (precedes x y); [apply Permutation_refl|].
  eapply Permutation_trans; [apply perm_skip, IH | apply perm_swap].
Qed.

Lemma sorted_by_perm (precedes : A -> A -> bool) l :
  Permutation (sorted_by precedes l) l.
Proof.
  unfold sorted_by.
  assert (Hgen : forall acc,
             Permutation
               (fold_left (fun acc x => insert_by precedes x acc) l acc)
               (acc ++ l)).
  { induction l as [|x l IH]; intros acc; simpl.
    - rewrite app_nil_r. apply Permutation_refl.
    - eapply Permutation_trans; [apply IH|].
      eapply Permutation_trans;
        [apply Permutation_app_tail, insert_by_perm|].
      simpl. apply Permutation_middle. }
  apply (Hgen []).
Qed.

(** Sorting on an integer key, as [sorted(..., key=lambda x: x[2])]. *)
Variable key : A -> Z.

Lemma insert_by_key_sorted x l :
  StronglySorted (fun a b => key a <= key b) l ->
  StronglySorted (fun a b => key a <= key b)
    (insert_by (fun a b => key a <? key b) x l).
Proof.
  induction l as [|y l IH]; intros Hs; simpl.
  - constructor; constructor.
  - inversion Hs as [|? ? Hs' Hall]; subst.
    destruct (key x <? key y) eqn:Hlt.
    + apply Z.ltb_lt in Hlt. constructor; [exact Hs|].
      constructor; [lia|].
      eapply Forall_impl; [|exact Hall]. simpl. intros; lia.
    + apply Z.ltb_ge in Hlt. constructor; [apply IH, Hs'|].
      eapply Permutation_Forall;
        [apply Permutation_sym, insert_by_perm|].
      constructor; assumption.
Qed.

Lemma sorted_by_key_sorted l :
  StronglySorted (fun a b => key a <= key b)
    (sorted_by (fun a b => key a <? key b) l).
Proof.
  unfold sorted_by.
  assert (Hgen : forall acc,
             StronglySorted (fun a b => key a <= key b) acc ->
             StronglySorted (fun a b => key a <= key b)
               (fold_left
                  (fun acc x => insert_by (fun a b => key a <? key b) x acc)
                  l acc)).
  { induction l as [|x l IH]; intros acc Hacc; simpl; [exact Hacc|].
    apply IH, insert_by_key_sorted, Hacc. }
  apply Hgen. constructor.
Qed.

(** A list sorted on a key without repetition is strictly sorted. *)
Lemma sorted_nodup_strict l :
  StronglySorted (fun a b => key a <= key b) l ->
  NoDup (map key l) ->
  StronglySorted (fun a b => key a < key b) l.
Proof.
  induction 1 as [|x l Hs IH Hall]; intros Hnd; simpl in Hnd.
  - constructor.
  - inversion Hnd as [|? ? Hnotin Hnd']; subst.
    constructor; [apply IH, Hnd'|].
    rewrite Forall_forall in *. intros y Hy.
    specialize (Hall y Hy).
    assert (key x <> key y).
    { intros Heq. apply Hnotin. rewrite Heq. now apply in_map. }
    lia.
Qed.

Lemma strict_sorted_nodup l :
  StronglySorted (fun a b => key a < key b) l -> NoDup (map key l).
Proof.
  induction 1 as [|x l Hs IH Hall]; simpl; constructor; [|exact IH].
  rewrite in_map_iff. intros (y & Hk & Hy).
  rewrite Forall_forall in Hall. specialize (Hall y Hy). lia.
Qed.
End SortedBy.

(** [l[:k]] is a prefix of [l], of at most [k] elements when [0 <= k]. *)
Lemma slice_to_prefix {A} (k : Z) (l : list A) :
  exists n, Py.slice None (Some k) l = firstn n l
            /\ (0 <= k -> Z.of_nat n <= k).
Proof.
  unfold Py.slice. rewrite Nat.sub_0_r. simpl skipn.
  exists (Py.clip (Py.len l) k). split; [reflexivity|].
  intros Hk. unfold Py.clip.
  assert (Hlt : (k <? 0) = false) by (apply Z.ltb_ge; lia).
  rewrite Hlt. lia.
Qed.

Lemma firstn_incl {A} n (l : list A) : incl (firstn n l) l.
Proof.
  intros x Hin. rewrite <- (firstn_skipn n l). apply in_or_app. now left.
Qed.

Lemma firstn_nodup {A} n (l : list A) : NoDup l -> NoDup (firstn n l).
Proof.
  revert n. induction l as [|x l IH]; intros [|n] Hnd; simpl;
    try constructor.
  - inversion Hnd; subst. intros Hin. apply firstn_incl in Hin.
    contradiction.
  - inversion Hnd; subst. now apply IH.
Qed.

Lemma enumerate_from_in {A} (l : list A) :
  forall s i x, In (i, x) (enumerate_from s l) ->
                (s <= i)%nat /\ nth_error l (i - s) = Some x.
Proof.
  induction l as [|y l IH]; intros s i x Hin; simpl in Hin; [contradiction|].
  destruct Hin as [Heq|Hin].
  - inversion Heq; subst. rewrite Nat.sub_diag. split; [lia|reflexivity].
  - apply IH in Hin. destruct Hin as [Hle Hnth]. split; [lia|].
    replace (i - s)%nat with (S (i - S s)) by lia. exact Hnth.
Qed.

Lemma enumerate_from_sorted {A} (l : list A) :
  forall s, StronglySorted (fun a b : nat * A => (fst a < fst b)%nat)
              (enumerate_from s l).
Proof.
  induction l as [|y l IH]; intros s; simpl; constructor; [apply IH|].
  rewrite Forall_forall. intros [i x] Hin.
  apply enumerate_from_in in Hin. simpl. lia.
Qed.

Lemma getitem_nth_error {A} (l : list A) (i : nat) (x : A) :
  nth_error l i = Some x -> getitem l (Z.of_nat i) = Ok x.
Proof.
  intros Hnth. unfold getitem, Py.index, Py.len.
  assert (Hi : (i < List.length l)%nat)
    by (apply nth_error_Some; congruence).
  assert (H0 : (0 <=? Z.of_nat i) = true) by (apply Z.leb_le; lia).
  assert (H1 : (Z.of_nat i <? Z.of_nat (List.length l)) = true)
    by (apply Z.ltb_lt; lia).
  rewrite H0, H1, Nat2Z.id, Hnth. reflexivity.
Qed.

Lemma getitem_nonneg_nth {A} (l : list A) (z : Z) (x d : A) :
  0 <= z -> getitem l z = Ok x -> nth (Z.to_nat z) l d = x.
Proof.
  intros Hz. unfold getitem, Py.index.
  assert (H0 : (0 <=? z) = true) by (apply Z.leb_le; exact Hz).
  assert (H1 : (z <? 0) = false) by (apply Z.ltb_ge; exact Hz).
  rewrite H0, H1. cbn [andb].
  destruct (z <? Py.len l); [|discriminate].
  destruct (nth_error l (Z.to_nat z)) as [y|] eqn:Hnth; [|discriminate].
  intros Hy. inversion Hy; subst. now apply nth_error_nth.
Qed.

(** [l[:k]] is a prefix of [l], of [kept_count k (len l)] elements. *)
Lemma slice_prefix_exact {A} (k : Z) (l : list A) :
  Py.slice None (Some k) l = firstn (Py.clip (Py.len l) k) l
  /\ Z.of_nat (Py.clip (Py.len l) k) = kept_count k (Py.len l)
  /\ (Py.clip (Py.len l) k <= List.length l)%nat.
Proof.
  unfold Py.slice. rewrite Nat.sub_0_r. simpl skipn.
  split; [reflexivity|].
  unfold Py.clip, kept_count, Py.len.
  destruct (k <? 0) eqn:Hk.
  - apply Z.ltb_lt in Hk. split; lia.
  - apply Z.ltb_ge in Hk. split; lia.
Qed.

Section RealWordsFacts.
Context {F : Type} `{Float F} (W : Backend F).

Lemma real_pairs_of_spec real_words curr_st curr_hit forward_attns :
  forall ets real_pairs,
    AttnWeightRAG.real_pairs_of real_words curr_st curr_hit forward_attns
      ets = Ok real_pairs ->
    Forall (fun x => exists i, snd x = Z.of_nat i
                               /\ In (i, snd (fst x)) ets) real_pairs
    /\ (StronglySorted (fun a b : nat * str => (fst a < fst b)%nat) ets ->
        StronglySorted (fun a b : F * str * Z => pair_index a < pair_index b)
          real_pairs).
Proof.
  induction ets as [|[i tok] ets IH]; intros rp Hrp; simpl in Hrp.
  - inversion Hrp; subst. split; constructor.
  - destruct (getitem forward_attns (Z.of_nat i)) as [att|];
      simpl in Hrp; [|discriminate].
    destruct (if curr_st <=? Z.of_nat i
              then rbind (getitem curr_hit (Z.of_nat i - curr_st))
                     (fun hit => Ok (negb (hit =? 0)))
              else Ok false) as [skip|]; simpl in Hrp; [|discriminate].
    destruct (AttnWeightRAG.real_pairs_of real_words curr_st curr_hit
                forward_attns ets) as [rest|] eqn:Hrest;
      simpl in Hrp; [|discriminate].
    destruct (IH rest eq_refl) as [Hall Hsorted].
    assert (Hall' : Forall (fun x => exists j, snd x = Z.of_nat j
                              /\ In (j, snd (fst x)) ((i, tok) :: ets))
                      rest).
    { eapply Forall_impl; [|exact Hall]. simpl.
      intros x (j & Hj & Hin). exists j. auto. }
    assert (Hrest_ok :
              StronglySorted (fun a b : nat * str => (fst a < fst b)%nat)
                ((i, tok) :: ets) ->
              StronglySorted (fun a b : F * str * Z => pair_index a < pair_index b)
                rest).
    { intros Hs. inversion Hs; subst. auto. }
    destruct skip; [inversion Hrp; subst; split; assumption|].
    destruct (AttnWeightRAG.matches real_words tok);
      inversion Hrp; subst; [|split; assumption].
    split.
    + constructor; [|exact Hall'].
      exists i. simpl. auto.
    + intros Hs. constructor; [apply Hrest_ok, Hs|].
      inversion Hs as [|? ? _ Hlt]; subst.
      rewrite Forall_forall in *. intros x Hx.
      destruct (Hall x Hx) as (j & Hj & Hin).
      specialize (Hlt _ Hin). unfold pair_index. simpl in *. lia.
Qed.

(** The pairs that the loop over the tokens collects are the candidates,
    in the order of the text. *)
Lemma real_pairs_are_candidates real_words curr_st curr_hit
    (forward_attns : list F) :
  forall ets real_pairs,
    AttnWeightRAG.real_pairs_of real_words curr_st curr_hit forward_attns
      ets = Ok real_pairs ->
    map pair_token real_pairs
    = map position_token
        (filter (is_candidate real_words curr_st curr_hit) ets).
Proof.
  induction ets as [|[i tok] ets IH]; intros rp Hrp; simpl in Hrp.
  - inversion Hrp; subst. reflexivity.
  - destruct (getitem forward_attns (Z.of_nat i)) as [att|];
      simpl in Hrp; [|discriminate].
    cbn [filter]. unfold is_candidate at 1, is_flagged. cbn [fst snd].
    destruct (curr_st <=? Z.of_nat i) eqn:Hst.
    + destruct (getitem curr_hit (Z.of_nat i - curr_st)) as [hit|] eqn:Hhit;
        simpl in Hrp; [|discriminate].
      apply Z.leb_le in Hst.
      rewrite (getitem_nonneg_nth curr_hit (Z.of_nat i - curr_st) hit 0
                 ltac:(lia) Hhit).
      destruct (AttnWeightRAG.real_pairs_of real_words curr_st curr_hit
                  forward_attns ets) as [rest|] eqn:Hrest;
        simpl in Hrp; [|discriminate].
      specialize (IH rest eq_refl). cbn [andb].
      destruct (hit =? 0); cbn [negb andb] in *.
      * destruct (AttnWeightRAG.matches real_words tok);
          inversion Hrp; subst; [|exact IH].
        cbn [map]. now rewrite IH.
      * inversion Hrp; subst. exact IH.
    + simpl in Hrp.
      destruct (AttnWeightRAG.real_pairs_of real_words curr_st curr_hit
                  forward_attns ets) as [rest|] eqn:Hrest;
        simpl in Hrp; [|discriminate].
      specialize (IH rest eq_refl). cbn [andb negb].
      destruct (AttnWeightRAG.matches real_words tok);
        inversion Hrp; subst; [|exact IH].
      cbn [map]. now rewrite IH.
Qed.

(** A sort of the runtime that returns its input in another order. *)
Hypothesis sorted_permutes :
  forall (A : Type) (key : A -> F) (l : list A),
    Permutation (fsorted_desc key l) l.

(** The selection keeps pairs of the candidates, in the order of their
    positions, and as many as the slice [[:top_k]] leaves. *)
Lemma select_exact top_k (real_pairs : list (F * str * Z)) :
  StronglySorted (fun a b : F * str * Z => pair_index a < pair_index b)
    real_pairs ->
  let kept := AttnWeightRAG.select top_k real_pairs in
  incl kept real_pairs
  /\ StronglySorted (fun a b : F * str * Z => pair_index a < pair_index b)
       kept
  /\ Py.len kept = kept_count top_k (Py.len real_pairs).
Proof.
  intros Hs kept. subst kept. unfold AttnWeightRAG.select.
  set (s1 := fsorted_desc _ real_pairs).
  assert (Hp1 : Permutation s1 real_pairs) by apply sorted_permutes.
  destruct (slice_prefix_exact top_k s1) as (Hslice & Hcount & Hle).
  rewrite Hslice.
  set (n := Py.clip (Py.len s1) top_k) in *.
  set (kept := sorted_by _ (firstn n s1)).
  assert (Hp2 : Permutation kept (firstn n s1)) by apply sorted_by_perm.
  split; [|split].
  - intros x Hx. eapply Permutation_in; [exact Hp1|].
    eapply firstn_incl. eapply Permutation_in; [exact Hp2|exact Hx].
  - apply sorted_nodup_strict.
    + apply (sorted_by_key_sorted pair_index).
    + eapply Permutation_NoDup;
        [apply Permutation_sym, Permutation_map, Hp2|].
      rewrite <- firstn_map. apply firstn_nodup.
      eapply Permutation_NoDup;
        [apply Permutation_sym, Permutation_map, Hp1|].
      apply strict_sorted_nodup, Hs.
  - unfold Py.len at 1.
    rewrite (Permutation_length Hp2), length_firstn.
    rewrite Nat.min_l by exact Hle. rewrite Hcount.
    unfold Py.len. now rewrite (Permutation_length Hp1).
Qed.

(** The run of a returning call of [keep_real_words]. *)
Lemma keep_real_words_trace self prev_text curr_tokens curr_hit st q st' :
  AttnWeightRAG.keep_real_words W self prev_text curr_tokens curr_hit st
  = (Ok q, st') ->
  let all_text := AttnWeightRAG.all_text_of prev_text curr_tokens in
  let tokens := AttnWeightRAG.merged_tokens W (encode W all_text) in
  exists forward_attns real_pairs top_k,
    AttnWeightRAG.real_pairs_of (content_words W all_text)
      (Py.len tokens - Py.len curr_tokens) curr_hit forward_attns
      (enumerate tokens) = Ok real_pairs
    /\ AttnWeightRAG.top_k_of self (Py.len real_pairs) = Ok top_k
    /\ q = Py.join [Py.space]
             (map (fun x => snd (fst x))
                (AttnWeightRAG.select top_k real_pairs)).
Proof.
  unfold AttnWeightRAG.keep_real_words.
  unfold bind at 1, request. cbv beta iota.
  unfold bind at 1, lift.
  destruct (map_result _ _) as [attns|]; [|discriminate].
  cbv beta iota. unfold bind at 1.
  destruct (fold_left _ _ _) as [[forward_attns hit_cnt]|];
    [|discriminate].
  cbv beta iota. unfold bind at 1.
  destruct (AttnWeightRAG.real_pairs_of _ _ _ _ _) as [real_pairs|]
    eqn:Hrp; [|discriminate].
  cbv beta iota. unfold bind at 1.
  destruct (AttnWeightRAG.top_k_of self (Py.len real_pairs)) as [top_k|]
    eqn:Htop; [|discriminate].
  cbv beta iota. unfold ret. intros Hq. inversion Hq; subst.
  eauto 10.
Qed.

(** What a returning call of [keep_real_words] has computed. *)
Lemma keep_real_words_inv self prev_text curr_tokens curr_hit st q st' :
  AttnWeightRAG.keep_real_words W self prev_text curr_tokens curr_hit st
  = (Ok q, st') ->
  let tokens :=
    AttnWeightRAG.merged_tokens W
      (encode W (AttnWeightRAG.all_text_of prev_text curr_tokens)) in
  exists real_pairs top_k,
    StronglySorted (fun a b : F * str * Z => pair_index a < pair_index b) real_pairs
    /\ Forall (fun x => getitem tokens (snd x) = Ok (snd (fst x)))
         real_pairs
    /\ AttnWeightRAG.top_k_of self (Py.len real_pairs) = Ok top_k
    /\ q = Py.join [Py.space]
             (map (fun x => snd (fst x))
                (AttnWeightRAG.select top_k real_pairs)).
Proof.
  unfold AttnWeightRAG.keep_real_words.
  unfold bind at 1, request. cbv beta iota.
  unfold bind at 1, lift.
  destruct (map_result _ _) as [attns|]; [|discriminate].
  cbv beta iota. unfold bind at 1.
  destruct (fold_left _ _ _) as [[forward_attns hit_cnt]|];
    [|discriminate].
  cbv beta iota. unfold bind at 1.
  destruct (AttnWeightRAG.real_pairs_of _ _ _ _ _) as [real_pairs|]
    eqn:Hrp; [|discriminate].
  cbv beta iota. unfold bind at 1.
  destruct (AttnWeightRAG.top_k_of self (Py.len real_pairs)) as [top_k|]
    eqn:Htop; [|discriminate].
  cbv beta iota. unfold ret. intros Hq. inversion Hq; subst.
  exists real_pairs, top_k.
  apply real_pairs_of_spec in Hrp. destruct Hrp as [Hall Hsorted].
  split; [apply Hsorted, enumerate_from_sorted|].
  split; [|split; [exact Htop | reflexivity]].
  eapply Forall_impl; [|exact Hall]. simpl.
  intros x (i & Hi & Hin). rewrite Hi.
  apply enumerate_from_in in Hin. destruct Hin as [_ Hnth].
  rewrite Nat.sub_0_r in Hnth. apply getitem_nth_error, Hnth.
Qed.
End RealWordsFacts.

Lemma strongly_sorted_pair_token {F} (l : list (F * str * Z)) :
  StronglySorted (fun a b : F * str * Z => pair_index a < pair_index b) l ->
  StronglySorted (fun a b : str * Z => snd a < snd b) (map pair_token l).
Proof.
  induction 1 as [|x l Hs IH Hall]; simpl; constructor; [exact IH|].
  rewrite Forall_forall in *. intros y Hy.
  apply in_map_iff in Hy. destruct Hy as (z & <- & Hz).
  apply (Hall z Hz).
Qed.

Lemma subseq_refl {A} (l : list A) : subseq l l.
Proof. induction l; constructor; assumption. Qed.

Lemma subseq_filter {A} (p : A -> bool) (l : list A) : subseq (filter p l) l.
Proof.
  induction l as [|x l IH]; simpl; [constructor|].
  destruct (p x); constructor; exact IH.
Qed.

Lemma subseq_map {A B} (f : A -> B) (l1 l2 : list A) :
  subseq l1 l2 -> subseq (map f l1) (map f l2).
Proof. induction 1; simpl; constructor; assumption. Qed.

(** Among lists that are strictly increasing in a key, inclusion is
    inclusion in order. *)
Lemma sorted_incl_subseq {A} (key : A -> Z) (l2 : list A) :
  forall l1,
    StronglySorted (fun a b => key a < key b) l1 ->
    StronglySorted (fun a b => key a < key b) l2 ->
    incl l1 l2 ->
    subseq l1 l2.
Proof.
  induction l2 as [|y l2 IH]; intros l1 Hs1 Hs2 Hincl.
  - destruct l1 as [|x l1]; [constructor|].
    destruct (Hincl x (or_introl eq_refl)).
  - destruct l1 as [|x l1]; [constructor|].
    inversion Hs1 as [|? ? Hs1' Hx]; subst.
    inversion Hs2 as [|? ? Hs2' Hy]; subst.
    rewrite Forall_forall in Hx, Hy.
    destruct (Z.eq_dec (key x) (key y)) as [Heq|Hne].
    + assert (Hxy : x = y).
      { destruct (Hincl x (or_introl eq_refl)) as [Hxy|Hin]; [now symmetry|].
        specialize (Hy x Hin). lia. }
      subst y. apply subseq_take. apply IH; try assumption.
      intros z Hz. destruct (Hincl z (or_intror Hz)) as [Hzx|Hin];
        [|exact Hin].
      subst z. specialize (Hx x Hz). lia.
    + apply subseq_skip. apply IH; try assumption.
      assert (Hxin : In x l2).
      { destruct (Hincl x (or_introl eq_refl)) as [Hxy|Hin];
          [congruence|exact Hin]. }
      intros z [Hz|Hz].
      * now subst z.
      * destruct (Hincl z (or_intror Hz)) as [Hzy|Hin]; [|exact Hin].
        subst z. specialize (Hx y Hz). specialize (Hy x Hxin). lia.
Qed.

Lemma map_pair_token_text {F} (l : list (F * str * Z)) :
  map (fun x => snd (fst x)) l = map fst (map pair_token l).
Proof. rewrite map_map. reflexivity. Qed.

(** C7.  Let the sort of the runtime return its input in another order, as
    every sort does.  A query that [keep_real_words] returns is the join of
    kept tokens of the re-tokenised text.  The candidates are the tokens
    that are not flagged and hold a real word, each with its position, in
    the order of the text; the kept tokens are candidates, in the order of
    the candidates, and so in the left-to-right order of the text.  Their
    number is that of the slice [[:top_k]] of the candidates: with
    [retrieve_keep_top_k = K], [top_k] is [min(K, candidate_count)], so
    for [K >= 0] exactly [min(K, candidate_count)] tokens are kept, at most
    [K]; with [retrieve_keep_ratio = ratio] instead, [top_k] is
    [int(candidate_count * ratio)] in the arithmetic of the code, and when
    that is not negative exactly [min(top_k, candidate_count)] tokens are
    kept, at most [top_k]. *)
Theorem keep_real_words_top_k_in_order :
  forall {F : Type} `{Float F} (W : Backend F) (self : RAG F)
         (prev_text : str) (curr_tokens : list str) (curr_hit : list Z)
         (st : State) (q : str) (st' : State),
    (forall (A : Type) (key : A -> F) (l : list A),
        Permutation (fsorted_desc key l) l) ->
    AttnWeightRAG.keep_real_words W self prev_text curr_tokens curr_hit st
    = (Ok q, st') ->
    let all_text := AttnWeightRAG.all_text_of prev_text curr_tokens in
    let tokens := AttnWeightRAG.merged_tokens W (encode W all_text) in
    let candidates :=
      candidates_of (content_words W all_text)
        (Py.len tokens - Py.len curr_tokens) curr_hit tokens in
    exists (kept : list (str * Z)) (top_k : Z),
      q = Py.join [Py.space] (map fst kept)
      /\ subseq kept candidates
      /\ subseq candidates (map position_token (enumerate tokens))
      /\ AttnWeightRAG.top_k_of self (Py.len candidates) = Ok top_k
      /\ Py.len kept = kept_count top_k (Py.len candidates)
      /\ (0 <= top_k ->
          Py.len kept = Z.min top_k (Py.len candidates)
          /\ Py.len kept <= top_k)
      /\ (forall K,
             retrieve_keep_top_k (args self) = Some K ->
             top_k = Z.min K (Py.len candidates)
             /\ (0 <= K ->
                 Py.len kept = Z.min K (Py.len candidates)
                 /\ Py.len kept <= K))
      /\ (forall ratio,
             retrieve_keep_top_k (args self) = None ->
             retrieve_keep_ratio (args self) = Some ratio ->
             ftrunc (fmul (of_Z (Py.len candidates)) ratio) = Ok top_k).
Proof.
  intros F HF W self prev_text curr_tokens curr_hit st q st' Hperm Hrun
    all_text tokens candidates.
  apply keep_real_words_trace in Hrun.
  destruct Hrun as (forward_attns & real_pairs & top_k & Hrp & Htop & Hq).
  fold all_text in Hrp. fold tokens in Hrp.
  pose proof (real_pairs_are_candidates _ _ _ _ _ _ Hrp) as Hcand.
  fold (candidates_of (content_words W all_text)
          (Py.len tokens - Py.len curr_tokens) curr_hit tokens) in Hcand.
  fold candidates in Hcand.
  assert (Hsorted : StronglySorted
                      (fun a b : F * str * Z => pair_index a < pair_index b)
                      real_pairs).
  { apply real_pairs_of_spec in Hrp. apply (proj2 Hrp).
    apply enumerate_from_sorted. }
  destruct (select_exact Hperm top_k real_pairs Hsorted)
    as (Hincl & Hkept & Hlen).
  assert (Hn : Py.len real_pairs = Py.len candidates).
  { unfold Py.len. rewrite <- Hcand. now rewrite length_map. }
  assert (Hcount : Py.len (map pair_token
                             (AttnWeightRAG.select top_k real_pairs))
                   = kept_count top_k (Py.len candidates)).
  { rewrite <- Hn, <- Hlen. unfold Py.len. now rewrite length_map. }
  assert (Hnn : 0 <= Py.len candidates) by (unfold Py.len; lia).
  assert (Hsub : subseq (map pair_token
                           (AttnWeightRAG.select top_k real_pairs))
                   candidates).
  { rewrite <- Hcand. apply subseq_map.
    apply (sorted_incl_subseq pair_index); assumption. }
  assert (Hjoin : q = Py.join [Py.space]
                        (map fst (map pair_token
                                    (AttnWeightRAG.select top_k
                                       real_pairs))))
    by (rewrite Hq; f_equal; apply map_pair_token_text).
  assert (Hall : subseq candidates
                   (map position_token (enumerate tokens)))
    by apply subseq_map, subseq_filter.
  clearbody candidates.
  generalize dependent (map pair_token
                          (AttnWeightRAG.select top_k real_pairs)).
  intros kept Hcount Hsub Hjoin.
  exists kept, top_k.
  split; [exact Hjoin|].
  split; [exact Hsub|].
  split; [exact Hall|].
  split; [rewrite <- Hn; exact Htop|].
  split; [exact Hcount|].
  split; [|split].
  - intros Hpos. rewrite Hcount. unfold kept_count.
    assert (Hlt : (top_k <? 0) = false) by (apply Z.ltb_ge; lia).
    rewrite Hlt. split; lia.
  - intros K HK. unfold AttnWeightRAG.top_k_of in Htop.
    rewrite HK, Hn in Htop. injection Htop as Htk.
    split; [now symmetry|]. intros Hpos. rewrite Hcount, <- Htk.
    unfold kept_count.
    assert (Hlt : (Z.min K (Py.len candidates) <? 0) = false)
      by (apply Z.ltb_ge; lia).
    rewrite Hlt. split; lia.
  - intros ratio HK HR. unfold AttnWeightRAG.top_k_of in Htop.
    rewrite HK, HR, Hn in Htop. exact Htop.
Qed.

(** C7 at work: of the candidates [the], [cat], [down], the two of highest
    attention are kept with [retrieve_keep_top_k = 2], in the order of the
    text, and one with [retrieve_keep_ratio = 1/2]. *)
Lemma keep_real_words_top_k_in_order_witness :
  let tokens := [py "the"; py "cat"; py "sat"; py "down"] in
  let candidates := [(py "the", 0); (py "cat", 1); (py "down", 3)] in
  (fst (AttnWeightRAG.keep_real_words Toy.world (Toy.rag Toy.args0)
          (py "the cat") [py "sat"; py "down"] [1; 0] Toy.st0)
   = Ok (py "the cat")
   /\ exists (kept : list (str * Z)) (top_k : Z),
        py "the cat" = Py.join [Py.space] (map fst kept)
        /\ subseq kept candidates
        /\ subseq candidates (map position_token (enumerate tokens))
        /\ Py.len kept = 2)
  /\ (fst (AttnWeightRAG.keep_real_words Toy.world
             (Toy.rag (Toy.with_ratio (Fin (1 # 2))))
             (py "the cat") [py "sat"; py "down"] [1; 0] Toy.st0)
      = Ok (py "cat")
      /\ exists (kept : list (str * Z)) (top_k : Z),
           py "cat" = Py.join [Py.space] (map fst kept)
           /\ subseq kept candidates
           /\ top_k = 1
           /\ Py.len kept = 1).
Proof.
  intros tokens candidates.
  assert (Hperm : forall (A : Type) (key : A -> num) (l : list A),
             Permutation (fsorted_desc key l) l)
    by (intros A key l; apply sorted_by_perm).
  split.
  - split; [reflexivity|].
    destruct (keep_real_words_top_k_in_order Toy.world (Toy.rag Toy.args0)
                (py "the cat") [py "sat"; py "down"] [1; 0] Toy.st0
                (py "the cat")
                (snd (AttnWeightRAG.keep_real_words Toy.world
                        (Toy.rag Toy.args0) (py "the cat")
                        [py "sat"; py "down"] [1; 0] Toy.st0))
                Hperm eq_refl)
      as (kept & top_k & Hq & Hsub & Hall & _ & _ & _ & HK & _).
    exists kept, top_k.
    split; [exact Hq|]. split; [exact Hsub|]. split; [exact Hall|].
    exact (proj1 (proj2 (HK 2 eq_refl) ltac:(lia))).
  - split; [reflexivity|].
    assert (Hrun : AttnWeightRAG.keep_real_words Toy.world
                     (Toy.rag (Toy.with_ratio (Fin (1 # 2))))
                     (py "the cat") [py "sat"; py "down"] [1; 0] Toy.st0
                   = (Ok (py "cat"),
                      snd (AttnWeightRAG.keep_real_words Toy.world
                             (Toy.rag (Toy.with_ratio (Fin (1 # 2))))
                             (py "the cat") [py "sat"; py "down"] [1; 0]
                             Toy.st0)))
      by (vm_compute; reflexivity).
    destruct (keep_real_words_top_k_in_order Toy.world
                (Toy.rag (Toy.with_ratio (Fin (1 # 2)))) (py "the cat")
                [py "sat"; py "down"] [1; 0] Toy.st0 (py "cat") _
                Hperm Hrun)
      as (kept & top_k & Hq & Hsub & _ & _ & _ & Hpos & _ & HR).
    specialize (HR (Fin (1 # 2)) eq_refl eq_refl).
    assert (Htk : top_k = 1) by (vm_compute in HR; congruence).
    exists kept, top_k.
    split; [exact Hq|]. split; [exact Hsub|]. split; [exact Htk|].
    rewrite Htk in Hpos. exact (proj1 (Hpos ltac:(lia))).
Defined.

(* ================================================================== *)
(** * The [avg] reduction of the attention weights *)
(* ================================================================== *)

Section AvgFacts.

Lemma zip_with_fin xs :
  forall ys, zip_with Num.add (map Fin xs) (map Fin ys)
             = map Fin (zip_with Qplus xs ys).
Proof.
  induction xs as [|x xs IH]; intros [|y ys]; simpl; try reflexivity.
  now rewrite IH.
Qed.

Lemma col_reduce_fin rows :
  @BasicGenerator.col_reduce num Num.add (map (map Fin) rows)
  = map Fin (colQ rows).
Proof.
  destruct rows as [|r rs]; simpl; [reflexivity|].
  revert r. induction rs as [|r' rs IH]; intros r; simpl; [reflexivity|].
  rewrite zip_with_fin. apply IH.
Qed.

Lemma length_zip_with {A B C} (f : A -> B -> C) xs :
  forall ys, List.length ys = List.length xs ->
             List.length (zip_with f xs ys) = List.length xs.
Proof.
  induction xs as [|x xs IH]; intros [|y ys] Hl; simpl in *;
    try reflexivity; try discriminate.
  f_equal. apply IH. lia.
Qed.

Lemma nth_zip_with_Qplus xs :
  forall ys k, List.length ys = List.length xs ->
               nth k (zip_with Qplus xs ys) 0%Q
               = (nth k xs 0 + nth k ys 0)%Q \/ (List.length xs <= k)%nat.
Proof.
  induction xs as [|x xs IH]; intros [|y ys] k Hl; simpl in *;
    try discriminate; [right; lia|].
  destruct k as [|k]; [left; reflexivity|].
  destruct (IH ys k ltac:(lia)) as [Heq|Hge]; [left; exact Heq|].
  right. lia.
Qed.

Lemma fold_zip_with_Qplus K k rs :
  forall r, List.length r = K ->
            Forall (fun row => List.length row = K) rs ->
            (k < K)%nat ->
            List.length (fold_left (zip_with Qplus) rs r) = K
            /\ (nth k (fold_left (zip_with Qplus) rs r) 0
                == nth k r 0 + Qsum (map (fun row => nth k row 0) rs))%Q.
Proof.
  induction rs as [|r' rs IH]; intros r Hr Hall Hk; simpl.
  - split; [exact Hr|]. unfold Qsum. simpl. ring.
  - inversion Hall as [|? ? Hr' Hall']; subst.
    assert (Hlen : List.length (zip_with Qplus r r') = List.length r)
      by (apply length_zip_with; congruence).
    destruct (IH (zip_with Qplus r r') Hlen Hall' Hk) as [Hl Hn].
    split; [exact Hl|]. rewrite Hn.
    destruct (nth_zip_with_Qplus r r' k ltac:(congruence)) as [Heq|Hge];
      [|lia].
    rewrite Heq. unfold Qsum. simpl. ring.
Qed.

Lemma colQ_rect K k rows :
  rect K rows -> (k < K)%nat ->
  List.length (colQ rows) = K
  /\ (nth k (colQ rows) 0 == Qsum (map (fun row => nth k row 0) rows))%Q.
Proof.
  intros [Hne Hall] Hk. destruct rows as [|r rs]; [congruence|].
  inversion Hall; subst. simpl colQ.
  destruct (fold_zip_with_Qplus (List.length r) k rs r eq_refl H2 Hk)
    as [Hl Hn].
  split; [exact Hl|]. rewrite Hn. unfold Qsum. simpl. ring.
Qed.

Lemma length_colQ K rows :
  rect K rows -> List.length (colQ rows) = K.
Proof.
  intros [Hne Hall]. destruct rows as [|r rs]; [congruence|].
  inversion Hall; subst. simpl. clear Hne Hall.
  revert r H2. induction rs as [|r' rs IH]; intros r Hall; simpl;
    [reflexivity|].
  inversion Hall; subst.
  rewrite IH.
  - apply length_zip_with. congruence.
  - rewrite length_zip_with by congruence. assumption.
Qed.
End AvgFacts.

Lemma nth_error_enumerate_from {A} (l : list A) :
  forall s k x, nth_error l k = Some x ->
                nth_error (enumerate_from s l) k = Some ((s + k)%nat, x).
Proof.
  induction l as [|y l IH]; intros s [|k] x Hn; simpl in *;
    try discriminate.
  - inversion Hn; subst. now rewrite Nat.add_0_r.
  - rewrite (IH (S s) k x Hn). f_equal. f_equal. lia.
Qed.

Lemma Qeq_bool_inject_pos (z : Z) : 0 < z -> Qeq_bool (inject_Z z) 0 = false.
Proof.
  intros Hz. destruct (Qeq_bool (inject_Z z) 0) eqn:He; [|reflexivity].
  apply Qeq_bool_eq in He. unfold Qeq in He. simpl in He. lia.
Qed.

Section AvgReduction.
Variable qexp : Q -> Q.

Lemma torch_sum_dim1_fin (a : list (list (list Q))) :
  @BasicGenerator.torch_sum_dim1 num (Num.float qexp)
    (map (map (map Fin)) a)
  = map (map Fin) (map colQ a).
Proof.
  unfold BasicGenerator.torch_sum_dim1. rewrite !map_map.
  apply map_ext. intros head. apply col_reduce_fin.
Qed.

Lemma torch_mean_dim0_fin (x : list (list Q)) :
  x <> [] ->
  @BasicGenerator.torch_mean_dim0 num (Num.float qexp) (map (map Fin) x)
  = map Fin (meanQ x).
Proof.
  intros Hne. unfold BasicGenerator.torch_mean_dim0, meanQ.
  simpl fadd. rewrite col_reduce_fin, !map_map.
  apply map_ext. intros v. simpl.
  unfold Py.len. rewrite length_map.
  rewrite Qeq_bool_inject_pos; [reflexivity|].
  destruct x; [congruence|]. simpl List.length. lia.
Qed.

Lemma decay_fin (m : list Q) :
  @BasicGenerator.decay num (Num.float qexp) (map Fin m)
  = map Fin (decayQ m).
Proof.
  unfold BasicGenerator.decay, decayQ, enumerate, Py.len.
  rewrite length_map, map_map.
  assert (Hgen : forall l s,
             (s + List.length l = List.length m)%nat ->
             map (fun iv : nat * num =>
                    fdiv (snd iv)
                      (of_Z (Z.of_nat (List.length m) - Z.of_nat (fst iv))))
                 (enumerate_from s (map Fin l))
             = map (fun iv : nat * Q =>
                      Fin (snd iv
                           / inject_Z (Z.of_nat (List.length m)
                                       - Z.of_nat (fst iv))))
                   (enumerate_from s l)).
  { induction l as [|x l IH]; intros s Hs; simpl; [reflexivity|].
    simpl List.length in Hs.
    rewrite Qeq_bool_inject_pos by lia.
    f_equal. apply IH. lia. }
  apply Hgen. reflexivity.
Qed.

(** The [avg] branch on finite weights, computed in the rationals. *)
Lemma reduce_attention_avg_fin (a : list (list (list Q))) :
  a <> [] ->
  @BasicGenerator.reduce_attention num (Num.float qexp) (py "avg")
    (map (map (map Fin)) a)
  = Ok (map Fin (decayQ (meanQ (map colQ a)))).
Proof.
  intros Hne. unfold BasicGenerator.reduce_attention.
  change (Py.eqb (py "avg") (py "max")) with false.
  change (Py.eqb (py "avg") (py "avg")) with true. cbv iota.
  rewrite torch_sum_dim1_fin, torch_mean_dim0_fin, decay_fin;
    [reflexivity|].
  destruct a; [congruence|discriminate].
Qed.
End AvgReduction.

(** C2, as the code has it.  On a last-layer attention tensor of finite
    weights with at least one head, every head a non-empty matrix of rows
    of width [K], the [avg] policy returns [K] weights; the weight of
    position [k] is the sum over the query positions of the attention that
    [k] receives ([torch.sum(atten, dim=1)]), averaged over the heads
    ([torch.mean(..., dim=0)]), divided by the number [K - k] of remaining
    positions. *)
Theorem avg_sums_queries_and_averages_heads :
  forall (qexp : Q -> Q) (a : list (list (list Q))) (K : nat),
    a <> [] ->
    Forall (rect K) a ->
    exists weights : list Q,
      @BasicGenerator.reduce_attention num (Num.float qexp) (py "avg")
        (map (map (map Fin)) a)
      = Ok (map Fin weights)
      /\ List.length weights = K
      /\ forall k, (k < K)%nat ->
           (nth k weights 0
            == received_all a k / inject_Z (Py.len a)
               / inject_Z (Z.of_nat K - Z.of_nat k))%Q.
Proof.
  intros qexp a K Hne Hrect.
  exists (decayQ (meanQ (map colQ a))).
  split; [apply reduce_attention_avg_fin, Hne|].
  assert (Hcols : rect K (map colQ a)).
  { split; [destruct a; [congruence|discriminate]|].
    rewrite Forall_map. eapply Forall_impl; [|exact Hrect].
    intros head Hhead. now apply length_colQ. }
  assert (Hmean_len : List.length (meanQ (map colQ a)) = K).
  { unfold meanQ. rewrite length_map. now apply length_colQ. }
  split.
  - unfold decayQ, enumerate. rewrite length_map.
    clear - Hmean_len. revert Hmean_len.
    generalize (meanQ (map colQ a)) as m. intros m <-.
    generalize 0%nat. induction m as [|x m IH]; intros s; simpl;
      [reflexivity|]. f_equal. apply IH.
  - intros k Hk.
    assert (Hnth : exists x, nth_error (meanQ (map colQ a)) k = Some x).
    { destruct (nth_error (meanQ (map colQ a)) k) eqn:He; [eauto|].
      apply nth_error_None in He. lia. }
    destruct Hnth as (x & Hx).
    unfold decayQ, enumerate.
    erewrite nth_error_nth;
      [|erewrite map_nth_error;
        [reflexivity | apply nth_error_enumerate_from, Hx]].
    simpl fst. simpl snd. unfold Py.len at 1. rewrite Hmean_len.
    assert (Hxv : (x == received_all a k / inject_Z (Py.len a))%Q).
    { unfold meanQ in Hx. rewrite nth_error_map in Hx.
      destruct (nth_error (colQ (map colQ a)) k) as [y|] eqn:Hy;
        simpl in Hx; [|discriminate].
      injection Hx as <-.
      apply nth_error_nth with (d := 0%Q) in Hy. rewrite <- Hy.
      destruct (colQ_rect K k (map colQ a) Hcols Hk) as [_ Hsum].
      rewrite Hsum. unfold Py.len. rewrite length_map.
      apply Qdiv_comp; [|reflexivity].
      unfold received_all. rewrite map_map.
      clear - Hrect Hk. induction Hrect as [|head a Hhead _ IH]; simpl;
        [reflexivity|].
      unfold Qsum in *. simpl. rewrite IH.
      destruct (colQ_rect K k head Hhead Hk) as [_ Hh]. rewrite Hh.
      reflexivity. }
    rewrite Hxv. reflexivity.
Qed.

(** C2 at work on two heads and two positions: position 0 receives
    [1 + 1/2] and [1 + 1], position 1 receives [1/2] and [0]. *)
Lemma avg_sums_queries_and_averages_heads_witness :
  let a := [ [ [1; 0]; [1 # 2; 1 # 2] ]; [ [1; 0]; [1; 0] ] ]%Q in
  exists weights : list Q,
    @BasicGenerator.reduce_attention num (Num.float Num.taylor2) (py "avg")
      (map (map (map Fin)) a)
    = Ok (map Fin weights)
    /\ (nth 0 weights 0 == 7 # 8)%Q
    /\ (nth 1 weights 0 == 1 # 4)%Q.
Proof.
  intros a.
  assert (Hrect : Forall (rect 2) a).
  { repeat constructor; discriminate. }
  destruct (avg_sums_queries_and_averages_heads Num.taylor2 a 2
              ltac:(discriminate) Hrect) as (weights & Hrun & _ & Hnth).
  exists weights. split; [exact Hrun|]. split.
  - rewrite (Hnth 0%nat) by lia. vm_compute. reflexivity.
  - rewrite (Hnth 1%nat) by lia. vm_compute. reflexivity.
Defined.

(** C2, as stated, fails.  A sequence of one token, read by two heads: the
    token attends to itself with weight 1 in each head.  The code returns
    the mean over the heads, 1; summing over the heads gives 2. *)
Lemma avg_is_not_a_sum_over_heads :
  let atten := [ [ [Fin 1] ]; [ [Fin 1] ] ] in
  exists x y : Q,
    @BasicGenerator.reduce_attention num (Num.float Num.taylor2) (py "avg")
      atten = Ok [Fin x]
    /\ @avg_as_specified num (Num.float Num.taylor2) atten = [Fin y]
    /\ ~ (x == y)%Q.
Proof.
  intros atten. eexists. eexists.
  split; [vm_compute; reflexivity|].
  split; [vm_compute; reflexivity|].
  vm_compute. discriminate.
Qed.

(* ================================================================== *)
(** * Properties of the probability-based detectors *)
(* ================================================================== *)

Lemma map_result_raises {A B} (f : A -> result B) (xs : list A) e :
  map_result f xs = Raise e -> exists x, In x xs /\ f x = Raise e.
Proof.
  induction xs as [|x xs IH]; simpl; [discriminate|].
  destruct (f x) as [y|e'] eqn:Hfx; simpl.
  - destruct (map_result f xs) as [ys|e'']; simpl; [discriminate|].
    intros Hr. inversion Hr; subst.
    destruct (IH eq_refl) as (x' & Hin & Hx'). eauto.
  - intros Hr. inversion Hr; subst. eauto.
Qed.

Lemma map_result_length {A B} (f : A -> result B) (xs : list A) :
  forall ys, map_result f xs = Ok ys -> List.length ys = List.length xs.
Proof.
  induction xs as [|x xs IH]; intros ys; simpl.
  - intros Hr. now inversion Hr.
  - destruct (f x) as [y|]; simpl; [|discriminate].
    destruct (map_result f xs) as [ys'|]; simpl; [|discriminate].
    intros Hr. inversion Hr; subst. simpl. now rewrite (IH ys').
Qed.

Lemma slice_incl {A} (lo hi : option Z) (l : list A) :
  incl (Py.slice lo hi l) l.
Proof.
  unfold Py.slice. intros x Hin.
  apply firstn_incl in Hin.
  rewrite <- (firstn_skipn
                match lo with Some i => Py.clip (Py.len l) i | None => O end
                l).
  apply in_or_app. now right.
Qed.

Section UnknownPolicy.
Context {F : Type} `{Float F} (W : Backend F).

Lemma sentence_reduce_unknown name probs :
  unknown_sentence_solver name = true ->
  TokenRAG.sentence_reduce name probs = Ok (of_Z 0).
Proof.
  unfold unknown_sentence_solver, TokenRAG.sentence_reduce.
  destruct (Py.eqb name (py "avg")); [discriminate|].
  destruct (Py.eqb name (py "max")); [discriminate|].
  destruct (Py.eqb name (py "min")); [discriminate|reflexivity].
Qed.

Lemma entity_reduce_unknown name probs :
  unknown_entity_solver name = true ->
  EntityRAG.entity_reduce name probs = Ok (of_Z 0).
Proof.
  unfold unknown_entity_solver, unknown_sentence_solver,
    EntityRAG.entity_reduce.
  destruct (Py.eqb name (py "avg")); [discriminate|].
  destruct (Py.eqb name (py "max")); [discriminate|].
  destruct (Py.eqb name (py "min")); [discriminate|].
  destruct (Py.eqb name (py "first")); [discriminate|reflexivity].
Qed.

(** [1 - exp(v)] raises what [exp(v)] raises. *)
Lemma uncertainty_raises v e :
  TokenRAG.uncertainty v = Raise e -> fexp v = Raise e.
Proof.
  unfold TokenRAG.uncertainty. destruct (fexp v); simpl;
    [discriminate|auto].
Qed.

Variable self : RAG F.
Hypothesis zero_not_above :
  fgtb (of_Z 0) (hallucination_threshold (args self)) = false.

(** With an unknown sentence policy the token-level loop flags nothing:
    it ends with [(text, None, False)], or with the exception of [exp] on
    a log-probability. *)
Lemma token_detect_unknown text tokens logprobs sentences :
  unknown_sentence_solver (sentence_solver (args self)) = true ->
  forall todo sid tid,
    TokenRAG.detect self text tokens logprobs sentences todo sid tid
    = Ok (text, None, false)
    \/ exists v e,
         In v logprobs /\ fexp v = Raise e
         /\ TokenRAG.detect self text tokens logprobs sentences todo sid tid
            = Raise e.
Proof.
  intros Hu. induction todo as [|sent todo IH]; intros sid tid;
    cbn [TokenRAG.detect]; [now left|].
  cbv zeta.
  destruct (map_result TokenRAG.uncertainty _) as [probs|e] eqn:Hprobs;
    cbn [rbind].
  - rewrite (sentence_reduce_unknown _ _ Hu). cbn [rbind].
    rewrite zero_not_above. apply IH.
  - right. apply map_result_raises in Hprobs.
    destruct Hprobs as (v & Hin & Hv).
    exists v, e. split; [eapply slice_incl; exact Hin|].
    split; [now apply uncertainty_raises|reflexivity].
Qed.

(** With an unknown sentence policy the entity-level loop flags nothing
    either: it only takes the exponential of every entity probability. *)
Lemma entity_detect_unknown text sentences :
  unknown_sentence_solver (sentence_solver (args self)) = true ->
  forall todo sid,
    EntityRAG.detect self text sentences todo sid
    = rbind (map_result (map_result TokenRAG.uncertainty) (map fst todo))
        (fun _ => Ok (text, None, false)).
Proof.
  intros Hu. induction todo as [|[eps entities] todo IH]; intros sid;
    cbn [EntityRAG.detect map fst map_result]; [reflexivity|].
  destruct (Nat.eqb (List.length eps) 0) eqn:Hlen.
  - destruct eps; [|discriminate]. cbn [map_result rbind].
    rewrite IH.
    destruct (map_result (map_result TokenRAG.uncertainty) (map fst todo));
      reflexivity.
  - destruct (map_result TokenRAG.uncertainty eps) as [probs|e];
      cbn [rbind]; [|reflexivity].
    rewrite (sentence_reduce_unknown _ _ Hu). cbn [rbind].
    rewrite zero_not_above. rewrite IH.
    destruct (map_result (map_result TokenRAG.uncertainty) (map fst todo));
      reflexivity.
Qed.

Lemma map_result_ok {A B} (f : A -> result B) (g : A -> B) xs :
  (forall x, f x = Ok (g x)) -> map_result f xs = Ok (map g xs).
Proof.
  intros Hf. induction xs as [|x xs IH]; simpl; [reflexivity|].
  now rewrite Hf, IH.
Qed.

Lemma entity_prob_unknown logprobs entity_intv :
  unknown_entity_solver (entity_solver (args self)) = true ->
  EntityRAG.entity_prob_of self logprobs entity_intv
  = Ok (map (map (fun _ => of_Z 0)) entity_intv).
Proof.
  intros Hu. unfold EntityRAG.entity_prob_of.
  apply map_result_ok. intros itvs.
  apply map_result_ok. intros itv.
  now apply entity_reduce_unknown.
Qed.

(** The entity probabilities stand one list by sentence, as the entities
    do. *)
Lemma entity_lists_align text tokens logprobs entity_intv entity_prob :
  EntityRAG.entity_intv_of W text tokens
    (BasicRAG.nonempty_stripped_sentences W text) = Ok entity_intv ->
  EntityRAG.entity_prob_of self logprobs entity_intv = Ok entity_prob ->
  map fst (combine entity_prob
             (EntityRAG.entity_of W
                (BasicRAG.nonempty_stripped_sentences W text)))
  = entity_prob.
Proof.
  unfold EntityRAG.entity_intv_of, EntityRAG.entity_prob_of.
  generalize (BasicRAG.nonempty_stripped_sentences W text) as sentences.
  intros sentences Hintv Hprob.
  destruct (EntityRAG.belonging_of text tokens) as [belonging|];
    simpl in Hintv; [|discriminate].
  apply map_result_length in Hintv. apply map_result_length in Hprob.
  assert (Hlen : List.length entity_prob
                 = List.length (EntityRAG.entity_of W sentences)).
  { rewrite Hprob, Hintv. unfold EntityRAG.entity_of.
    rewrite length_combine, !length_map. apply Nat.min_id. }
  clear -Hlen. revert Hlen.
  generalize (EntityRAG.entity_of W sentences) as entity.
  induction entity_prob as [|x xs IH]; intros [|y ys] Hlen;
    simpl in *; try reflexivity; try discriminate.
  f_equal. apply IH. now injection Hlen.
Qed.
End UnknownPolicy.

Section ZeroUncertainty.
Variable qexp : Q -> Q.
Hypothesis exp_zero : (qexp 0 == 1)%Q.
Let exact_float : Float num := Num.float qexp.
#[local] Existing Instance exact_float.

Lemma uncertainty_of_zero :
  exists u, TokenRAG.uncertainty (of_Z 0) = Ok u /\ zeroish u.
Proof.
  unfold TokenRAG.uncertainty, fsub. simpl.
  eexists. split; [reflexivity|].
  eexists. split; [reflexivity|].
  change (inject_Z 0) with 0%Q. rewrite exp_zero. reflexivity.
Qed.

Lemma uncertainties_of_zeros eps :
  Forall (fun v => v = of_Z 0) eps ->
  exists us,
    map_result TokenRAG.uncertainty eps = Ok us
    /\ Forall zeroish us /\ List.length us = List.length eps.
Proof.
  induction 1 as [|v eps Hv _ (us & Hus & Hz & Hlen)]; simpl.
  - exists []. repeat split; constructor.
  - subst v. destruct uncertainty_of_zero as (u & Hu & Hu0).
    rewrite Hu, Hus. simpl. exists (u :: us).
    split; [reflexivity|]. split; [now constructor|].
    simpl. now rewrite Hlen.
Qed.

Lemma not_above_zeroish (threshold x : num) :
  zeroish x ->
  fgtb (of_Z 0) threshold = false ->
  fgtb x threshold = false.
Proof.
  intros (q & -> & Hq). unfold fgtb. simpl.
  destruct threshold as [t| | |]; simpl; try reflexivity; try discriminate.
  unfold Num.Qlt_bool. change (inject_Z 0) with 0%Q.
  intros Hz. apply negb_false_iff in Hz. apply Qle_bool_iff in Hz.
  apply negb_false_iff, Qle_bool_iff. rewrite Hq. exact Hz.
Qed.

Lemma max_zeroish a b : zeroish a -> zeroish b -> zeroish (Num.max a b).
Proof.
  intros (x & -> & Hx) (y & -> & Hy). simpl.
  destruct (Num.Qlt_bool x y); eexists; split; try reflexivity; assumption.
Qed.

Lemma min_zeroish a b : zeroish a -> zeroish b -> zeroish (Num.min a b).
Proof.
  intros (x & -> & Hx) (y & -> & Hy). simpl.
  destruct (Num.Qlt_bool y x); eexists; split; try reflexivity; assumption.
Qed.

Lemma add_zeroish a b : zeroish a -> zeroish b -> zeroish (Num.add a b).
Proof.
  intros (x & -> & Hx) (y & -> & Hy). simpl.
  eexists. split; [reflexivity|]. rewrite Hx, Hy. reflexivity.
Qed.

Lemma fold_zeroish (f : num -> num -> num) xs :
  (forall a b, zeroish a -> zeroish b -> zeroish (f a b)) ->
  Forall zeroish xs ->
  forall acc, zeroish acc -> zeroish (fold_left f xs acc).
Proof.
  intros Hf. induction 1 as [|x xs Hx _ IH]; intros acc Hacc; simpl;
    [exact Hacc|].
  apply IH, Hf; assumption.
Qed.

Lemma sentence_reduce_zeroish name probs :
  probs <> [] -> Forall zeroish probs ->
  exists p, TokenRAG.sentence_reduce name probs = Ok p /\ zeroish p.
Proof.
  intros Hne Hall. unfold TokenRAG.sentence_reduce.
  assert (Hzero : zeroish (Fin 0))
    by (eexists; split; reflexivity).
  destruct (Py.eqb name (py "avg")).
  { eexists. split; [reflexivity|].
    unfold np_mean, fsum. simpl fdiv. simpl of_Z.
    destruct (fold_zeroish Num.add probs add_zeroish Hall (Fin 0) Hzero)
      as (s & Hs & Hs0).
    unfold fzero. simpl of_Z. change (inject_Z 0) with 0%Q.
    simpl fadd. rewrite Hs. simpl.
    rewrite Qeq_bool_inject_pos.
    - eexists. split; [reflexivity|]. rewrite Hs0. unfold Qdiv. ring.
    - destruct probs; [congruence|]. unfold Py.len. simpl List.length. lia. }
  destruct probs as [|x xs]; [congruence|]. inversion Hall; subst.
  destruct (Py.eqb name (py "max")).
  { eexists. split; [reflexivity|].
    apply (fold_zeroish Num.max); auto using max_zeroish. }
  destruct (Py.eqb name (py "min")).
  { eexists. split; [reflexivity|].
    apply (fold_zeroish Num.min); auto using min_zeroish. }
  eexists. split; [reflexivity|exact Hzero].
Qed.

Lemma entity_detect_zero (self : RAG num) text sentences :
  fgtb (of_Z 0) (hallucination_threshold (args self)) = false ->
  forall todo sid,
    Forall (fun t => Forall (fun v => v = of_Z 0) (fst t)) todo ->
    EntityRAG.detect self text sentences todo sid = Ok (text, None, false).
Proof.
  intros Hthr. induction todo as [|[eps entities] todo IH]; intros sid Hall;
    cbn [EntityRAG.detect]; [reflexivity|].
  inversion Hall as [|? ? Heps Hall']; subst. simpl in Heps.
  destruct (Nat.eqb (List.length eps) 0) eqn:Hlen; [now apply IH|].
  destruct (uncertainties_of_zeros eps Heps) as (us & Hus & Hz & Hl).
  rewrite Hus. cbn [rbind].
  destruct (sentence_reduce_zeroish (sentence_solver (args self)) us)
    as (p & Hp & Hp0).
  - destruct us; [destruct eps; discriminate|discriminate].
  - exact Hz.
  - rewrite Hp. cbn [rbind].
    pose proof (not_above_zeroish _ _ Hp0 Hthr) as Hn.
    unfold fgtb in Hn. simpl in Hn. unfold fgtb. simpl fltb. rewrite Hn.
    now apply IH.
Qed.
End ZeroUncertainty.

Lemma Forall_combine_fst {A B} (P : A -> Prop) (xs : list A) :
  Forall P xs ->
  forall ys : list B, Forall (fun t => P (fst t)) (combine xs ys).
Proof.
  induction 1 as [|x xs Hx _ IH]; intros [|y ys]; simpl; constructor;
    auto.
Qed.

(** C3, as the code has it.  With a threshold that 0 does not exceed and a
    sentence policy name that is none of [avg], [max], [min], the reduced
    value is 0 and neither detector flags anything.  [TokenRAG.modifier]
    returns [(text, None, False)], unless [exp] raises on one of the log
    probabilities ([math.exp] raises [OverflowError] above 709.78; it
    raises on no log-probability that is at most 0), and then that
    exception leaves.  [EntityRAG.modifier] first aligns the tokens and
    the entities with the text and reduces the entity windows, which can
    raise whatever the sentence policy is; after that it only takes the
    exponential of every entity probability and returns
    [(text, None, False)].  With an entity policy name that is none of
    [avg], [max], [min], [first], every entity probability is 0 and, in
    exact arithmetic, [EntityRAG.modifier] returns [(text, None, False)]
    once the alignment has succeeded, under every sentence policy. *)
Theorem unknown_policy_never_flags :
  (forall {F : Type} `{Float F} (W : Backend F) (self : RAG F)
          (text : str) (tokens : list str) (logprobs : list F),
      fgtb (of_Z 0) (hallucination_threshold (args self)) = false ->
      unknown_sentence_solver (sentence_solver (args self)) = true ->
      (forall probs,
          TokenRAG.sentence_reduce (sentence_solver (args self)) probs
          = Ok (of_Z 0))
      /\ (TokenRAG.modifier W self text tokens logprobs
          = Ok (text, None, false)
          \/ exists v e,
               In v logprobs /\ fexp v = Raise e
               /\ TokenRAG.modifier W self text tokens logprobs = Raise e)
      /\ (Forall (fun v => exists u, fexp v = Ok u) logprobs ->
          TokenRAG.modifier W self text tokens logprobs
          = Ok (text, None, false))
      /\ EntityRAG.modifier W self text tokens logprobs
         = rbind (EntityRAG.entity_intv_of W text tokens
                    (BasicRAG.nonempty_stripped_sentences W text))
             (fun entity_intv =>
                rbind (EntityRAG.entity_prob_of self logprobs entity_intv)
                  (fun entity_prob =>
                     rbind (map_result (map_result TokenRAG.uncertainty)
                              entity_prob)
                       (fun _ => Ok (text, None, false)))))
  /\ (forall (qexp : Q -> Q) (W : Backend num) (self : RAG num)
             (text : str) (tokens : list str) (logprobs : list num),
         (qexp 0 == 1)%Q ->
         @fgtb num (Num.float qexp) (Fin 0)
           (hallucination_threshold (args self)) = false ->
         unknown_entity_solver (entity_solver (args self)) = true ->
         (forall probs,
             @EntityRAG.entity_reduce num (Num.float qexp)
               (entity_solver (args self)) probs = Ok (Fin 0))
         /\ @EntityRAG.modifier num (Num.float qexp) W self text tokens
              logprobs
            = rbind (@EntityRAG.entity_intv_of num W text tokens
                       (BasicRAG.nonempty_stripped_sentences W text))
                (fun _ => Ok (text, None, false))).
Proof.
  split.
  - intros F HF W self text tokens logprobs Hthr Hu.
    split; [intros probs; now apply sentence_reduce_unknown|].
    assert (Htoken : TokenRAG.modifier W self text tokens logprobs
                     = Ok (text, None, false)
                     \/ exists v e,
                          In v logprobs /\ fexp v = Raise e
                          /\ TokenRAG.modifier W self text tokens logprobs
                             = Raise e)
      by (apply token_detect_unknown; assumption).
    split; [exact Htoken|]. split.
    + intros Hall. destruct Htoken as [Hok|(v & e & Hin & Hv & _)];
        [exact Hok|].
      rewrite Forall_forall in Hall. destruct (Hall v Hin) as (u & Hu').
      congruence.
    + unfold EntityRAG.modifier.
      destruct (EntityRAG.entity_intv_of W text tokens
                  (BasicRAG.nonempty_stripped_sentences W text))
        as [entity_intv|e] eqn:Hintv; simpl; [|reflexivity].
      destruct (EntityRAG.entity_prob_of self logprobs entity_intv)
        as [entity_prob|e] eqn:Hprob; simpl; [|reflexivity].
      rewrite (entity_detect_unknown self Hthr text _ Hu).
      now rewrite (entity_lists_align W self text tokens logprobs
                     entity_intv entity_prob Hintv Hprob).
  - intros qexp W self text tokens logprobs Hexp Hthr Hu.
    split; [intros probs;
            apply (@entity_reduce_unknown num (Num.float qexp)), Hu|].
    unfold EntityRAG.modifier.
    destruct (@EntityRAG.entity_intv_of num W text tokens
                (BasicRAG.nonempty_stripped_sentences W text))
      as [entity_intv|e]; simpl; [|reflexivity].
    rewrite (@entity_prob_unknown num (Num.float qexp) self logprobs
               entity_intv Hu).
    simpl.
    apply (entity_detect_zero qexp Hexp self text _ Hthr).
    apply Forall_combine_fst.
    apply Forall_forall. intros eps Hin.
    apply in_map_iff in Hin. destruct Hin as (itvs & <- & _).
    apply Forall_forall. intros v Hv.
    apply in_map_iff in Hv. destruct Hv as (itv & <- & _). reflexivity.
Qed.

(** C3 at work, with the policy name [median] and the threshold 1/2: the
    token-level detector on an uncertain sentence, and the entity-level
    detector on the entity [Paris]. *)
Lemma unknown_policy_never_flags_witness :
  let self := Toy.rag (Toy.with_policy (py "median") (py "median")
                         (Fin (1 # 2))) in
  let text := py "Paris is big. Bye" in
  let tokens := [py "Paris"; py " is"; py " big"; py "."; py " Bye"] in
  let logprobs := [Fin (-3); Fin (-3); Fin (-3); Fin (-3); Fin (-3)] in
  TokenRAG.modifier Toy.world self text tokens logprobs
  = Ok (text, None, false)
  /\ EntityRAG.modifier Toy.world self text tokens logprobs
     = Ok (text, None, false).
Proof.
  intros self text tokens logprobs. split.
  - destruct (proj1 unknown_policy_never_flags num Toy.float Toy.world self
                text tokens logprobs eq_refl eq_refl)
      as (_ & _ & Hrun & _).
    apply Hrun. repeat constructor; eexists; reflexivity.
  - destruct (proj2 unknown_policy_never_flags Num.taylor2 Toy.world self
                text tokens logprobs ltac:(reflexivity) eq_refl eq_refl)
      as [_ Hrun].
    exact Hrun.
Defined.

(** C3, as stated, fails.  The entity-level detector raises whatever the
    policy names when a token does not occur in the text (the alignment
    assertion); and the token-level detector raises under the unknown
    policy [median] when the exponential of a log-probability overflows. *)
Lemma unknown_policy_detectors_raise :
  let self := Toy.rag (Toy.with_policy (py "median") (py "median")
                         (Fin (1 # 2))) in
  EntityRAG.modifier Toy.world self (py "ab") [py "xyz"] [Fin 0]
  = Raise AssertionError
  /\ TokenRAG.modifier Toy.world self (py "a.") [py "a."] [Fin 1000]
     = Raise OverflowError.
Proof. split; reflexivity. Qed.

(* ================================================================== *)
(** * Termination of the inference loops *)
(* ================================================================== *)

Section LoopFacts.
Context {F : Type} `{Float F} (W : Backend F).
Variables (self : RAG F) (question : str) (demo : list Demo) (case : str).

(** The stop test is the disjunction of its three conditions. *)
Lemma stop_iff old_len text :
  BasicRAG.stop W self old_len text = true
  <-> generate_max_length (args self) < Py.len (encode W text)
      \/ Py.len text <= old_len
      \/ Py.contains (py "the answer is") text = true.
Proof.
  unfold BasicRAG.stop. rewrite !orb_true_iff, Z.ltb_lt, Z.leb_le.
  tauto.
Qed.

(** One turn of the loop of AttnWeightRAG. *)
Lemma attn_loop_step fuel text st :
  AttnWeightRAG.loop W self question demo case (S fuel) text st
  = match AttnWeightRAG.iteration W self question demo case text st with
    | (Ok text', st') =>
        if BasicRAG.stop W self (Py.len text) text'
        then (Ok (Some text'), st')
        else AttnWeightRAG.loop W self question demo case fuel text' st'
    | (Raise e, st') => (Raise e, st')
    end.
Proof.
  simpl. unfold bind at 1.
  destruct (AttnWeightRAG.iteration W self question demo case text st)
    as [[text'|e] st']; [|reflexivity].
  destruct (BasicRAG.stop W self (Py.len text) text'); reflexivity.
Qed.

(** The iterations of TokenRAG (with any detector) and of FixLengthRAG
    never reach their stop test: the call of [generate] is unpacked into
    three names. *)
Lemma token_iteration_raises modifier_of_self text st :
  exists st',
    TokenRAG.iteration W modifier_of_self self question demo case text st
    = (Raise ValueError, st').
Proof.
  unfold TokenRAG.iteration. unfold bind at 1 2.
  match goal with
  | |- context [BasicGenerator.generate W ?p ?m ?e ?r st] =>
      destruct (generate_unpack3 W p m e r st) as (t & Hg & Hu)
  end.
  rewrite Hg. unfold lift. rewrite Hu. eexists. reflexivity.
Qed.

Lemma fixlength_iteration_raises text retrieve_question st :
  exists e st',
    FixLengthRAG.iteration W self demo case text retrieve_question st
    = (Raise e, st').
Proof.
  unfold FixLengthRAG.iteration. unfold bind at 1.
  destruct (BasicRAG.retrieve W self retrieve_question
              (retrieve_topk (args self)) 64 st) as [[docs|e] st1];
    [|eexists; eexists; reflexivity].
  destruct (Py.eqb (method (args self)) (py "fix-length-retrieval")).
  - unfold bind at 1 2.
    match goal with
    | |- context [BasicGenerator.generate W ?p ?m ?e ?r st1] =>
        destruct (generate_unpack3 W p m e r st1) as (t & Hg & Hu)
    end.
    rewrite Hg. unfold lift. rewrite Hu. eexists. eexists. reflexivity.
  - unfold bind at 1 2.
    match goal with
    | |- context [BasicGenerator.generate W ?p ?m ?e ?r st1] =>
        destruct (generate_unpack3 W p m e r st1) as (t & Hg & Hu)
    end.
    rewrite Hg. unfold lift. rewrite Hu. eexists. eexists. reflexivity.
Qed.

(** A tokenizer whose tokens span at most [L] characters. *)
Variable L : Z.
Hypothesis tokens_span :
  forall s : str, Py.len s <= L * Py.len (encode W s).

(** While the loop goes on the answer grows, and it cannot outgrow
    [L * generate_max_length] characters. *)
Lemma attn_loop_enough_fuel fuel :
  forall text st,
    (1 <= fuel)%nat ->
    L * generate_max_length (args self) + 1 - Py.len text < Z.of_nat fuel ->
    fst (AttnWeightRAG.loop W self question demo case fuel text st)
    <> Ok None.
Proof.
  induction fuel as [|fuel IH]; intros text st Hpos Hfuel; [lia|].
  rewrite attn_loop_step.
  destruct (AttnWeightRAG.iteration W self question demo case text st)
    as [[text'|e] st']; [|discriminate].
  destruct (BasicRAG.stop W self (Py.len text) text') eqn:Hstop;
    [discriminate|].
  assert (Hno : ~ (generate_max_length (args self)
                   < Py.len (encode W text')
                   \/ Py.len text' <= Py.len text
                   \/ Py.contains (py "the answer is") text' = true)).
  { rewrite <- stop_iff. congruence. }
  pose proof (tokens_span text') as Hspan.
  assert (Hcount : 0 <= Py.len (encode W text')) by (unfold Py.len; lia).
  assert (Hlen : 0 <= Py.len text) by (unfold Py.len; lia).
  assert (HL : 0 <= L) by nia.
  assert (Hcap : Py.len text' <= L * generate_max_length (args self))
    by nia.
  apply IH; lia.
Qed.
End LoopFacts.

(** C1.  Let the tokenizer be such that no token spans more than [L]
    characters.  Then every inference loop ends within
    [L * generate_max_length + 2] iterations, by a return or by an
    exception ([Ok None] is the answer of a loop that was not given
    iterations enough): the loops of TokenRAG, EntityRAG and FixLengthRAG
    in their first iteration, the loop of AttnWeightRAG because the answer
    gains a character in every iteration that does not end it.  After a
    full iteration the loop returns the answer as soon as its token count
    exceeds [generate_max_length], or its length did not grow, or it
    contains [the answer is]. *)
Theorem inference_loops_terminate :
  forall {F : Type} `{Float F} (W : Backend F) (self : RAG F)
         (question : str) (demo : list Demo) (case : str) (L : Z),
    (forall s : str, Py.len s <= L * Py.len (encode W s)) ->
    let bound :=
      (Z.to_nat (L * generate_max_length (args self) + 1) + 1)%nat in
    (forall st,
        fst (AttnWeightRAG.inference W bound self question demo case st)
        <> Ok None
        /\ fst (TokenRAG.inference W bound self question demo case st)
           <> Ok None
        /\ fst (EntityRAG.inference W bound self question demo case st)
           <> Ok None
        /\ fst (FixLengthRAG.inference W self question demo case bound st)
           <> Ok None)
    /\ (forall fuel text st text' st',
           AttnWeightRAG.iteration W self question demo case text st
           = (Ok text', st') ->
           generate_max_length (args self) < Py.len (encode W text')
           \/ Py.len text' <= Py.len text
           \/ Py.contains (py "the answer is") text' = true ->
           AttnWeightRAG.loop W self question demo case (S fuel) text st
           = (Ok (Some text'), st')).
Proof.
  intros F HF W self question demo case L Hspan bound. split.
  - intros st. split; [|split; [|split]].
    + unfold AttnWeightRAG.inference.
      apply (attn_loop_enough_fuel W self question demo case L Hspan);
        subst bound; unfold Py.len; simpl List.length; lia.
    + unfold TokenRAG.inference, TokenRAG.inference_with.
      subst bound. rewrite Nat.add_1_r. simpl. unfold bind at 1.
      destruct (token_iteration_raises W self question demo case
                  (TokenRAG.modifier W) [] st) as (st' & Hit).
      rewrite Hit. discriminate.
    + unfold EntityRAG.inference, TokenRAG.inference_with.
      subst bound. rewrite Nat.add_1_r. simpl. unfold bind at 1.
      destruct (token_iteration_raises W self question demo case
                  (EntityRAG.modifier W) [] st) as (st' & Hit).
      rewrite Hit. discriminate.
    + unfold FixLengthRAG.inference.
      destruct (Py.eqb (query_formulation (args self)) (py "direct"));
        [|discriminate].
      subst bound. rewrite Nat.add_1_r. simpl. unfold bind at 1.
      destruct (fixlength_iteration_raises W self demo case [] question st)
        as (e & st' & Hit).
      rewrite Hit. discriminate.
  - intros fuel text st text' st' Hit Hstop.
    rewrite attn_loop_step, Hit.
    apply (stop_iff W self) in Hstop. rewrite Hstop. reflexivity.
Qed.

(** C1 at work: with one token by character ([L = 1]) and
    [generate_max_length = 4], six iterations suffice; the run returns
    after two. *)
Lemma inference_loops_terminate_witness :
  (forall s : str, Py.len s <= 1 * Py.len (encode Toy.world s))
  /\ fst (AttnWeightRAG.inference Toy.world 6 (Toy.rag Toy.args0)
            (py "q?") [] (py "c") Toy.st0)
     <> Ok None
  /\ fst (AttnWeightRAG.inference Toy.world 6 (Toy.rag Toy.args0)
            (py "q?") [] (py "c") Toy.st0)
     = Ok (Some (py "ok ok")).
Proof.
  assert (Hspan : forall s : str,
             Py.len s <= 1 * Py.len (encode Toy.world s)).
  { intros s. unfold Py.len.
    change (encode Toy.world s) with (map Z.of_N s).
    rewrite length_map, Z.mul_1_l. apply Z.le_refl. }
  split; [exact Hspan|]. split.
  - exact (proj1 (proj1 (inference_loops_terminate Toy.world
                           (Toy.rag Toy.args0) (py "q?") [] (py "c") 1
                           Hspan) Toy.st0)).
  - vm_compute. reflexivity.
Defined.

Section NoSignal.
Variable qexp : Q -> Q.
Let exact_arith : Float num := Num.float qexp.
#[local] Existing Instance exact_arith.

(** The running sum of values below the finite threshold [t]: minus
    infinity, or at most [k * t] after [k] values. *)
Lemma sum_below (t : Q) xs :
  Forall (fun x => Num.ltb x (Fin t) = true) xs ->
  forall (k : Z) acc,
    acc = NInf \/ (exists a, acc = Fin a /\ (a <= inject_Z k * t)%Q) ->
    let total := fold_left Num.add xs acc in
    total = NInf
    \/ (exists a, total = Fin a /\ (a <= inject_Z (k + Py.len xs) * t)%Q).
Proof.
  induction 1 as [|x xs Hx _ IH]; intros k acc Hacc; simpl.
  - unfold Py.len. simpl. rewrite Z.add_0_r. exact Hacc.
  - replace (k + Py.len (x :: xs)) with ((k + 1) + Py.len xs)
      by (unfold Py.len; simpl List.length; lia).
    apply IH.
    destruct x as [q| | |]; simpl in Hx; try discriminate.
    + destruct Hacc as [->|(a & -> & Ha)]; [left; reflexivity|].
      right. eexists. split; [reflexivity|].
      unfold Num.Qlt_bool in Hx. apply negb_true_iff in Hx.
      assert (Hq : (q < t)%Q).
      { apply Qnot_le_lt. intros Hle. apply Qle_bool_iff in Hle.
        congruence. }
      rewrite inject_Z_plus. setoid_replace ((inject_Z k + inject_Z 1) * t)%Q
        with (inject_Z k * t + t)%Q by ring.
      apply Qplus_le_compat; [exact Ha|]. now apply Qlt_le_weak.
    + left. destruct Hacc as [->|(a & -> & _)]; reflexivity.
Qed.

(** The mean of values below the threshold does not exceed it; the mean
    of no value is NaN, which exceeds nothing. *)
Lemma mean_not_above (threshold : num) xs :
  Forall (fun x => fgtb threshold x = true) xs ->
  fgtb (np_mean xs) threshold = false.
Proof.
  unfold fgtb. simpl fltb. intros Hall.
  destruct xs as [|x0 xs0] eqn:Hxs.
  { destruct threshold; reflexivity. }
  rewrite <- Hxs in *.
  assert (Hlen : 0 < Py.len xs)
    by (subst xs; unfold Py.len; simpl List.length; lia).
  clear Hxs.
  destruct threshold as [t| | |].
  - destruct (sum_below t xs Hall 0 (Fin 0)) as [Hs|(a & Hs & Ha)].
    + right. exists 0%Q. split; [reflexivity|].
      change (inject_Z 0) with 0%Q. rewrite Qmult_0_l. apply Qle_refl.
    + unfold np_mean, fsum, fzero.
      change (fold_left fadd xs (of_Z 0))
        with (fold_left Num.add xs (Fin 0)).
      rewrite Hs. simpl.
      assert (Hn : Num.Qlt_bool (inject_Z (Py.len xs)) 0 = false).
      { unfold Num.Qlt_bool. apply negb_false_iff, Qle_bool_iff.
        change 0%Q with (inject_Z 0). rewrite <- Zle_Qle. lia. }
      rewrite Hn. reflexivity.
    + unfold np_mean, fsum, fzero.
      change (fold_left fadd xs (of_Z 0))
        with (fold_left Num.add xs (Fin 0)).
      rewrite Hs. simpl.
      rewrite Qeq_bool_inject_pos by exact Hlen.
      unfold Num.Qlt_bool. apply negb_false_iff, Qle_bool_iff.
      apply Qle_shift_div_r.
      * change 0%Q with (inject_Z 0). rewrite <- Zlt_Qlt. exact Hlen.
      * rewrite Z.add_0_l in Ha. rewrite Qmult_comm. exact Ha.
  - destruct (np_mean xs); reflexivity.
  - destruct Hall as [|x xs' Hx _]; [unfold Py.len in Hlen; simpl in Hlen; lia|].
    destruct x; discriminate.
  - destruct Hall as [|x xs' Hx _]; [unfold Py.len in Hlen; simpl in Hlen; lia|].
    destruct x; discriminate.
Qed.

Lemma map_result_all {A B} (f : A -> result B) (P : B -> Prop) xs :
  Forall (fun x => exists y, f x = Ok y /\ P y) xs ->
  exists ys, map_result f xs = Ok ys /\ Forall P ys.
Proof.
  induction 1 as [|x xs (y & Hy & HP) _ (ys & Hys & Hall)]; simpl.
  - exists []. split; [reflexivity|constructor].
  - rewrite Hy, Hys. simpl. exists (y :: ys).
    split; [reflexivity|now constructor].
Qed.

(** With the policy [avg], a text whose uncertainties are all below the
    threshold is returned unflagged, on every input. *)
Lemma token_modifier_avg_no_signal (W : Backend num) (self : RAG num)
    text tokens logprobs :
  Py.eqb (sentence_solver (args self)) (py "avg") = true ->
  Forall (fun v => exists u,
              TokenRAG.uncertainty v = Ok u
              /\ fgtb (hallucination_threshold (args self)) u = true)
    logprobs ->
  TokenRAG.modifier W self text tokens logprobs = Ok (text, None, false).
Proof.
  intros Havg Hall. unfold TokenRAG.modifier.
  generalize (BasicRAG.nonempty_stripped_sentences W text) at 1 as sentences.
  generalize (BasicRAG.nonempty_stripped_sentences W text) as todo.
  intros todo sentences. generalize 0%nat as sid. generalize 0 as tid.
  induction todo as [|sent todo IH]; intros tid sid;
    cbn [TokenRAG.detect]; [reflexivity|].
  cbv zeta.
  match goal with
  | |- context [map_result TokenRAG.uncertainty ?window] =>
      destruct (map_result_all TokenRAG.uncertainty
                  (fun u => fgtb (hallucination_threshold (args self)) u
                            = true) window) as (probs & Hprobs & Hbelow)
  end.
  { apply Forall_forall. intros v Hv.
    apply slice_incl in Hv. rewrite Forall_forall in Hall.
    now apply Hall. }
  rewrite Hprobs. cbn [rbind].
  unfold TokenRAG.sentence_reduce. rewrite Havg. cbn [rbind].
  rewrite mean_not_above; [apply IH|exact Hbelow].
Qed.
End NoSignal.

(** C4 breaks on this input, for every segmenter that cuts the text into
    the sentences [Hello world.] and [Bye].  Every uncertainty is below
    the threshold 1/2, yet [TokenRAG.modifier] with the policy [max]
    raises [ValueError]: the scan of the first sentence stops at the token
    [ Bye] and counts it in that sentence's window, so the window of the
    last sentence is [logprobs[4:5]], an empty array, on which [np.max]
    has no value.  With the policy [avg] the same call returns
    [(text, None, False)]. *)
Theorem token_modifier_max_raises_on_empty_window :
  forall (W : Backend num),
    let text := py "Hello world. Bye" in
    let tokens := [py "Hello"; py " world"; py "."; py " Bye"] in
    let logprobs := [Fin (-1 # 10); Fin (-1 # 10); Fin (-1 # 10);
                     Fin (-1 # 10)] in
    let threshold := Fin (1 # 2) in
    BasicRAG.nonempty_stripped_sentences W text
    = [py "Hello world."; py "Bye"] ->
    Forall (fun v => exists u,
                TokenRAG.uncertainty v = Ok u
                /\ fgtb threshold u = true)
      logprobs
    /\ TokenRAG.modifier W
         (Toy.rag (Toy.with_policy (py "max") (py "avg") threshold))
         text tokens logprobs
       = Raise ValueError
    /\ TokenRAG.modifier W
         (Toy.rag (Toy.with_policy (py "avg") (py "avg") threshold))
         text tokens logprobs
       = Ok (text, None, false).
Proof.
  intros W text tokens logprobs threshold Hsents.
  split; [repeat (constructor; [eexists; split; reflexivity|]);
          constructor|].
  unfold TokenRAG.modifier. rewrite Hsents. split; reflexivity.
Qed.

(** The segmenter of the toy world cuts the text so. *)
Lemma token_modifier_max_raises_on_empty_window_witness :
  TokenRAG.modifier Toy.world
    (Toy.rag (Toy.with_policy (py "max") (py "avg") (Fin (1 # 2))))
    (py "Hello world. Bye")
    [py "Hello"; py " world"; py "."; py " Bye"]
    [Fin (-1 # 10); Fin (-1 # 10); Fin (-1 # 10); Fin (-1 # 10)]
  = Raise ValueError.
Proof.
  exact (proj1 (proj2 (token_modifier_max_raises_on_empty_window Toy.world
                         eq_refl))).
Defined.

(* ================================================================== *)
(** * Further properties: the generation client *)
(* ================================================================== *)

Lemma slice_from_nat {A} (n : nat) (l : list A) :
  (n <= List.length l)%nat ->
  Py.slice (Some (Z.of_nat n)) None l = skipn n l.
Proof.
  intros Hn. unfold Py.slice, Py.clip, Py.len.
  assert (Hlt : (Z.of_nat n <? 0) = false) by (apply Z.ltb_ge; lia).
  rewrite Hlt.
  replace (Z.to_nat (Z.min (Z.of_nat n) (Z.of_nat (List.length l))))
    with n by lia.
  apply firstn_all2. rewrite length_skipn. lia.
Qed.

Lemma firstn_succ_nth_error {A} (l : list A) :
  forall n x, nth_error l n = Some x -> firstn (S n) l = firstn n l ++ [x].
Proof.
  induction l as [|y l IH]; intros [|n] x Hn; simpl in Hn; try discriminate.
  - inversion Hn; subst. reflexivity.
  - change (firstn (S (S n)) (y :: l)) with (y :: firstn (S n) l).
    rewrite (IH n x Hn). reflexivity.
Qed.

(** The index that [generate] computes stands just after the last
    [</think>] id. *)
Lemma after_last_spec (ids : list Z) :
  let index := BasicGenerator.after_last ids in
  (index <= List.length ids)%nat
  /\ ~ In BasicGenerator.think_end (skipn index ids)
  /\ (index = O
      \/ nth_error ids (index - 1) = Some BasicGenerator.think_end).
Proof.
  induction ids as [|i ids IH]; simpl.
  - split; [lia|]. split; [intros []|]. now left.
  - destruct IH as (Hle & Hnot & Hlast).
    destruct (BasicGenerator.after_last ids) as [|k] eqn:Hk.
    + destruct (i =? BasicGenerator.think_end) eqn:Hi.
      * apply Z.eqb_eq in Hi. subst i.
        split; [simpl; lia|]. split; [exact Hnot|]. right. reflexivity.
      * apply Z.eqb_neq in Hi.
        split; [simpl; lia|]. split; [|now left].
        simpl. intros [Heq|Hin]; [congruence|]. now apply Hnot.
    + split; [simpl; lia|]. split; [exact Hnot|]. right.
      destruct Hlast as [Hz|Hlast]; [discriminate|].
      simpl in Hlast. rewrite Nat.sub_0_r in Hlast. exact Hlast.
Qed.

(** X1.  Without log-probabilities, [generate] answers with the decoding of
    the ids that follow the last [</think>] id (151668): the ids before,
    when there are any, end with that id, the ids after hold none, and with
    no such id at all the whole continuation is the answer.  The call asks
    the model once and touches no counter. *)
Theorem generate_answer_follows_last_think_end :
  forall {F : Type} `{Float F} (W : Backend F) (input_text : str)
         (max_length : Z) (enable_thinking : bool) (st : State),
    let input_ids :=
      encode W (apply_chat_template W input_text enable_thinking) in
    let generated_ids :=
      map fst (lm_generate W (clock st) input_ids max_length) in
    exists thinking visible : list Z,
      generated_ids = thinking ++ visible
      /\ ~ In BasicGenerator.think_end visible
      /\ (thinking = []
          \/ exists front, thinking = front ++ [BasicGenerator.think_end])
      /\ (~ In BasicGenerator.think_end generated_ids -> thinking = [])
      /\ BasicGenerator.generate W input_text max_length enable_thinking
           false st
         = (Ok [PStr (Py.strip_chars [Py.newline] (decode W true visible));
                PNone; PNone; PNone],
            after_generate W input_text max_length enable_thinking st).
Proof.
  intros F HF W input_text max_length enable_thinking st input_ids
    generated_ids.
  destruct (after_last_spec generated_ids) as (Hle & Hnot & Hlast).
  set (index := BasicGenerator.after_last generated_ids) in *.
  exists (firstn index generated_ids), (skipn index generated_ids).
  split; [symmetry; apply firstn_skipn|].
  split; [exact Hnot|].
  assert (Hshape : index = O
                   \/ exists front,
                        firstn index generated_ids
                        = front ++ [BasicGenerator.think_end]).
  { destruct Hlast as [Hz|Hlast]; [now left|]. right.
    destruct index as [|k]; [simpl in Hlast|].
    - destruct generated_ids; simpl in *;
        [discriminate|].
      exists []. inversion Hlast; subst. simpl.
      exfalso. apply Hnot. now left.
    - simpl in Hlast. rewrite Nat.sub_0_r in Hlast.
      exists (firstn k generated_ids).
      now apply firstn_succ_nth_error. }
  split; [|split].
  - destruct Hshape as [Hz|Hf]; [left; rewrite Hz; reflexivity|now right].
  - intros Hnone. destruct Hshape as [Hz|(front & Hf)];
      [rewrite Hz; reflexivity|].
    exfalso. apply Hnone.
    rewrite <- (firstn_skipn index generated_ids), Hf.
    apply in_or_app. left. apply in_or_app. right. now left.
  - unfold BasicGenerator.generate, bind, request, after_generate, ret.
    cbv beta iota zeta.
    fold input_ids. rewrite slice_drop_prefix.
    fold generated_ids. fold index.
    rewrite (slice_from_nat index generated_ids Hle). reflexivity.
Qed.

(* ================================================================== *)
(** * Further properties: the inference methods without a detector *)
(* ================================================================== *)

Lemma join_split (sep : Py.char) (s : str) :
  Py.join [sep] (Py.split sep s) = s.
Proof.
  unfold Py.split. induction s as [|c s IH]; [reflexivity|].
  simpl. destruct (Py.split1 sep s) as [hd tl].
  destruct (N.eqb c sep) eqn:Hc.
  - apply N.eqb_eq in Hc. subst c. simpl in *. now rewrite IH.
  - destruct tl as [|t tl]; simpl in *; now rewrite IH.
Qed.

Lemma split_no_sep (sep : Py.char) (s : str) :
  Forall (fun line => ~ In sep line) (Py.split sep s).
Proof.
  unfold Py.split. induction s as [|c s IH]; simpl.
  - constructor; [intros []|constructor].
  - destruct (Py.split1 sep s) as [hd tl].
    destruct (N.eqb c sep) eqn:Hc.
    + constructor; [intros []|exact IH].
    + apply N.eqb_neq in Hc. inversion IH as [|? ? Hhd Htl]; subst.
      constructor; [|exact Htl].
      intros [Heq|Hin]; [congruence|contradiction].
Qed.

Section PlainInference.
Context {F : Type} `{Float F} (W : Backend F).

(** The requests and the counter after one call of [generate]. *)
Lemma after_generate_effect input_text max_length enable_thinking st :
  let st' := after_generate W input_text max_length enable_thinking st in
  generations st' = generations st + 1
  /\ searches st' = searches st
  /\ counter st' = counter st.
Proof.
  unfold after_generate, generations, searches, Py.len. simpl.
  rewrite !filter_app, !length_app. simpl. repeat split; lia.
Qed.

(** [retrieve] in single-index mode, with a retriever of a supported
    class. *)
Lemma retrieve_single_ok self k v rest query topk mql st :
  gateway self = Some (false, (k, v) :: rest) ->
  supported (entry_retriever v) = true ->
  exists docs st',
    BasicRAG.retrieve W self query topk mql st = (Ok docs, st')
    /\ Counter.retrieve (counter st') = Counter.retrieve (counter st) + 2
    /\ searches st' = searches st + 1
    /\ generations st' = generations st.
Proof.
  intros Hg Hsup. unfold BasicRAG.retrieve. rewrite Hg.
  unfold bind at 1.
  set (st0 := snd (BasicRAG.incr_retrieve st)).
  assert (Hst0 : BasicRAG.incr_retrieve st = (Ok tt, st0)) by reflexivity.
  rewrite Hst0. cbv beta iota. change (negb false) with true. cbv iota.
  unfold bind at 1, lift. simpl map. rewrite getitem_head. cbv beta iota.
  unfold bind at 1, dict_item. simpl dict_get. rewrite py_eqb_refl.
  cbv beta iota.
  pose proof (_retrieve_effect W query (entry_retriever v) topk mql st0)
    as He.
  destruct (BasicRAG._retrieve W query (entry_retriever v) topk mql st0)
    as [r st'].
  rewrite Hsup in He. destruct He as (Hc & Hgen & (docs & ->) & Hs).
  exists docs, st'. split; [reflexivity|].
  assert (Hc0 : Counter.retrieve (counter st0)
                = Counter.retrieve (counter st) + 1) by reflexivity.
  assert (Hs0 : searches st0 = searches st) by reflexivity.
  assert (Hg0 : generations st0 = generations st) by reflexivity.
  repeat split; lia.
Qed.
End PlainInference.

(** X2.  [decompose_query] asks the model once, with a prompt that holds
    the question and with the thinking switch of the configuration, and
    returns the lines of the answer: at least one line, none holding a line
    feed, and joined by line feeds they give the answer back.  It retrieves
    nothing and counts nothing. *)
Theorem decompose_query_returns_answer_lines :
  forall {F : Type} `{Float F} (W : Backend F) (self : RAG F)
         (question : str) (st : State),
    exists (before after text : str) (lines : list str),
      let prompt := before ++ question ++ after in
      BasicGenerator.generate W prompt (generate_max_length (args self))
        (enable_thinking (args self)) false st
      = (Ok [PStr text; PNone; PNone; PNone],
         after_generate W prompt (generate_max_length (args self))
           (enable_thinking (args self)) st)
      /\ BasicRAG.decompose_query W self question st
         = (Ok lines,
            after_generate W prompt (generate_max_length (args self))
              (enable_thinking (args self)) st)
      /\ lines <> []
      /\ Forall (fun line => ~ In Py.newline line) lines
      /\ Py.join [Py.newline] lines = text.
Proof.
  intros F HF W self question st.
  unfold BasicRAG.decompose_query.
  match goal with
  | |- context [BasicGenerator.generate W ?p ?m ?e false] =>
      destruct (generate_text_tuple W p m e st) as (text & Hg);
      match p with
      | (?b ++ question ++ ?a) =>
          exists b, a, text, (Py.split Py.newline text)
      | ((?b1 ++ ?b2) ++ ?b3 ++ ?b4 ++ question ++ ?a) =>
          exists ((b1 ++ b2) ++ b3 ++ b4), a, text,
                 (Py.split Py.newline text);
          replace (((b1 ++ b2) ++ b3 ++ b4) ++ question ++ a) with p
            by (now rewrite <- !app_assoc)
      end
  end.
  cbv zeta. split; [exact Hg|]. split.
  - unfold bind at 1. rewrite Hg. reflexivity.
  - split; [|split].
    + unfold Py.split. destruct (Py.split1 Py.newline text). discriminate.
    + apply split_no_sep.
    + apply join_split.
Qed.

(** X3.  [BasicRAG.inference] answers without retrieval.  With the query
    formulation [direct] it asks the model once, asks no retriever, and
    returns the model's text; the counter then differs from its earlier
    snapshot by one generation with the tokens and sentences of the text
    when [use_counter] is set, and by nothing otherwise.  With any other
    formulation the assertion fails before anything is asked. *)
Theorem basic_inference_generates_once :
  forall {F : Type} `{Float F} (W : Backend F) (self : RAG F)
         (question : str) (demo : list Demo) (case : str) (st : State),
    if Py.eqb (query_formulation (args self)) (py "direct") then
      exists text st',
        BasicRAG.inference W self question demo case st = (Ok text, st')
        /\ fst (BasicGenerator.generate W (BasicRAG.demo_prompt demo ++ case)
                  (generate_max_length (args self)) false false st)
           = Ok [PStr text; PNone; PNone; PNone]
        /\ generations st' = generations st + 1
        /\ searches st' = searches st
        /\ Counter.calc (counter st') (counter st)
           = if use_counter (args self)
             then Counter.mk 0 1 0 (Py.len (encode W text))
                    (Py.len (sents W text))
             else Counter.mk 0 0 0 0 0
    else
      BasicRAG.inference W self question demo case st
      = (Raise AssertionError, st).
Proof.
  intros F HF W self question demo case st.
  unfold BasicRAG.inference.
  destruct (Py.eqb (query_formulation (args self)) (py "direct"));
    [|reflexivity].
  destruct (generate_text_tuple W (BasicRAG.demo_prompt demo ++ case)
              (generate_max_length (args self)) false st) as (text & Hg).
  destruct (after_generate_effect W (BasicRAG.demo_prompt demo ++ case)
              (generate_max_length (args self)) false st)
    as (Hgen & Hs & Hc).
  unfold bind at 1. rewrite Hg. cbv beta iota.
  unfold bind at 1, lift. simpl unpack4. cbv beta iota.
  unfold bind at 1. simpl as_str. cbv beta iota.
  unfold BasicRAG.count_generate.
  destruct (use_counter (args self)).
  - unfold bind, BasicRAG.add_generate, update_counter, ret.
    eexists. eexists. split; [reflexivity|].
    split; [reflexivity|].
    split; [unfold generations in *; simpl events; exact Hgen|].
    split; [unfold searches in *; simpl events; exact Hs|].
    unfold Counter.calc, after_generate. simpl.
    f_equal; lia.
  - unfold bind, ret.
    eexists. eexists. split; [reflexivity|].
    split; [reflexivity|].
    split; [exact Hgen|]. split; [exact Hs|].
    rewrite Hc. unfold Counter.calc. f_equal; lia.
Qed.

Section SingleFacts.
Context {F : Type} `{Float F} (W : Backend F).
Variables (self : RAG F) (question : str) (demo : list Demo) (case : str).

(** The call after the retrieval stage. *)
Lemma single_inference_outcome st :
  SingleRAG.inference W self question demo case st
  = if Py.eqb (query_formulation (args self)) (py "direct") then
      match SingleRAG.documents W self question st with
      | (Ok _, st1) => (Raise NameError, st1)
      | (Raise e, st1) => (Raise e, st1)
      end
    else (Raise AssertionError, st).
Proof.
  unfold SingleRAG.inference.
  destruct (Py.eqb (query_formulation (args self)) (py "direct"));
    [|reflexivity].
  unfold bind at 1.
  destruct (SingleRAG.documents W self question st) as [[docs|e] st1];
    reflexivity.
Qed.
End SingleFacts.

(** X4.  [SingleRAG.inference] never returns an answer: after its
    retrieval stage it reads the unbound name [enable_thinking] and raises
    [NameError] before the model is asked for the answer.  On a constructed
    object in single-index mode with a retriever of a supported class and
    no query decomposition, the call raises [NameError] after one retrieval
    request that it counted twice, and after no generation. *)
Theorem single_rag_inference_never_answers :
  forall {F : Type} `{Float F} (W : Backend F) (self : RAG F)
         (question : str) (demo : list Demo) (case : str) (st : State),
    (exists e st',
        SingleRAG.inference W self question demo case st = (Raise e, st'))
    /\ (forall k v rest,
           gateway self = Some (false, (k, v) :: rest) ->
           supported (entry_retriever v) = true ->
           query_decomposition (args self) = false ->
           Py.eqb (query_formulation (args self)) (py "direct") = true ->
           exists st',
             SingleRAG.inference W self question demo case st
             = (Raise NameError, st')
             /\ searches st' = searches st + 1
             /\ generations st' = generations st
             /\ Counter.retrieve (counter st')
                = Counter.retrieve (counter st) + 2).
Proof.
  intros F HF W self question demo case st. split.
  - rewrite single_inference_outcome.
    destruct (Py.eqb (query_formulation (args self)) (py "direct"));
      [|eexists; eexists; reflexivity].
    destruct (SingleRAG.documents W self question st) as [[docs|e] st1];
      eexists; eexists; reflexivity.
  - intros k v rest Hg Hsup Hdec Hdirect.
    rewrite single_inference_outcome, Hdirect.
    unfold SingleRAG.documents. rewrite Hdec.
    destruct (retrieve_single_ok W self k v rest question
                (retrieve_topk (args self)) 64 st Hg Hsup)
      as (docs & st' & Hr & Hc & Hs & Hgen).
    rewrite Hr. exists st'. repeat split; assumption.
Qed.

(** The run of X4 in the toy world: one search, counted twice, and no
    answer. *)
Lemma single_rag_inference_never_answers_witness :
  exists st',
    SingleRAG.inference Toy.world (Toy.rag Toy.args0) (py "q?") []
      (py "c") Toy.st0
    = (Raise NameError, st')
    /\ searches st' = searches Toy.st0 + 1
    /\ generations st' = generations Toy.st0
    /\ Counter.retrieve (counter st')
       = Counter.retrieve (counter Toy.st0) + 2.
Proof.
  exact (proj2 (single_rag_inference_never_answers Toy.world
                  (Toy.rag Toy.args0) (py "q?") [] (py "c") Toy.st0)
           (py "wiki")
           {| entry_description := py "Wikipedia";
              entry_retriever := BM25 [] |}
           [] eq_refl eq_refl eq_refl eq_refl).
Defined.

(** X5.  [FixLengthRAG.inference] never returns an answer, with either
    method: when the first retrieval returns, the model is asked once and
    its four values are unpacked into three names, which raises
    [ValueError] with the counter as the retrieval left it; otherwise the
    exception of the retrieval, or of the failed assertion, leaves. *)
Theorem fixlength_inference_never_answers :
  forall {F : Type} `{Float F} (W : Backend F) (self : RAG F)
         (question : str) (demo : list Demo) (case : str) (fuel : nat)
         (st : State),
    (exists e st',
        FixLengthRAG.inference W self question demo case (S fuel) st
        = (Raise e, st'))
    /\ (forall docs st1,
           Py.eqb (query_formulation (args self)) (py "direct") = true ->
           BasicRAG.retrieve W self question (retrieve_topk (args self)) 64
             st = (Ok docs, st1) ->
           exists st',
             FixLengthRAG.inference W self question demo case (S fuel) st
             = (Raise ValueError, st')
             /\ generations st' = generations st1 + 1
             /\ searches st' = searches st1
             /\ counter st' = counter st1).
Proof.
  intros F HF W self question demo case fuel st. split.
  - unfold FixLengthRAG.inference.
    destruct (Py.eqb (query_formulation (args self)) (py "direct"));
      [|eexists; eexists; reflexivity].
    simpl. unfold bind at 1.
    destruct (fixlength_iteration_raises W self demo case [] question st)
      as (e & st' & Hit).
    rewrite Hit. eexists. eexists. reflexivity.
  - intros docs st1 Hdirect Hr.
    unfold FixLengthRAG.inference. rewrite Hdirect.
    simpl. unfold bind at 1.
    unfold FixLengthRAG.iteration. unfold bind at 1. rewrite Hr.
    cbv beta iota.
    destruct (Py.eqb (method (args self)) (py "fix-length-retrieval")).
    + unfold bind at 1 2.
      match goal with
      | |- context [BasicGenerator.generate W ?p ?m ?e ?r st1] =>
          destruct (generate_unpack3 W p m e r st1) as (t & Hg & Hu);
          destruct (after_generate_effect W p m e st1) as (Hgen & Hs & Hc)
      end.
      rewrite Hg. unfold lift. rewrite Hu.
      eexists. split; [reflexivity|]. repeat split; assumption.
    + unfold bind at 1 2.
      match goal with
      | |- context [BasicGenerator.generate W ?p ?m ?e ?r st1] =>
          destruct (generate_unpack3 W p m e r st1) as (t & Hg & Hu);
          destruct (after_generate_effect W p m e st1) as (Hgen & Hs & Hc)
      end.
      rewrite Hg. unfold lift. rewrite Hu.
      eexists. split; [reflexivity|]. repeat split; assumption.
Qed.

(** The run of X5 in the toy world. *)
Lemma fixlength_inference_never_answers_witness :
  exists st',
    FixLengthRAG.inference Toy.world (Toy.rag Toy.args0) (py "q?") []
      (py "c") 3 Toy.st0
    = (Raise ValueError, st')
    /\ generations st' = 1
    /\ searches st' = 1.
Proof.
  destruct (proj2 (fixlength_inference_never_answers Toy.world
                     (Toy.rag Toy.args0) (py "q?") [] (py "c") 2 Toy.st0)
              [py "q?"]
              (snd (BasicRAG.retrieve Toy.world (Toy.rag Toy.args0)
                      (py "q?") 1 64 Toy.st0))
              eq_refl eq_refl)
    as (st' & Hrun & Hgen & Hs & _).
  exists st'. split; [exact Hrun|]. split; [exact Hgen|exact Hs].
Defined.

(* ================================================================== *)
(** * Further properties: the merge of sub-word tokens *)
(* ================================================================== *)

Lemma tiles_app_last (front : list (nat * nat)) (a b : nat) :
  forall s e,
    tiles s (front ++ [(a, b)]) e
    <-> tiles s front a /\ (a <= b)%nat /\ S b = e.
Proof.
  induction front as [|[x y] front IH]; intros s e; simpl.
  - split.
    + intros (-> & Hab & He). auto.
    + intros (-> & Hab & He). auto.
  - rewrite IH. tauto.
Qed.

Lemma tiles_le (rs : list (nat * nat)) :
  forall s e, tiles s rs e -> (s + List.length rs <= e)%nat.
Proof.
  induction rs as [|[a b] rs IH]; intros s e; simpl.
  - intros ->. lia.
  - intros (-> & Hab & Ht). apply IH in Ht. lia.
Qed.

Lemma bump_last_snoc (front : list (nat * nat)) (a b : nat) :
  BasicGenerator.bump_last (front ++ [(a, b)]) = front ++ [(a, S b)].
Proof.
  unfold BasicGenerator.bump_last. rewrite rev_app_distr. simpl.
  now rewrite rev_involutive.
Qed.

(** Lengthening the last unit keeps the tiling, one position further. *)
Lemma tiles_bump_last (rs : list (nat * nat)) (e : nat) :
  tiles 0 rs e -> rs <> [] ->
  tiles 0 (BasicGenerator.bump_last rs) (S e)
  /\ BasicGenerator.bump_last rs <> [].
Proof.
  intros Ht Hne.
  destruct (exists_last Hne) as (front & [a b] & ->).
  rewrite bump_last_snoc. apply tiles_app_last in Ht.
  destruct Ht as (Hf & Hab & He). split.
  - apply tiles_app_last. repeat split; [exact Hf|lia|lia].
  - intros Hnil. apply app_eq_nil in Hnil. destruct Hnil; discriminate.
Qed.

(** Every loop that opens a unit at position 0, and at each later position
    either opens a unit or lengthens the last one, tiles the positions. *)
Lemma merge_fold_tiles
    (step : list (nat * nat) -> nat * str -> list (nat * nat)) :
  (forall range_ i t,
      step range_ (i, t) = range_ ++ [(i, i)]
      \/ (i <> O /\ step range_ (i, t) = BasicGenerator.bump_last range_)) ->
  forall tokens s acc,
    tiles 0 acc s -> (s <> O -> acc <> []) ->
    tiles 0 (fold_left step (enumerate_from s tokens) acc)
      (s + List.length tokens).
Proof.
  intros Hstep. induction tokens as [|t tokens IH]; intros s acc Ht Hne.
  - simpl. now rewrite Nat.add_0_r.
  - simpl. replace (s + S (List.length tokens))%nat
      with (S s + List.length tokens)%nat by lia.
    destruct (Hstep acc s t) as [Heq|(Hs & Heq)]; rewrite Heq.
    + apply IH.
      * apply tiles_app_last. repeat split; [exact Ht|lia].
      * intros _ Hnil. apply app_eq_nil in Hnil.
        destruct Hnil; discriminate.
    + destruct (tiles_bump_last acc s Ht (Hne Hs)) as (Hb & Hbne).
      apply IH; [exact Hb|]. intros _. exact Hbne.
Qed.

Lemma firstn_plus {A} (l : list A) :
  forall m n, firstn (m + n) l = firstn m l ++ firstn n (skipn m l).
Proof.
  induction l as [|x l IH]; intros [|m] n; simpl; try reflexivity.
  - now rewrite firstn_nil.
  - now rewrite IH.
Qed.

Lemma unit_slice_nat {A} (a b : nat) (l : list A) :
  (S b <= List.length l)%nat ->
  BasicGenerator.unit_slice (a, b) l = firstn (S b - a) (skipn a l).
Proof.
  intros Hb. unfold BasicGenerator.unit_slice, Py.slice, Py.clip, Py.len.
  simpl fst. simpl snd.
  assert (Ha0 : (Z.of_nat a <? 0) = false) by (apply Z.ltb_ge; lia).
  assert (Hb0 : (Z.of_nat b + 1 <? 0) = false) by (apply Z.ltb_ge; lia).
  rewrite Ha0, Hb0.
  destruct (Nat.le_gt_cases a (List.length l)) as [Hal|Hal].
  - replace (Z.to_nat (Z.min (Z.of_nat a) (Z.of_nat (List.length l))))
      with a by lia.
    replace (Z.to_nat (Z.min (Z.of_nat b + 1) (Z.of_nat (List.length l))))
      with (S b) by lia.
    reflexivity.
  - rewrite (skipn_all2 l (n := a)) by lia.
    rewrite !firstn_nil.
    replace (Z.to_nat (Z.min (Z.of_nat a) (Z.of_nat (List.length l))))
      with (List.length l) by lia.
    rewrite skipn_all. apply firstn_nil.
Qed.

(** The units of a tiling, cut out of a list and put together again. *)
Lemma tiles_concat {A} (l : list A) (rs : list (nat * nat)) :
  forall s e,
    tiles s rs e -> (e <= List.length l)%nat ->
    List.concat (map (fun r => BasicGenerator.unit_slice r l) rs)
    = firstn (e - s) (skipn s l).
Proof.
  induction rs as [|[a b] rs IH]; intros s e; simpl.
  - intros -> _. now rewrite Nat.sub_diag.
  - intros (-> & Hab & Ht) He.
    pose proof (tiles_le rs (S b) e Ht) as Hle.
    rewrite (IH (S b) e Ht He), unit_slice_nat by lia.
    replace (e - s)%nat with ((S b - s) + (e - S b))%nat by lia.
    rewrite firstn_plus, skipn_skipn.
    replace (S b - s + s)%nat with (S b) by lia. reflexivity.
Qed.

Section MergeFacts.
Context {F : Type} `{Float F} (W : Backend F).

Lemma generator_merge_ranges_tile ids tokens :
  tiles 0 (BasicGenerator.merge_ranges W ids tokens) (List.length tokens).
Proof.
  unfold BasicGenerator.merge_ranges, enumerate.
  apply (merge_fold_tiles (BasicGenerator.merge_step W ids tokens));
    [|reflexivity|congruence].
  intros range_ i t. unfold BasicGenerator.merge_step.
  destruct (Nat.eqb i 0) eqn:Hi; [now left|].
  apply Nat.eqb_neq in Hi. simpl.
  destruct (_ || _); [now left|now right].
Qed.

Lemma real_words_merge_ranges_tile input_ids :
  tiles 0 (AttnWeightRAG.merged_ranges W input_ids) (List.length input_ids).
Proof.
  unfold AttnWeightRAG.merged_ranges, enumerate.
  rewrite <- (length_map (id_to_token W) input_ids).
  apply (merge_fold_tiles (AttnWeightRAG.merge_step W input_ids));
    [|reflexivity|congruence].
  intros range_ i t. unfold AttnWeightRAG.merge_step.
  destruct (Nat.eqb i 0) eqn:Hi; [now left|].
  apply Nat.eqb_neq in Hi. simpl.
  destruct (_ || _); [now left|now right].
Qed.

Lemma tiles_whole {A} (l : list A) rs :
  tiles 0 rs (List.length l) ->
  List.concat (map (fun r => BasicGenerator.unit_slice r l) rs) = l.
Proof.
  intros Ht. rewrite (tiles_concat l rs 0 (List.length l) Ht) by lia.
  rewrite Nat.sub_0_r. simpl. apply firstn_all.
Qed.
End MergeFacts.

(** X6.  The merge of sub-word tokens into units, in [generate_attn] and in
    [keep_real_words], tiles the token positions: the first unit begins at
    position 0, every other one begins just after the one before, the last
    one ends at the last position, and no unit is empty.  So the list is
    never indexed while it is empty, the tokens of the units put together
    are the tokens, there are no more units than tokens, and no unit at all
    only for no token. *)
Theorem merged_units_tile_the_tokens :
  forall {F : Type} `{Float F} (W : Backend F),
    (forall (ids : list Z) (tokens : list str),
        let range_ := BasicGenerator.merge_ranges W ids tokens in
        tiles 0 range_ (List.length tokens)
        /\ List.concat
             (map (fun r => BasicGenerator.unit_slice r tokens) range_)
           = tokens
        /\ (List.length range_ <= List.length tokens)%nat
        /\ (range_ = [] <-> tokens = []))
    /\ (forall input_ids : list Z,
           let tokens_tmp := map (id_to_token W) input_ids in
           let range_ := AttnWeightRAG.merged_ranges W input_ids in
           tiles 0 range_ (List.length input_ids)
           /\ List.concat
                (map (fun r => BasicGenerator.unit_slice r tokens_tmp)
                   range_)
              = tokens_tmp
           /\ (List.length (AttnWeightRAG.merged_tokens W input_ids)
               <= List.length input_ids)%nat).
Proof.
  intros F HF W. split.
  - intros ids tokens range_.
    pose proof (generator_merge_ranges_tile W ids tokens) as Ht.
    fold range_ in Ht. clearbody range_.
    split; [exact Ht|]. split; [now apply tiles_whole|].
    pose proof (tiles_le range_ 0 _ Ht) as Hle. split; [lia|].
    split.
    + intros Hnil. rewrite Hnil in Ht. simpl in Ht.
      destruct tokens; [reflexivity|discriminate].
    + intros Hnil. subst tokens. simpl in Hle.
      destruct range_; [reflexivity|simpl in Hle; lia].
  - intros input_ids tokens_tmp range_.
    pose proof (real_words_merge_ranges_tile W input_ids) as Ht.
    fold range_ in Ht.
    split; [exact Ht|]. split.
    + apply tiles_whole. subst tokens_tmp. now rewrite length_map.
    + unfold AttnWeightRAG.merged_tokens. rewrite length_map.
      fold range_. pose proof (tiles_le range_ 0 _ Ht). lia.
Qed.

(* ================================================================== *)
(** * Further properties: generation with attention *)
(* ================================================================== *)

Section GenerateAttnPlain.
Context {F : Type} `{Float F} (W : Backend F).

(** A call of [generate_attn] without entropies and with a known
    reduction policy, on a generation that [reduce_attention] reduces. *)
Lemma generate_attn_plain input_text max_length solver use_logprob st :
  known_solver solver = true ->
  exists text ids seqlist attns seqlogprobs st',
    BasicGenerator.generate_attn W input_text max_length solver false
      use_logprob st
    = (Ok (text, seqlist, attns,
           if use_logprob then Some seqlogprobs else None, None), st')
    /\ ids = map fst
               (lm_generate W (clock st)
                  (encode W (apply_chat_template W input_text false))
                  max_length)
    /\ List.length seqlist = List.length attns
    /\ List.length seqlogprobs = List.length attns
    /\ (List.length seqlist <= List.length ids)%nat
    /\ (ids <> [] -> seqlist <> [])
    /\ events st'
       = events st
         ++ [EvGenerate (encode W (apply_chat_template W input_text false))
               max_length;
             EvForward ids]
    /\ counter st' = counter st.
Proof.
  intros Hknown. unfold BasicGenerator.generate_attn.
  assert (Hg : exists text,
             BasicGenerator.generate W input_text max_length false true st
             = (Ok [PStr text;
                    PIds [map fst
                            (lm_generate W (clock st)
                               (encode W
                                  (apply_chat_template W input_text false))
                               max_length)];
                    PFloats (map snd
                               (lm_generate W (clock st)
                                  (encode W
                                     (apply_chat_template W input_text
                                        false))
                                  max_length));
                    POutputs],
                after_generate W input_text max_length false st)).
  { unfold BasicGenerator.generate, bind, request, after_generate.
    cbv beta iota zeta. rewrite slice_drop_prefix.
    rewrite !length_map, Nat.eqb_refl. eexists. reflexivity. }
  destruct Hg as (text & Hg).
  set (ids := map fst _) in Hg.
  set (lps := map snd _) in Hg.
  unfold bind at 1. rewrite Hg. cbv beta iota.
  unfold bind at 1, lift. simpl unpack4. cbv beta iota.
  unfold bind at 1. simpl as_str. cbv beta iota.
  unfold bind at 1. simpl as_ids. cbv beta iota.
  unfold bind at 1. simpl as_floats. cbv beta iota.
  unfold bind at 1. rewrite getitem_head. cbv beta iota.
  unfold bind at 1, request. cbv beta iota.
  pose proof (reduce_attention_outcome solver
                (last_layer_attention W
                   (clock (after_generate W input_text max_length false st))
                   ids)) as Hr.
  rewrite Hknown in Hr. destruct Hr as (m & Hr).
  unfold bind at 1. rewrite Hr. cbv beta iota.
  unfold bind at 1, ret. cbv beta iota.
  set (tokens := map (Py.replace [266%N] [Py.newline])
                   (map (id_to_token W) ids)).
  pose proof (generator_merge_ranges_tile W ids tokens) as Ht.
  set (range_ := BasicGenerator.merge_ranges W ids tokens) in *.
  assert (Hlen : List.length tokens = List.length ids)
    by (subst tokens; now rewrite !length_map).
  pose proof (tiles_le range_ 0 _ Ht) as Hle.
  exists text, ids.
  eexists. eexists.
  exists (map (fun r =>
                 fdiv (fsum (BasicGenerator.unit_slice r lps))
                   (of_Z (Z.of_nat (snd r) - Z.of_nat (fst r) + 1)))
            range_).
  eexists. split.
  - destruct use_logprob; reflexivity.
  - split; [reflexivity|]. clearbody range_ tokens ids lps.
    rewrite !length_map.
    split; [reflexivity|]. split; [reflexivity|].
    assert (Hz : (List.length range_ <= List.length ids)%nat)
      by (rewrite <- Hlen; exact Hle).
    split; [exact Hz|]. split.
    + intros Hids Hnil. apply Hids.
      apply map_eq_nil in Hnil. rewrite Hnil in Ht.
      simpl in Ht. destruct ids; [reflexivity|].
      discriminate (eq_trans Ht Hlen).
    + split; [|reflexivity].
      unfold after_generate. simpl. rewrite <- app_assoc. reflexivity.
Qed.
End GenerateAttnPlain.

(** X7.  A call of [generate_attn] without entropies and with one of the
    policies [max], [avg], [last_token], for which the model generated at
    least one token, returns: one merged string and one attention weight
    for every unit, the mean log-probabilities of the units exactly when
    [use_logprob] is set, and no entropies.  There is at least one unit,
    and there are no more units than generated tokens.  The model was
    asked to generate once and then run forward once over the generated
    ids; no counter moved. *)
Theorem generate_attn_lists_aligned :
  forall {F : Type} `{Float F} (W : Backend F) (input_text : str)
         (max_length : Z) (solver : str) (use_logprob : bool) (st : State),
    known_solver solver = true ->
    let prompt_ids := encode W (apply_chat_template W input_text false) in
    let ids := map fst (lm_generate W (clock st) prompt_ids max_length) in
    ids <> [] ->
    exists text seqlist attns seqlogprobs st',
      BasicGenerator.generate_attn W input_text max_length solver false
        use_logprob st
      = (Ok (text, seqlist, attns, seqlogprobs, None), st')
      /\ List.length seqlist = List.length attns
      /\ match seqlogprobs with
         | Some l =>
             use_logprob = true /\ List.length l = List.length attns
         | None => use_logprob = false
         end
      /\ (1 <= List.length seqlist <= List.length ids)%nat
      /\ events st'
         = events st ++ [EvGenerate prompt_ids max_length; EvForward ids]
      /\ counter st' = counter st.
Proof.
  intros F HF W input_text max_length solver use_logprob st Hknown
    prompt_ids ids Hsome.
  destruct (generate_attn_plain W input_text max_length solver use_logprob
              st Hknown)
    as (text & ids' & seqlist & attns & lps & st' & Hrun & Hids & Hlen
        & Hlps & Hle & Hnil & Hev & Hc).
  fold prompt_ids in Hids. fold ids in Hids. subst ids'.
  exists text, seqlist, attns,
         (if use_logprob then Some lps else None), st'.
  split; [exact Hrun|]. split; [exact Hlen|].
  split; [destruct use_logprob; auto|].
  split; [|split; assumption].
  split; [|exact Hle].
  specialize (Hnil Hsome). destruct seqlist; [contradiction|simpl; lia].
Qed.

(** X7 at work: the toy model writes [ok], which is one unit. *)
Lemma generate_attn_lists_aligned_witness :
  exists text seqlist attns seqlogprobs st',
    BasicGenerator.generate_attn Toy.world (py "q") 4 (py "avg") false true
      Toy.st0
    = (Ok (text, seqlist, attns, seqlogprobs, None), st')
    /\ List.length seqlist = List.length attns
    /\ match seqlogprobs with
       | Some l => true = true /\ List.length l = List.length attns
       | None => true = false
       end
    /\ (1 <= List.length seqlist)%nat.
Proof.
  assert (Hsome : map fst
                    (lm_generate Toy.world (clock Toy.st0)
                       (encode Toy.world
                          (apply_chat_template Toy.world (py "q") false))
                       4)
                  <> []) by (vm_compute; discriminate).
  destruct (generate_attn_lists_aligned Toy.world (py "q") 4 (py "avg")
              true Toy.st0 eq_refl Hsome)
    as (text & seqlist & attns & seqlogprobs & st' & Hrun & Hlen & Hlps
        & Hunits & _).
  exists text, seqlist, attns, seqlogprobs, st'.
  split; [exact Hrun|]. split; [exact Hlen|].
  split; [exact Hlps|apply Hunits].
Defined.

(** X8.  [AttnWeightRAG.inference] works with the method [attn_prob] only.
    With a method that is neither [dragin] nor [attn_prob],
    [generate_attn] is asked for neither entropies nor log-probabilities,
    and the negation of the absent log-probabilities raises [TypeError] in
    the first iteration: after one generation and one forward pass, before
    the counter, the detector or a retriever is reached. *)
Theorem attn_inference_other_method_typeerror :
  forall {F : Type} `{Float F} (W : Backend F) (self : RAG F)
         (question : str) (demo : list Demo) (case : str) (fuel : nat)
         (st : State),
    Py.eqb (method (args self)) (py "dragin") = false ->
    Py.eqb (method (args self)) (py "attn_prob") = false ->
    exists st',
      AttnWeightRAG.inference W (S fuel) self question demo case st
      = (Raise TypeError, st')
      /\ generations st' = generations st + 1
      /\ searches st' = searches st
      /\ counter st' = counter st.
Proof.
  intros F HF W self question demo case fuel st Hdragin Hprob.
  unfold AttnWeightRAG.inference. simpl.
  unfold AttnWeightRAG.iteration. rewrite Hdragin, Hprob.
  unfold bind at 1 2.
  match goal with
  | |- context [BasicGenerator.generate_attn W ?p ?m ?s false false st] =>
      destruct (generate_attn_plain W p m s false st eq_refl)
        as (text & ids & seqlist & attns & lps & st' & Hrun & _ & _ & _
            & _ & _ & Hev & Hc)
  end.
  rewrite Hrun. cbv beta iota.
  unfold bind at 1, raise.
  exists st'. split; [reflexivity|].
  unfold generations, searches, Py.len. rewrite Hev.
  rewrite !filter_app, !length_app. simpl.
  repeat split; [lia|lia|exact Hc].
Qed.

(** X8 at work, with the method [attn_entropy]. *)
Lemma attn_inference_other_method_typeerror_witness :
  exists st',
    AttnWeightRAG.inference Toy.world 3
      (Toy.rag (Toy.with_method (py "attn_entropy") (py "direct") false))
      (py "q?") [] (py "c") Toy.st0
    = (Raise TypeError, st')
    /\ generations st' = generations Toy.st0 + 1
    /\ searches st' = searches Toy.st0
    /\ counter st' = counter Toy.st0.
Proof.
  exact (attn_inference_other_method_typeerror Toy.world
           (Toy.rag (Toy.with_method (py "attn_entropy") (py "direct")
                       false))
           (py "q?") [] (py "c") 2 Toy.st0 eq_refl eq_refl).
Defined.

(* ================================================================== *)
(** * Further properties: the detectors *)
(* ================================================================== *)

Lemma startswith_app (sub rest : str) : Py.startswith (sub ++ rest) sub = true.
Proof.
  induction sub as [|c sub IH]; simpl; [destruct rest; reflexivity|].
  now rewrite N.eqb_refl, IH.
Qed.

Lemma find_lower_bound (s sub : str) : -1 <= Py.find s sub.
Proof.
  induction s as [|c s IH]; cbn [Py.find].
  - destruct (Py.startswith [] sub); lia.
  - destruct (Py.startswith (c :: s) sub); [lia|].
    destruct (Py.find s sub <? 0) eqn:Hr; [lia|].
    apply Z.ltb_ge in Hr. lia.
Qed.

Lemma find_after_prefix (X s sub : str) :
  0 <= Py.find s sub -> 0 <= Py.find (X ++ s) sub.
Proof.
  intros Hs. induction X as [|c X IH]; [exact Hs|].
  rewrite <- app_comm_cons. cbn [Py.find]. destruct (Py.startswith (c :: X ++ s) sub); [lia|].
  destruct (Py.find (X ++ s) sub <? 0) eqn:Hr.
  - apply Z.ltb_lt in Hr. lia.
  - lia.
Qed.

(** [sub in X + sub + Y] *)
Lemma contains_middle (X sub Y : str) :
  Py.contains sub (X ++ sub ++ Y) = true.
Proof.
  unfold Py.contains. apply Z.leb_le, find_after_prefix.
  destruct (sub ++ Y) as [|c r] eqn:HsY.
  - apply app_eq_nil in HsY. destruct HsY as [-> _]. simpl. lia.
  - cbn [Py.find]. rewrite <- HsY, startswith_app. lia.
Qed.

Section MaskFacts.
Context {F : Type} `{Float F}.

(** Once the placeholder stands in the sentence, it stays. *)
Lemma mask_keeps_marked threshold units :
  forall curr pos,
    Py.contains placeholder curr = true ->
    Py.contains placeholder (TokenRAG.mask threshold units curr pos) = true.
Proof.
  induction units as [|[prob tok] units IH]; intros curr pos Hc;
    cbn [TokenRAG.mask]; [exact Hc|].
  cbv zeta. destruct (fgtb prob threshold).
  - apply IH, contains_middle.
  - apply IH, Hc.
Qed.
End MaskFacts.

(** X9.  The masking loop of [TokenRAG.modifier] and [EntityRAG.modifier]
    leaves the sentence as it is when no unit (token or entity) is above
    the threshold, and otherwise returns a text that contains the
    placeholder [[xxx]], wherever the units were found or not found. *)
Theorem mask_marks_exactly_when_a_unit_is_above :
  forall {F : Type} `{Float F} (threshold : F) (units : list (F * str))
         (curr : str) (pos : Z),
    if existsb (above threshold) units
    then Py.contains placeholder (TokenRAG.mask threshold units curr pos)
         = true
    else TokenRAG.mask threshold units curr pos = curr.
Proof.
  intros F HF threshold units.
  induction units as [|[prob tok] units IH]; intros curr pos;
    cbn [TokenRAG.mask existsb]; [reflexivity|].
  cbv zeta. unfold above at 1. cbn [fst].
  destruct (fgtb prob threshold); cbn [orb].
  - apply mask_keeps_marked, contains_middle.
  - apply IH.
Qed.

Section TokenModifierFacts.
Context {F : Type} `{Float F} (W : Backend F).

Lemma sentence_reduce_raises name probs e :
  TokenRAG.sentence_reduce name probs = Raise e ->
  e = ValueError /\ probs = []
  /\ Py.eqb name (py "avg") = false
  /\ (Py.eqb name (py "max") = true \/ Py.eqb name (py "min") = true).
Proof.
  unfold TokenRAG.sentence_reduce.
  destruct (Py.eqb name (py "avg")); [discriminate|].
  destruct (Py.eqb name (py "max")).
  - destruct probs; simpl; [|discriminate].
    intros Hr. inversion Hr. auto.
  - destruct (Py.eqb name (py "min")); [|discriminate].
    destruct probs; simpl; [|discriminate].
    intros Hr. inversion Hr. auto.
Qed.

Lemma token_detect_raises self text tokens logprobs sentences e :
  forall todo sid tid,
    TokenRAG.detect self text tokens logprobs sentences todo sid tid
    = Raise e ->
    (e = ValueError
     /\ Py.eqb (sentence_solver (args self)) (py "avg") = false
     /\ (Py.eqb (sentence_solver (args self)) (py "max") = true
         \/ Py.eqb (sentence_solver (args self)) (py "min") = true))
    \/ (exists v, In v logprobs /\ fexp v = Raise e).
Proof.
  induction todo as [|sent todo IH]; intros sid tid;
    cbn [TokenRAG.detect]; [discriminate|].
  cbv zeta.
  match goal with
  | |- context [map_result TokenRAG.uncertainty ?window] =>
      destruct (map_result TokenRAG.uncertainty window) as [probs|e0]
        eqn:Hprobs
  end; cbn [rbind].
  - destruct (TokenRAG.sentence_reduce _ probs) as [p|e'] eqn:Hred;
      cbn [rbind].
    + destruct (fgtb p (hallucination_threshold (args self)));
        [discriminate|]. apply IH.
    + intros Hr. inversion Hr; subst e'.
      apply sentence_reduce_raises in Hred.
      destruct Hred as (He & _ & Havg & Hsolver). left. auto.
  - intros Hr. inversion Hr; subst e0.
    apply map_result_raises in Hprobs.
    destruct Hprobs as (v & Hin & Hv).
    right. exists v. split.
    + eapply slice_incl, Hin.
    + now apply uncertainty_raises.
Qed.
End TokenModifierFacts.

(** X10.  [TokenRAG.modifier] raises in two ways only.  It raises
    [ValueError] under the policies [max] and [min], whose reductions have
    no value on an empty window of log probabilities; and it raises what
    [math.exp] raises on one of the log probabilities it was given
    ([OverflowError], for a value too large to exponentiate).  So under
    the policy [avg], and under a policy name that is not known, it
    returns whenever [math.exp] has a value on every log probability. *)
Theorem token_modifier_raises_on_empty_window_or_overflow :
  forall {F : Type} `{Float F} (W : Backend F) (self : RAG F) (text : str)
         (tokens : list str) (logprobs : list F) (e : exn),
    TokenRAG.modifier W self text tokens logprobs = Raise e ->
    (e = ValueError
     /\ Py.eqb (sentence_solver (args self)) (py "avg") = false
     /\ (Py.eqb (sentence_solver (args self)) (py "max") = true
         \/ Py.eqb (sentence_solver (args self)) (py "min") = true))
    \/ (exists v, In v logprobs /\ fexp v = Raise e).
Proof.
  intros F HF W self text tokens logprobs e. unfold TokenRAG.modifier.
  apply token_detect_raises.
Qed.

(** X10 at work: the policy [min] with a scan that runs over the end of
    the first sentence, and the policy [avg] with a log probability of
    1000. *)
Lemma token_modifier_raises_on_empty_window_or_overflow_witness :
  let least := Toy.rag (Toy.with_policy (py "min") (py "avg") (Fin (1 # 2))) in
  let mean := Toy.rag (Toy.with_policy (py "avg") (py "avg") (Fin (1 # 2))) in
  (TokenRAG.modifier Toy.world least (py "Hello world. Bye")
     [py "Hello"; py " world"; py "."; py " Bye"]
     [Fin (-1 # 10); Fin (-1 # 10); Fin (-1 # 10); Fin (-1 # 10)]
   = Raise ValueError
   /\ ((ValueError = ValueError
        /\ Py.eqb (sentence_solver (args least)) (py "avg") = false
        /\ (Py.eqb (sentence_solver (args least)) (py "max") = true
            \/ Py.eqb (sentence_solver (args least)) (py "min") = true))
       \/ (exists v,
              In v [Fin (-1 # 10); Fin (-1 # 10); Fin (-1 # 10);
                    Fin (-1 # 10)]
              /\ fexp v = Raise ValueError)))
  /\ (TokenRAG.modifier Toy.world mean (py "a.") [py "a."] [Fin 1000]
      = Raise OverflowError
      /\ ((OverflowError = ValueError
           /\ Py.eqb (sentence_solver (args mean)) (py "avg") = false
           /\ (Py.eqb (sentence_solver (args mean)) (py "max") = true
               \/ Py.eqb (sentence_solver (args mean)) (py "min") = true))
          \/ (exists v, In v [Fin 1000] /\ fexp v = Raise OverflowError))).
Proof.
  intros least mean. split; (split; [reflexivity|]).
  - exact (token_modifier_raises_on_empty_window_or_overflow Toy.world least
             (py "Hello world. Bye")
             [py "Hello"; py " world"; py "."; py " Bye"]
             [Fin (-1 # 10); Fin (-1 # 10); Fin (-1 # 10); Fin (-1 # 10)]
             ValueError eq_refl).
  - exact (token_modifier_raises_on_empty_window_or_overflow Toy.world mean
             (py "a.") [py "a."] [Fin 1000] OverflowError eq_refl).
Defined.

Lemma map_result_forall2 {A B} (f : A -> result B) (xs : list A) :
  forall ys, map_result f xs = Ok ys ->
             Forall2 (fun x y => f x = Ok y) xs ys.
Proof.
  induction xs as [|x xs IH]; intros ys Hm; simpl in Hm.
  - inversion Hm. constructor.
  - destruct (f x) as [y|] eqn:Hfx; simpl in Hm; [|discriminate].
    destruct (map_result f xs) as [ys'|]; simpl in Hm; [|discriminate].
    inversion Hm; subst. constructor; [exact Hfx|now apply IH].
Qed.

Lemma range_length (lo hi : Z) :
  List.length (range lo hi) = (Z.to_nat hi - Z.to_nat lo)%nat.
Proof. unfold range. now rewrite length_map, length_seq. Qed.

Lemma range_in (lo hi i : Z) :
  0 <= lo -> In i (range lo hi) -> lo <= i < hi.
Proof.
  intros Hlo Hin. unfold range in Hin. apply in_map_iff in Hin.
  destruct Hin as (n & <- & Hn). apply in_seq in Hn. lia.
Qed.

Lemma slice_between {A} (lo hi : Z) (l : list A) :
  0 <= lo <= hi -> hi <= Py.len l ->
  Py.slice (Some lo) (Some hi) l
  = firstn (Z.to_nat hi - Z.to_nat lo) (skipn (Z.to_nat lo) l).
Proof.
  intros Hlo Hhi. unfold Py.slice, Py.clip. unfold Py.len in *.
  assert (H1 : (lo <? 0) = false) by (apply Z.ltb_ge; lia).
  assert (H2 : (hi <? 0) = false) by (apply Z.ltb_ge; lia).
  rewrite H1, H2.
  rewrite (Z.min_l lo) by lia. rewrite (Z.min_l hi) by lia. reflexivity.
Qed.


Lemma length_enumerate_from {A} (l : list A) :
  forall n, List.length (enumerate_from n l) = List.length l.
Proof.
  induction l as [|x l IH]; intros n; simpl; [reflexivity|].
  now rewrite IH.
Qed.

Lemma Forall_enumerate_from {A} (P : A -> Prop) (l : list A) :
  Forall P l ->
  forall n, Forall (fun it : nat * A => P (snd it)) (enumerate_from n l).
Proof.
  induction 1 as [|x l Hx _ IH]; intros n; simpl; constructor;
    [exact Hx|apply IH].
Qed.

Lemma Forall2_results {A B} (f : A -> result B) (Q : B -> Prop)
    (xs : list A) (ys : list B) :
  Forall2 (fun x y => f x = Ok y) xs ys ->
  Forall (fun x => forall y, f x = Ok y -> Q y) xs ->
  Forall Q ys.
Proof.
  induction 1 as [|x y xs ys Hxy _ IH]; intros Hall; [constructor|].
  inversion Hall; subst. constructor; auto.
Qed.

Section AttnModifierFacts.
Context {F : Type} `{Float F} (W : Backend F).

Lemma first_containing_in sent tokens tl candidates tr :
  let i := AttnWeightRAG.first_containing sent tokens tl candidates tr in
  i = tr \/ In i candidates.
Proof.
  induction candidates as [|c candidates IH]; simpl; [now left|].
  destruct (Py.contains sent _); [right; now left|].
  destruct IH as [IH|IH]; [now left|right; now right].
Qed.

(** What a sentence that [AttnWeightRAG.modifier] flags comes with. *)
Lemma attn_detect_flagged self text tokens attentions weight sentences :
  forall todo sid tid h ptext ct ch,
    0 <= tid <= Py.len tokens ->
    AttnWeightRAG.detect W self text tokens attentions weight sentences
      todo sid tid = Ok (h, ptext, ct, ch) ->
    (h = false /\ ptext = text /\ ct = None /\ ch = None)
    \/ (h = true
        /\ exists curr_tokens curr_hit before after,
             ct = Some curr_tokens /\ ch = Some curr_hit
             /\ tokens = before ++ curr_tokens ++ after
             /\ List.length curr_hit = List.length curr_tokens
             /\ Forall (fun z => z = 0 \/ z = 1) curr_hit).
Proof.
  induction todo as [|sent todo IH]; intros sid tid h ptext ct ch Htid;
    cbn [AttnWeightRAG.detect].
  - intros Hr. inversion Hr; subst. left. auto.
  - cbv zeta.
    set (is_last := Z.of_nat sid =? Py.len sentences - 1).
    set (tr := if is_last then Py.len tokens
               else AttnWeightRAG.first_containing sent tokens tid
                      (range (tid + 1) (Py.len tokens)) tid).
    assert (Htr : tid <= tr <= Py.len tokens).
    { subst tr. destruct is_last; [lia|].
      destruct (first_containing_in sent tokens tid
                  (range (tid + 1) (Py.len tokens)) tid) as [Heq|Hin].
      - rewrite Heq. lia.
      - apply range_in in Hin; lia. }
    destruct (map_result _ (range tid tr)) as [value|] eqn:Hvalue;
      cbn [rbind]; [|discriminate].
    apply map_result_forall2 in Hvalue.
    apply Forall2_length in Hvalue. rewrite range_length in Hvalue.
    set (thres := map (fun v => if fgtb v (hallucination_threshold
                                             (args self))
                                then 1 else 0) value).
    assert (Hthres : List.length thres = (Z.to_nat tr - Z.to_nat tid)%nat
                     /\ Forall (fun z => z = 0 \/ z = 1) thres).
    { subst thres. rewrite length_map. split; [now symmetry|].
      rewrite Forall_map. apply Forall_forall. intros v _.
      destruct (fgtb v _); auto. }
    destruct Hthres as (Hlen & H01).
    destruct (existsb (Z.eqb 1) thres).
    + destruct (match check_real_words (args self) with
                | Some true => _
                | _ => Ok thres
                end) as [hits|] eqn:Hhits; cbn [rbind]; [|discriminate].
      intros Hr. inversion Hr; subst. right. split; [reflexivity|].
      exists (Py.slice (Some tid) (Some tr) tokens), hits,
             (firstn (Z.to_nat tid) tokens), (skipn (Z.to_nat tr) tokens).
      split; [reflexivity|]. split; [reflexivity|].
      rewrite slice_between by lia.
      assert (Hhits' : List.length hits = List.length thres
                       /\ Forall (fun z => z = 0 \/ z = 1) hits).
      { destruct (check_real_words (args self)) as [[|]|];
          try (inversion Hhits; subst; split; [reflexivity|exact H01]).
        apply map_result_forall2 in Hhits.
        split.
        - apply Forall2_length in Hhits. unfold enumerate in Hhits.
          rewrite <- Hhits. apply length_enumerate_from.
        - assert (Hen : Forall (fun it : nat * Z =>
                                  snd it = 0 \/ snd it = 1)
                          (enumerate thres)).
          { exact (Forall_enumerate_from (fun z => z = 0 \/ z = 1) thres
                     H01 O). }
          apply (Forall2_results _ _ _ _ Hhits).
          eapply Forall_impl; [|exact Hen].
          intros it Hit hit Hhit.
          destruct (getitem tokens _) as [tok|]; simpl in Hhit;
            [|discriminate].
          inversion Hhit. destruct (negb _); auto. }
      destruct Hhits' as (Hhl & Hh01).
      split; [|split; [|exact Hh01]].
      * rewrite <- (firstn_skipn (Z.to_nat tid) tokens) at 1.
        f_equal.
        rewrite <- (firstn_skipn (Z.to_nat tr - Z.to_nat tid)
                      (skipn (Z.to_nat tid) tokens)) at 1.
        f_equal. rewrite skipn_skipn. f_equal. lia.
      * rewrite Hhl, Hlen, length_firstn, length_skipn.
        unfold Py.len in Htr. lia.
    + apply IH. destruct is_last; lia.
Qed.
End AttnModifierFacts.

(** X11.  When [AttnWeightRAG.modifier] returns, it returns either
    [(False, text, None, None)], or [True] with the flagged tokens and
    their hit marks: the tokens are a stretch of the tokens it was given,
    there is one mark for every token, and every mark is 0 or 1, with or
    without the real-word check.  So the reformulation that follows never
    meets [None], and its index into the marks never leaves them. *)
Theorem attn_modifier_marks_align_with_tokens :
  forall {F : Type} `{Float F} (W : Backend F) (self : RAG F) (text : str)
         (tokens : list str) (attentions weight : list F)
         (h : bool) (ptext : str) (ct : option (list str))
         (ch : option (list Z)),
    AttnWeightRAG.modifier W self text tokens attentions weight
    = Ok (h, ptext, ct, ch) ->
    (h = false /\ ptext = text /\ ct = None /\ ch = None)
    \/ (h = true
        /\ exists curr_tokens curr_hit before after,
             ct = Some curr_tokens /\ ch = Some curr_hit
             /\ tokens = before ++ curr_tokens ++ after
             /\ List.length curr_hit = List.length curr_tokens
             /\ Forall (fun z => z = 0 \/ z = 1) curr_hit).
Proof.
  intros F HF W self text tokens attentions weight h ptext ct ch.
  unfold AttnWeightRAG.modifier.
  apply attn_detect_flagged. unfold Py.len. lia.
Qed.

(** X11 at work: one sentence of two tokens, of which the first is above
    the threshold. *)
Lemma attn_modifier_marks_align_with_tokens_witness :
  AttnWeightRAG.modifier Toy.world (Toy.rag Toy.args0) (py "ab.")
    [py "a"; py "b"] [Fin 1; Fin 1] [Fin 2; Fin 0]
  = Ok (true, [], Some [py "a"; py "b"], Some [1; 0])
  /\ ((true = false /\ @nil Py.char = py "ab."
       /\ Some [py "a"; py "b"] = None /\ Some [1; 0] = None)
      \/ (true = true
          /\ exists curr_tokens curr_hit before after,
               Some [py "a"; py "b"] = Some curr_tokens
               /\ Some [1; 0] = Some curr_hit
               /\ [py "a"; py "b"] = before ++ curr_tokens ++ after
               /\ List.length curr_hit = List.length curr_tokens
               /\ Forall (fun z => z = 0 \/ z = 1) curr_hit)).
Proof.
  split; [reflexivity|].
  exact (attn_modifier_marks_align_with_tokens Toy.world
           (Toy.rag Toy.args0) (py "ab.") [py "a"; py "b"]
           [Fin 1; Fin 1] [Fin 2; Fin 0] true []
           (Some [py "a"; py "b"]) (Some [1; 0]) eq_refl).
Defined.

(* ================================================================== *)
(** * Further properties: the retrieval gateway *)
(* ================================================================== *)

Lemma lstrip_by_incl (f : Py.char -> bool) (s : str) :
  incl (Py.lstrip_by f s) s.
Proof.
  induction s as [|c s IH]; simpl; [apply incl_refl|].
  destruct (f c); [apply incl_tl, IH|apply incl_refl].
Qed.

Lemma strip_by_incl (f : Py.char -> bool) (s : str) :
  incl (Py.strip_by f s) s.
Proof.
  unfold Py.strip_by. intros c Hc.
  apply in_rev in Hc. apply lstrip_by_incl in Hc.
  apply in_rev in Hc. now apply lstrip_by_incl in Hc.
Qed.

Lemma last_in {A} (l : list A) (d : A) : l <> [] -> In (last l d) l.
Proof.
  induction l as [|x l IH]; intros Hne; [congruence|].
  destruct l as [|y l]; [now left|].
  right. apply IH. discriminate.
Qed.

Lemma index_name_no_hyphen (line : str) :
  ~ In Py.hyphen (BasicRAG.index_name line).
Proof.
  unfold BasicRAG.index_name, Py.strip. intros Hin.
  apply strip_by_incl in Hin.
  pose proof (split_no_sep Py.hyphen line) as Hall.
  rewrite Forall_forall in Hall.
  apply (Hall (last (Py.split Py.hyphen line) [])); [|exact Hin].
  apply last_in. unfold Py.split.
  destruct (Py.split1 Py.hyphen line). discriminate.
Qed.

Lemma dict_get_hyphenated {V} (d : dict V) (name : str) :
  Forall (fun kv => In Py.hyphen (fst kv)) d ->
  ~ In Py.hyphen name ->
  dict_get d name = None.
Proof.
  induction 1 as [|[k v] d Hk _ IH]; intros Hname; simpl; [reflexivity|].
  destruct (Py.eqb k name) eqn:Hkn; [|now apply IH].
  apply py_eqb_eq in Hkn. subst k. contradiction.
Qed.

Section SelectionFacts.
Context {F : Type} `{Float F} (W : Backend F).

(** The generator's selection always has a first line. *)
Lemma selected_lines_nonempty retrievers query st :
  exists line rest, selected_lines W retrievers query st = line :: rest.
Proof.
  unfold selected_lines.
  destruct (generate_text_tuple W
              (BasicRAG.selection_prompt query retrievers) 64 false
              (snd (BasicRAG.incr_retrieve st))) as (text & Hg).
  rewrite Hg. unfold Py.split.
  destruct (Py.split1 Py.newline (Py.strip text)) as [hd tl].
  eauto.
Qed.
End SelectionFacts.

(** X12.  The index name that [retrieve] reads off a selected line, the
    stripped text after the last hyphen, never holds a hyphen.  So an index
    that is configured under a name with a hyphen cannot be selected; when
    every configured name has one, a call of [retrieve] in multi-index mode
    raises [KeyError] whatever the generator answers, after one generation
    and before any retriever is asked. *)
Theorem hyphenated_index_names_cannot_be_selected :
  forall {F : Type} `{Float F} (W : Backend F) (self : RAG F)
         (retrievers : dict RetrieverEntry) (query : str)
         (topk max_query_length : Z) (st : State),
    (forall line, ~ In Py.hyphen (BasicRAG.index_name line))
    /\ (gateway self = Some (true, retrievers) ->
        Forall (fun kv => In Py.hyphen (fst kv)) retrievers ->
        exists st',
          BasicRAG.retrieve W self query topk max_query_length st
          = (Raise KeyError, st')
          /\ generations st' = generations st + 1
          /\ searches st' = searches st).
Proof.
  intros F HF W self retrievers query topk mql st.
  split; [exact index_name_no_hyphen|].
  intros Hg Hall.
  destruct (retrieve_multi W self retrievers query topk mql st Hg)
    as (st1 & Heq & _ & Hs1 & Hg1).
  destruct (selected_lines_nonempty W retrievers query st)
    as (line & rest & Hsel).
  rewrite Heq, Hsel.
  pose proof (gateway_loop_keyerror W retrievers query topk mql [] line rest
                (dict_get_hyphenated retrievers _ Hall
                   (index_name_no_hyphen line))
                (Forall_nil _) [] st1) as Hloop.
  simpl app in Hloop.
  destruct (for_each (line :: rest) []
              (gateway_body W retrievers query topk mql) st1) as [r st'].
  destruct Hloop as (-> & Hs & Hgen).
  exists st'. split; [reflexivity|].
  unfold Py.len in Hs. simpl in Hs. split; lia.
Qed.

(** X12 at work: the indices [wiki-en] and [wiki-de], of which the
    generator selects the first by its name. *)
Lemma hyphenated_index_names_cannot_be_selected_witness :
  let W := Toy.world_saying (py "- wiki-en") in
  let retrievers :=
    [(py "wiki-en",
      {| entry_description := py "English";
         entry_retriever := BM25 [] |});
     (py "wiki-de",
      {| entry_description := py "German";
         entry_retriever := BM25 [] |})] in
  let self := {| args := Toy.args0; gateway := Some (true, retrievers) |} in
  exists st',
    BasicRAG.retrieve W self (py "q") 1 64 Toy.st0 = (Raise KeyError, st')
    /\ generations st' = generations Toy.st0 + 1
    /\ searches st' = searches Toy.st0.
Proof.
  intros W retrievers self.
  apply (proj2 (hyphenated_index_names_cannot_be_selected W self retrievers
                  (py "q") 1 64 Toy.st0) eq_refl).
  repeat constructor; simpl; tauto.
Defined.

Lemma find_app {A} (p : A -> bool) (l1 l2 : list A) :
  List.find p (l1 ++ l2)
  = match List.find p l1 with
    | Some x => Some x
    | None => List.find p l2
    end.
Proof.
  induction l1 as [|x l1 IH]; simpl; [reflexivity|].
  destruct (p x); [reflexivity|exact IH].
Qed.

Lemma dict_get_set {V} (d : dict V) (k name : str) (v : V) :
  dict_get (dict_set d k v) name
  = if Py.eqb k name then Some v else dict_get d name.
Proof.
  induction d as [|[k' v'] d IH]; simpl; [reflexivity|].
  destruct (Py.eqb k' k) eqn:Hk'k; simpl.
  - apply py_eqb_eq in Hk'k. subst k'.
    destruct (Py.eqb k name); reflexivity.
  - rewrite IH. destruct (Py.eqb k' name) eqn:Hk'n; [|reflexivity].
    destruct (Py.eqb k name) eqn:Hkn; [|reflexivity].
    apply py_eqb_eq in Hk'n. apply py_eqb_eq in Hkn. subst.
    rewrite py_eqb_refl in Hk'k. discriminate.
Qed.

Lemma dict_set_length {V} (d : dict V) (k : str) (v : V) :
  (List.length (dict_set d k v) <= S (List.length d))%nat.
Proof.
  induction d as [|[k' v'] d IH]; simpl; [lia|].
  destruct (Py.eqb k' k); simpl; lia.
Qed.

Section InitFacts.
Context {F : Type} `{Float F}.

Lemma build_retrievers_lookup configs :
  forall acc, exists retrievers,
    @BasicRAG.build_retrievers configs acc = Ok retrievers
    /\ (forall name,
           dict_get retrievers name
           = match last_config name configs with
             | Some c => Some (entry_of_config c)
             | None => dict_get acc name
             end)
    /\ (List.length retrievers
        <= List.length acc + List.length configs)%nat.
Proof.
  induction configs as [|config rest IH]; intros acc.
  - exists acc. split; [reflexivity|]. split; [reflexivity|simpl; lia].
  - cbn [BasicRAG.build_retrievers].
    assert (Hr : exists r,
               BasicRAG._retriever_selector (retriever_type config)
                 (rc_kwargs config) = Ok r).
    { unfold BasicRAG._retriever_selector.
      repeat match goal with
             | |- context [if ?b then _ else _] => destruct b
             end; eexists; reflexivity. }
    destruct Hr as (r & Hr). rewrite Hr. cbn [rbind].
    destruct (IH (dict_set acc (rc_name config)
                    {| entry_description := description config;
                       entry_retriever := r |}))
      as (retrievers & Hb & Hget & Hlen).
    exists retrievers. split; [exact Hb|]. split.
    + intros name. rewrite Hget. unfold last_config. simpl rev.
      rewrite find_app.
      destruct (List.find _ (rev rest)) as [c|]; [reflexivity|].
      rewrite dict_get_set. simpl.
      destruct (Py.eqb (rc_name config) name); [|reflexivity].
      unfold entry_of_config. now rewrite Hr.
    + pose proof (dict_set_length acc (rc_name config)
                    {| entry_description := description config;
                       entry_retriever := r |}).
      simpl List.length. lia.
Qed.
End InitFacts.

(** X13.  [BasicRAG.__init__] with configured retrievers builds a
    dictionary in which every name stands for the configuration that is
    listed last under it: an earlier configuration of the same name is
    overwritten, so there are no more indices than configurations.  The
    multi-index mode is on exactly when the number of listed configurations
    is not one, also when two of them share their name. *)
Theorem init_keeps_last_config_of_a_name :
  forall {F : Type} (a : Args F) (configs : list RetrieverConfig),
    retriever_configs a = Some configs ->
    exists retrievers,
      BasicRAG.init a
      = Ok ({| args := a;
               gateway :=
                 Some (negb (Nat.eqb (List.length configs) 1), retrievers) |},
            Counter.init)
      /\ (forall name,
             dict_get retrievers name
             = option_map entry_of_config (last_config name configs))
      /\ (List.length retrievers <= List.length configs)%nat.
Proof.
  intros F a configs Hc. unfold BasicRAG.init. rewrite Hc.
  destruct (build_retrievers_lookup configs [])
    as (retrievers & Hb & Hget & Hlen).
  exists retrievers. rewrite Hb. cbn [rbind]. split.
  - destruct (Nat.eqb (List.length configs) 1); reflexivity.
  - split; [|exact Hlen].
    intros name. rewrite Hget.
    destruct (last_config name configs); reflexivity.
Qed.

(** X13 at work: the name [wiki] is configured twice, first over BM25 and
    then over SGPT; the object is in multi-index mode, with one index. *)
Lemma init_keeps_last_config_of_a_name_witness :
  let again :=
    {| rc_name := py "wiki"; retriever_type := py "SGPT";
       description := py "Wikipedia, dense"; rc_kwargs := [] |} in
  exists retrievers,
    BasicRAG.init (Toy.with_retrievers [Toy.wiki; again])
    = Ok ({| args := Toy.with_retrievers [Toy.wiki; again];
             gateway := Some (true, retrievers) |},
          Counter.init)
    /\ dict_get retrievers (py "wiki") = Some (entry_of_config again)
    /\ (List.length retrievers <= 2)%nat.
Proof.
  intros again.
  destruct (init_keeps_last_config_of_a_name
              (Toy.with_retrievers [Toy.wiki; again]) [Toy.wiki; again]
              eq_refl)
    as (retrievers & Hinit & Hget & Hlen).
  exists retrievers. split; [exact Hinit|].
  split; [exact (Hget (py "wiki"))|exact Hlen].
Defined.

Section GatherFacts.
Context {F : Type} `{Float F} (W : Backend F).

(** [_retrieve] on a retriever of a supported class. *)
Lemma _retrieve_passages query retriever topk mql st :
  supported retriever = true ->
  exists st',
    BasicRAG._retrieve W query retriever topk mql st
    = (Ok (passages W (clock st) retriever query topk mql), st')
    /\ clock st' = S (clock st).
Proof.
  intros Hsup. unfold BasicRAG._retrieve, BasicRAG.incr_retrieve,
    update_counter, bind, request, passages, clock.
  destruct retriever; try discriminate; simpl;
    eexists; (split; [reflexivity|]); simpl;
    rewrite length_app; simpl; lia.
Qed.

Lemma gateway_loop_gathers retrievers query topk mql lines :
  Forall (fun l => exists entry,
              dict_get retrievers (BasicRAG.index_name l) = Some entry
              /\ supported (entry_retriever entry) = true) lines ->
  forall docs st,
    exists st',
      for_each lines docs (gateway_body W retrievers query topk mql) st
      = (Ok (docs ++ gathered W retrievers query topk mql (clock st) lines),
         st').
Proof.
  induction 1 as [|line lines (entry & Hl & Hsup) _ IH]; intros docs st.
  - simpl. unfold ret. rewrite app_nil_r. eexists. reflexivity.
  - simpl. rewrite Hl. unfold bind at 1. unfold gateway_body at 1.
    unfold bind at 1, lift, dict_item. rewrite Hl.
    unfold bind at 1.
    destruct (_retrieve_passages query (entry_retriever entry) topk mql st
                Hsup) as (st1 & Hr & Hclock).
    rewrite Hr. unfold ret at 1.
    destruct (IH (docs ++ passages W (clock st) (entry_retriever entry)
                            query topk mql) st1) as (st' & Hrun).
    rewrite Hrun, Hclock, <- app_assoc. eexists. reflexivity.
Qed.
End GatherFacts.

(** X14.  In multi-index mode, when every line of the generator's
    selection names a configured index with a retriever of a supported
    class, [retrieve] returns the passages of the named indices, line after
    line in the order of the selection, an index named twice being asked
    twice; the first retriever is asked right after the generator. *)
Theorem retrieve_multi_gathers_in_selection_order :
  forall {F : Type} `{Float F} (W : Backend F) (self : RAG F)
         (retrievers : dict RetrieverEntry) (query : str)
         (topk max_query_length : Z) (st : State),
    gateway self = Some (true, retrievers) ->
    Forall (fun l => exists entry,
                dict_get retrievers (BasicRAG.index_name l) = Some entry
                /\ supported (entry_retriever entry) = true)
      (selected_lines W retrievers query st) ->
    exists st',
      BasicRAG.retrieve W self query topk max_query_length st
      = (Ok (gathered W retrievers query topk max_query_length
               (S (clock st)) (selected_lines W retrievers query st)),
         st').
Proof.
  intros F HF W self retrievers query topk mql st Hg Hall.
  unfold BasicRAG.retrieve. rewrite Hg.
  unfold bind at 1.
  set (st0 := snd (BasicRAG.incr_retrieve st)).
  assert (Hst0 : BasicRAG.incr_retrieve st = (Ok tt, st0)) by reflexivity.
  rewrite Hst0. cbv beta iota. change (negb true) with false. cbv iota.
  assert (Hsel : selected_lines W retrievers query st
                 = match BasicGenerator.generate W
                           (BasicRAG.selection_prompt query retrievers) 64
                           false false st0 with
                   | (Ok (PStr model_output :: _), _) =>
                       Py.split Py.newline (Py.strip model_output)
                   | _ => []
                   end) by reflexivity.
  destruct (generate_text_tuple W
              (BasicRAG.selection_prompt query retrievers) 64 false st0)
    as (text & Hgen).
  rewrite Hgen in Hsel.
  unfold bind at 1. rewrite Hgen. cbv beta iota.
  unfold bind at 1, lift. rewrite getitem_head. cbv beta iota.
  unfold bind at 1. simpl as_str. cbv beta iota.
  fold (gateway_body W retrievers query topk mql).
  rewrite <- Hsel.
  destruct (gateway_loop_gathers W retrievers query topk mql _ Hall []
              (after_generate W
                 (BasicRAG.selection_prompt query retrievers) 64 false st0))
    as (st' & Hrun).
  assert (Hclock : clock (after_generate W
                            (BasicRAG.selection_prompt query retrievers)
                            64 false st0) = S (clock st)).
  { unfold after_generate, clock. subst st0. simpl.
    rewrite length_app. simpl. lia. }
  rewrite Hclock in Hrun. exists st'. exact Hrun.
Qed.

(** X14 at work: the generator selects [news], then [wiki]. *)
Lemma retrieve_multi_gathers_in_selection_order_witness :
  let W := Toy.world_saying (py "- news" ++ [Py.newline] ++ py "- wiki") in
  let self := Toy.rag (Toy.with_retrievers [Toy.wiki; Toy.news]) in
  let retrievers :=
    [(py "wiki",
      {| entry_description := py "Wikipedia";
         entry_retriever := BM25 [] |});
     (py "news",
      {| entry_description := py "News";
         entry_retriever := SGPT [] |})] in
  exists st',
    BasicRAG.retrieve W self (py "q") 1 64 Toy.st0
    = (Ok (gathered W retrievers (py "q") 1 64 1
             [py "- news"; py "- wiki"]), st').
Proof.
  intros W self retrievers.
  apply (retrieve_multi_gathers_in_selection_order W self retrievers
           (py "q") 1 64 Toy.st0 eq_refl).
  repeat constructor; eexists; split; reflexivity.
Defined.

(* ================================================================== *)
(** * Further properties: the reformulation of the query *)
(* ================================================================== *)

(** X15.  [fetch_last_n_tokens] returns the text itself when [num] is at
    least the number of its tokens.  Otherwise it joins the tokens from
    index [-num] on: the last [num] tokens for a positive [num]; all the
    tokens, not none, for [num = 0]; and the tokens after the first
    [-num] for a negative [num]. *)
Theorem fetch_last_n_tokens_by_cases :
  forall {F : Type} `{Float F} (W : Backend F) (text : str) (num : Z),
    let tokens := tokenize W text in
    AttnWeightRAG.fetch_last_n_tokens W text num
    = if Py.len tokens <=? num then text
      else if 0 <? num
      then Py.join [Py.space]
             (skipn (List.length tokens - Z.to_nat num) tokens)
      else if num =? 0 then Py.join [Py.space] tokens
      else Py.join [Py.space] (skipn (Z.to_nat (- num)) tokens).
Proof.
  intros F HF W text num tokens.
  unfold AttnWeightRAG.fetch_last_n_tokens. fold tokens.
  destruct (Py.len tokens <=? num) eqn:Hlen; [reflexivity|].
  apply Z.leb_gt in Hlen. unfold Py.len in Hlen.
  unfold Py.slice, Py.clip, Py.len.
  destruct (0 <? num) eqn:Hpos.
  - apply Z.ltb_lt in Hpos.
    assert (Hneg : (- num <? 0) = true) by (apply Z.ltb_lt; lia).
    rewrite Hneg. f_equal.
    replace (Z.to_nat (Z.max (- num + Z.of_nat (List.length tokens)) 0))
      with (List.length tokens - Z.to_nat num)%nat by lia.
    apply firstn_all2. rewrite length_skipn. lia.
  - apply Z.ltb_ge in Hpos.
    assert (Hneg : (- num <? 0) = false) by (apply Z.ltb_ge; lia).
    rewrite Hneg.
    destruct (num =? 0) eqn:Hz; f_equal.
    + apply Z.eqb_eq in Hz. subst num. simpl Z.opp.
      rewrite Z.min_l by lia. simpl.
      rewrite Nat.sub_0_r. apply firstn_all.
    + apply Z.eqb_neq in Hz.
      rewrite firstn_all2 by (rewrite length_skipn; lia).
      destruct (Z.le_gt_cases (- num) (Z.of_nat (List.length tokens)))
        as [Hle|Hgt].
      * rewrite Z.min_l by lia. reflexivity.
      * rewrite Z.min_r by lia. rewrite Nat2Z.id.
        rewrite skipn_all. symmetry. apply skipn_all2. lia.
Qed.

(** X16.  [keep_real_words] needs one of [retrieve_keep_top_k] and
    [retrieve_keep_ratio]: with neither of them configured, [top_k] is
    never bound and no call returns a query. *)
Theorem keep_real_words_needs_a_keep_option :
  forall {F : Type} `{Float F} (W : Backend F) (self : RAG F)
         (prev_text : str) (curr_tokens : list str) (curr_hit : list Z)
         (st : State),
    retrieve_keep_top_k (args self) = None ->
    retrieve_keep_ratio (args self) = None ->
    forall q st',
      AttnWeightRAG.keep_real_words W self prev_text curr_tokens curr_hit st
      <> (Ok q, st').
Proof.
  intros F HF W self prev_text curr_tokens curr_hit st HK HR q st' Hrun.
  apply keep_real_words_inv in Hrun.
  destruct Hrun as (real_pairs & top_k & _ & _ & Htop & _).
  unfold AttnWeightRAG.top_k_of in Htop. rewrite HK, HR in Htop.
  discriminate.
Qed.

(** X16 at work: the call raises [UnboundLocalError]. *)
Lemma keep_real_words_needs_a_keep_option_witness :
  fst (AttnWeightRAG.keep_real_words Toy.world (Toy.rag Toy.without_keep)
         (py "the cat") [py "sat"; py "down"] [1; 0] Toy.st0)
  = Raise UnboundLocalError
  /\ AttnWeightRAG.keep_real_words Toy.world (Toy.rag Toy.without_keep)
       (py "the cat") [py "sat"; py "down"] [1; 0] Toy.st0
     <> (Ok (py "the cat"), Toy.st0).
Proof.
  split; [reflexivity|].
  exact (keep_real_words_needs_a_keep_option Toy.world
           (Toy.rag Toy.without_keep) (py "the cat")
           [py "sat"; py "down"] [1; 0] Toy.st0 eq_refl eq_refl
           (py "the cat") Toy.st0).
Defined.

(* ================================================================== *)
(** * Further properties: the entity-level detector *)
(* ================================================================== *)

Lemma map_result_in {A B} (f : A -> result B) (g : A -> B) (xs : list A) :
  (forall x, In x xs -> f x = Ok (g x)) ->
  map_result f xs = Ok (map g xs).
Proof.
  induction xs as [|x xs IH]; intros Hf; simpl; [reflexivity|].
  rewrite (Hf x) by now left. simpl.
  rewrite IH by (intros y Hy; apply Hf; now right). reflexivity.
Qed.

Lemma combine_nil_fst {A B C} (xs : list A) (ys : list C) :
  Forall (fun pe : list B * C => fst pe = [])
    (combine (map (fun _ => []) xs) ys).
Proof.
  revert ys. induction xs as [|x xs IH]; intros [|y ys]; simpl;
    constructor; [reflexivity|apply IH].
Qed.

Section EntityFacts.
Context {F : Type} `{Float F} (W : Backend F).

(** Sentences without entity probabilities are passed over. *)
Lemma entity_detect_skips self text sentences :
  forall todo sid,
    Forall (fun pe : list F * list str => fst pe = []) todo ->
    EntityRAG.detect self text sentences todo sid = Ok (text, None, false).
Proof.
  induction todo as [|[probs ents] todo IH]; intros sid Hall;
    cbn [EntityRAG.detect]; [reflexivity|].
  inversion Hall as [|? ? Hp Hrest]; subst. simpl in Hp. subst probs.
  simpl. now apply IH.
Qed.

Lemma setitem_raises {A} (l : list A) i v e :
  setitem l i v = Raise e -> e = IndexError.
Proof.
  unfold setitem.
  destruct ((0 <=? i) && (i <? Py.len l)); [discriminate|].
  destruct ((i <? 0) && (- Py.len l <=? i)); [discriminate|].
  intros Hr. now inversion Hr.
Qed.

Lemma fill_raises n :
  forall j tid belonging e,
    EntityRAG.fill n j tid belonging = Raise e -> e = IndexError.
Proof.
  induction n as [|n IH]; intros j tid belonging e; simpl; [discriminate|].
  destruct (setitem belonging j tid) as [b|e'] eqn:Hs; simpl.
  - apply IH.
  - intros Hr. inversion Hr; subst. now apply setitem_raises in Hs.
Qed.

Lemma find_empty (s : str) : Py.find s [] = 0.
Proof. destruct s; reflexivity. Qed.

(** After the first position, the assertion of the alignment never
    fails. *)
Lemma own_no_assertion text :
  forall tokens pos belonging,
    0 < pos ->
    EntityRAG.own text tokens pos belonging <> Raise AssertionError.
Proof.
  induction tokens as [|[tid tok] tokens IH]; intros pos belonging Hpos;
    cbn [EntityRAG.own]; [discriminate|].
  cbv zeta.
  pose proof (find_lower_bound (Py.slice (Some pos) None text) tok) as Hlb.
  destruct (Py.find (Py.slice (Some pos) None text) tok + pos =? -1)
    eqn:Hapr; [apply Z.eqb_eq in Hapr; lia|].
  destruct (EntityRAG.fill _ pos (Z.of_nat tid) belonging) as [b|e] eqn:Hf;
    cbn [rbind].
  - apply IH.
    destruct (Z.eq_dec (Py.find (Py.slice (Some pos) None text) tok) (-1))
      as [Hmiss|Hfound].
    + destruct tok as [|c tok]; [rewrite find_empty in Hmiss; lia|].
      unfold Py.len. simpl List.length. lia.
    + unfold Py.len. lia.
  - apply fill_raises in Hf. subst e. discriminate.
Qed.

Lemma set_nth_length {A} (l : list A) :
  forall i v, List.length (set_nth l i v) = List.length l.
Proof.
  induction l as [|x l IH]; intros [|i] v; simpl; try reflexivity.
  now rewrite IH.
Qed.

Lemma set_nth_forall {A} (P : A -> Prop) (l : list A) :
  forall i v, P v -> Forall P l -> Forall P (set_nth l i v).
Proof.
  induction l as [|x l IH]; intros [|i] v Hv Hall; simpl;
    try constructor; inversion Hall; subst; auto.
Qed.

Lemma setitem_keeps {A} (P : A -> Prop) (l l' : list A) i v :
  setitem l i v = Ok l' -> P v -> Forall P l ->
  List.length l' = List.length l /\ Forall P l'.
Proof.
  unfold setitem.
  destruct ((0 <=? i) && (i <? Py.len l)).
  - intros Hs; inversion Hs; subst. intros Hv Hall.
    split; [apply set_nth_length|now apply set_nth_forall].
  - destruct ((i <? 0) && (- Py.len l <=? i)); [|discriminate].
    intros Hs; inversion Hs; subst. intros Hv Hall.
    split; [apply set_nth_length|now apply set_nth_forall].
Qed.

Lemma fill_keeps (P : Z -> Prop) n :
  forall j tid belonging b,
    EntityRAG.fill n j tid belonging = Ok b -> P tid -> Forall P belonging ->
    List.length b = List.length belonging /\ Forall P b.
Proof.
  induction n as [|n IH]; intros j tid belonging b; simpl.
  - intros Hb; inversion Hb; subst. auto.
  - destruct (setitem belonging j tid) as [b1|] eqn:Hs; simpl;
      [|discriminate].
    intros Hb Hv Hall.
    destruct (setitem_keeps P _ _ _ _ Hs Hv Hall) as (Hl1 & Hall1).
    destruct (IH _ _ _ _ Hb Hv Hall1) as (Hl & Hall').
    split; [congruence|exact Hall'].
Qed.

Lemma own_keeps (P : Z -> Prop) text :
  forall tokens pos belonging b,
    EntityRAG.own text tokens pos belonging = Ok b ->
    Forall (fun it : nat * str => P (Z.of_nat (fst it))) tokens ->
    Forall P belonging ->
    List.length b = List.length belonging /\ Forall P b.
Proof.
  induction tokens as [|[tid tok] tokens IH]; intros pos belonging b;
    cbn [EntityRAG.own].
  - intros Hb; inversion Hb; subst. auto.
  - cbv zeta.
    destruct (_ =? -1); [discriminate|].
    destruct (EntityRAG.fill _ pos (Z.of_nat tid) belonging) as [b1|]
      eqn:Hf; cbn [rbind]; [|discriminate].
    intros Hb Htoks Hall. inversion Htoks as [|? ? Htid Hrest]; subst.
    destruct (fill_keeps P _ _ _ _ _ Hf Htid Hall) as (Hl1 & Hall1).
    destruct (IH _ _ _ Hb Hrest Hall1) as (Hl & Hall').
    split; [congruence|exact Hall'].
Qed.
End EntityFacts.

(** X17.  On a text in whose sentences no entity is recognised,
    [EntityRAG.modifier] flags nothing: once the tokens are aligned with
    the text it returns [(text, None, False)], whatever the log
    probabilities, the policies and the threshold; only the alignment can
    raise. *)
Theorem entity_modifier_without_entities_never_flags :
  forall {F : Type} `{Float F} (W : Backend F) (self : RAG F) (text : str)
         (tokens : list str) (logprobs : list F),
    (forall sent, In sent (BasicRAG.nonempty_stripped_sentences W text) ->
                  ents W sent = []) ->
    EntityRAG.modifier W self text tokens logprobs
    = rbind (EntityRAG.belonging_of text tokens)
        (fun _ => Ok (text, None, false)).
Proof.
  intros F HF W self text tokens logprobs Hnone.
  unfold EntityRAG.modifier, EntityRAG.entity_intv_of.
  set (sentences := BasicRAG.nonempty_stripped_sentences W text) in *.
  destruct (EntityRAG.belonging_of text tokens) as [belonging|e];
    cbn [rbind]; [|reflexivity].
  assert (Hent : EntityRAG.entity_of W sentences
                 = map (fun _ => []) sentences).
  { unfold EntityRAG.entity_of. apply map_ext_in. exact Hnone. }
  rewrite Hent.
  rewrite (map_result_in _ (fun _ => [])).
  - cbn [rbind]. unfold EntityRAG.entity_prob_of.
    rewrite (map_result_in _ (fun _ => [])).
    + cbn [rbind]. apply entity_detect_skips, combine_nil_fst.
    + intros itvs Hin. apply in_map_iff in Hin.
      destruct Hin as (x & <- & _). reflexivity.
  - intros [sent es] Hin. apply in_combine_r in Hin.
    apply in_map_iff in Hin. destruct Hin as (x & <- & _). reflexivity.
Qed.

(** X17 at work: the toy recogniser knows [Paris] only. *)
Lemma entity_modifier_without_entities_never_flags_witness :
  EntityRAG.modifier Toy.world (Toy.rag Toy.args0) (py "Rome is big.")
    [py "Rome"; py " is"; py " big"; py "."]
    [Fin (-3); Fin (-3); Fin (-3); Fin (-3)]
  = rbind (EntityRAG.belonging_of (py "Rome is big.")
             [py "Rome"; py " is"; py " big"; py "."])
      (fun _ => Ok (py "Rome is big.", None, false)).
Proof.
  apply (entity_modifier_without_entities_never_flags Toy.world
           (Toy.rag Toy.args0)).
  intros sent [<-|[]]. reflexivity.
Defined.

(** X18.  The assertion of the alignment in [EntityRAG.modifier] guards
    the first token only.  From the second token on, a token that does not
    occur in the rest of the text passes it: the position found is
    [-1 + pos], which is not [-1].  So when the first token is not empty
    and occurs in the text, the alignment never raises [AssertionError],
    whatever the other tokens are. *)
Theorem entity_alignment_assertion_guards_first_token_only :
  forall (text : str) (tok : str) (rest : list str),
    tok <> [] ->
    Py.find text tok <> -1 ->
    EntityRAG.belonging_of text (tok :: rest) <> Raise AssertionError.
Proof.
  intros text tok rest Htok Hfound.
  unfold EntityRAG.belonging_of, enumerate.
  cbn [enumerate_from EntityRAG.own]. cbv zeta.
  assert (Hs : Py.slice (Some 0) None text = text)
    by (apply (slice_from_nat O text); lia).
  rewrite !Hs, !Z.add_0_r.
  destruct (Py.find text tok =? -1) eqn:Hapr;
    [apply Z.eqb_eq in Hapr; contradiction|].
  destruct (EntityRAG.fill _ 0 (Z.of_nat 0) _) as [b|e] eqn:Hf;
    cbn [rbind].
  - apply own_no_assertion.
    pose proof (find_lower_bound text tok).
    destruct tok as [|c tok]; [congruence|].
    unfold Py.len. simpl List.length. lia.
  - apply fill_raises in Hf. subst e. discriminate.
Qed.

(** X18 at work: the second token [zzz] is not in the text, and what the
    alignment raises is an [IndexError]. *)
Lemma entity_alignment_assertion_guards_first_token_only_witness :
  EntityRAG.belonging_of (py "ab") [py "a"; py "zzz"] = Raise IndexError
  /\ EntityRAG.belonging_of (py "ab") [py "a"; py "zzz"]
     <> Raise AssertionError.
Proof.
  split; [reflexivity|].
  apply (entity_alignment_assertion_guards_first_token_only (py "ab")
           (py "a") [py "zzz"]); discriminate.
Defined.

(** X19.  When the alignment of [EntityRAG.modifier] returns, every
    character of the text has an owner: the list it built is as long as
    the text, and each entry is [-1] (no token reached the character) or
    the index of one of the tokens. *)
Theorem entity_alignment_owners_are_token_indices :
  forall (text : str) (tokens : list str) (belonging : list Z),
    EntityRAG.belonging_of text tokens = Ok belonging ->
    List.length belonging = List.length text
    /\ Forall (fun tid => tid = -1 \/ 0 <= tid < Py.len tokens) belonging.
Proof.
  intros text tokens belonging Hb. unfold EntityRAG.belonging_of in Hb.
  destruct (own_keeps (fun tid => tid = -1 \/ 0 <= tid < Py.len tokens)
              text _ _ _ _ Hb) as (Hl & Hall).
  - apply Forall_forall. intros [i tok] Hin.
    apply enumerate_from_in in Hin. destruct Hin as (_ & Hnth).
    assert (Hi : (i - 0 < List.length tokens)%nat)
      by (apply nth_error_Some; congruence).
    right. unfold Py.len. simpl. lia.
  - apply Forall_forall. intros z Hz. apply repeat_spec in Hz. now left.
  - rewrite repeat_length in Hl. split; [exact Hl|exact Hall].
Qed.

(** X19 at work: two tokens over a text of three characters. *)
Lemma entity_alignment_owners_are_token_indices_witness :
  EntityRAG.belonging_of (py "a b") [py "a"; py "b"] = Ok [0; 1; 1]
  /\ List.length [0; 1; 1] = List.length (py "a b")
  /\ Forall (fun tid => tid = -1 \/ 0 <= tid < 2) [0; 1; 1].
Proof.
  split; [reflexivity|].
  exact (entity_alignment_owners_are_token_indices (py "a b")
           [py "a"; py "b"] [0; 1; 1] eq_refl).
Defined.

(* ================================================================== *)
(** * Further properties: sentences and the generation counter *)
(* ================================================================== *)

Lemma filter_nil_iff {A} (p : A -> bool) (l : list A) :
  filter p l = [] <-> Forall (fun x => p x = false) l.
Proof.
  induction l as [|x l IH]; simpl.
  - split; [constructor|reflexivity].
  - destruct (p x) eqn:Hp.
    + split; [discriminate|]. intros Hall. inversion Hall; congruence.
    + rewrite IH. split.
      * intros Hall. now constructor.
      * intros Hall. now inversion Hall.
Qed.

Lemma len_pos_false_iff {A} (l : list A) : (0 <? Py.len l) = false <-> l = [].
Proof.
  unfold Py.len. destruct l; simpl.
  - split; reflexivity.
  - split; [|discriminate]. intros Hl. apply Z.ltb_ge in Hl. lia.
Qed.

Lemma filter_first {A} (p : A -> bool) (l : list A) :
  (filter p l = [] /\ Forall (fun x => p x = false) l)
  \/ (exists before x after,
         l = before ++ x :: after
         /\ Forall (fun y => p y = false) before
         /\ p x = true
         /\ filter p l = x :: filter p after).
Proof.
  induction l as [|y l IH]; simpl.
  - left. split; [reflexivity|constructor].
  - destruct (p y) eqn:Hy.
    + right. exists [], y, l. repeat split; auto.
    + destruct IH as [(Hnil & Hall)|(before & x & after & -> & Hb & Hx & Hf)].
      * left. split; [exact Hnil|now constructor].
      * right. exists (y :: before), x, after.
        repeat split; auto.
Qed.

Lemma filter_final {A} (p : A -> bool) (l : list A) :
  (filter p l = [] /\ Forall (fun x => p x = false) l)
  \/ (exists before x after,
         l = before ++ x :: after
         /\ Forall (fun y => p y = false) after
         /\ p x = true
         /\ filter p l = filter p before ++ [x]).
Proof.
  induction l as [|y l IH]; simpl.
  - left. split; [reflexivity|constructor].
  - destruct IH as [(Hnil & Hall)|(before & x & after & -> & Ha & Hx & Hf)].
    + destruct (p y) eqn:Hy.
      * right. exists [], y, l. rewrite Hnil. repeat split; auto.
      * left. split; [exact Hnil|now constructor].
    + right. exists (y :: before), x, after.
      rewrite Hf. simpl. destruct (p y); repeat split; auto.
Qed.

(** X20.  [get_top_sentence] returns the first and [get_last_sentence] the
    last of the stripped sentences that are not empty.  Either every
    stripped sentence of the text is empty (or there is none), and both
    return the empty string; or neither returns the empty string, the
    first returns a stripped sentence before which all stripped sentences
    are empty, and the second a stripped sentence after which all are. *)
Theorem top_and_last_sentence_are_first_and_last :
  forall {F : Type} `{Float F} (W : Backend F) (text : str),
    let stripped := map Py.strip (sents W text) in
    let top := BasicRAG.get_top_sentence W text in
    let final := BasicRAG.get_last_sentence W text in
    (Forall (fun s => s = []) stripped /\ top = [] /\ final = [])
    \/ (top <> [] /\ final <> []
        /\ (exists before after,
               stripped = before ++ top :: after
               /\ Forall (fun s => s = []) before)
        /\ (exists before after,
               stripped = before ++ final :: after
               /\ Forall (fun s => s = []) after)).
Proof.
  intros F HF W text stripped top final.
  subst top final. unfold BasicRAG.get_top_sentence,
    BasicRAG.get_last_sentence, BasicRAG.nonempty_stripped_sentences.
  fold stripped. clearbody stripped.
  assert (Hblank : forall l : list str,
             Forall (fun s => (0 <? Py.len s) = false) l ->
             Forall (fun s => s = []) l).
  { intros l Hall. eapply Forall_impl; [|exact Hall].
    intros s Hs. now apply len_pos_false_iff. }
  assert (Hfull : forall s : str, (0 <? Py.len s) = true -> s <> []).
  { intros s Hs ->. discriminate. }
  destruct (filter_first (A := list Py.char)
              (fun sent => 0 <? Py.len sent) stripped)
    as [(Hnil & Hall)|(b1 & x1 & a1 & Hs1 & Hb1 & Hx1 & Hf1)].
  - left. rewrite Hnil. split; [now apply Hblank|split; reflexivity].
  - right.
    destruct (filter_final (A := list Py.char)
                (fun sent => 0 <? Py.len sent) stripped)
      as [(Hnil & _)|(b2 & x2 & a2 & Hs2 & Ha2 & Hx2 & Hf2)];
      [rewrite Hnil in Hf1; discriminate|].
    rewrite Hf2, last_last.
    rewrite Hf2 in Hf1. rewrite Hf1. cbn [hd].
    split; [now apply Hfull|]. split; [now apply Hfull|]. split.
    + exists b1, a1. split; [exact Hs1|now apply Hblank].
    + exists b2, a2. split; [exact Hs2|now apply Hblank].
Qed.

(** X20 at work: the toy pipeline on three sentences. *)
Example top_and_last_sentence_of_three :
  BasicRAG.get_top_sentence Toy.world (py "One. Two. Three.") = py "One."
  /\ BasicRAG.get_last_sentence Toy.world (py "One. Two. Three.")
     = py "Three.".
Proof. vm_compute. split; reflexivity. Qed.

Section Uncounted.
Context {F : Type} `{Float F} (W : Backend F).

Lemma gains_ret {A} (a : A) : gains 0 (ret a).
Proof. intros st. simpl. lia. Qed.

Lemma gains_raise {A} (e : exn) : gains 0 (@raise A e).
Proof. intros st. simpl. lia. Qed.

Lemma gains_lift {A} (r : result A) : gains 0 (lift r).
Proof. intros st. simpl. lia. Qed.

Lemma gains_weaken {A} (d d' : Z) (m : M A) :
  gains d m -> d' <= d -> gains d' m.
Proof. intros Hm Hd st. specialize (Hm st). lia. Qed.

Lemma gains_bind {A B} (dm dk : Z) (m : M A) (k : A -> M B) :
  gains dm m -> (forall a, gains dk (k a)) -> dk <= 0 ->
  gains (dm + dk) (bind m k).
Proof.
  intros Hm Hk Hd st. unfold bind. specialize (Hm st).
  destruct (m st) as [[a|e] st1]; simpl in *.
  - specialize (Hk a st1). lia.
  - lia.
Qed.

Lemma gains_bind_pos {A B} (dm dk : Z) (m : M A) (k : A -> M B) :
  gains dm m -> (forall a, gains dk (k a)) -> 0 <= dk ->
  gains dm (bind m k).
Proof.
  intros Hm Hk Hd st. unfold bind. specialize (Hm st).
  destruct (m st) as [[a|e] st1]; simpl in *.
  - specialize (Hk a st1). lia.
  - lia.
Qed.

Lemma gains_generate input_text max_length enable_thinking return_logprobs :
  gains 1 (BasicGenerator.generate W input_text max_length enable_thinking
             return_logprobs).
Proof.
  intros st.
  destruct (generate_unpack3 W input_text max_length enable_thinking
              return_logprobs st) as (t & Hg & _).
  rewrite Hg. simpl snd.
  destruct (after_generate_effect W input_text max_length enable_thinking
              st) as (Hgen & _ & Hc).
  unfold uncounted. rewrite Hgen, Hc. lia.
Qed.

Lemma gains_forward {A} ids (answer : nat -> A) :
  gains 0 (request (EvForward ids) answer).
Proof.
  intros st. unfold request, uncounted, generations, Py.len. simpl.
  rewrite filter_app, length_app. simpl. lia.
Qed.

Lemma gains_search {A} r q k (answer : nat -> A) :
  gains 0 (request (EvSearch r q k) answer).
Proof.
  intros st. unfold request, uncounted, generations, Py.len. simpl.
  rewrite filter_app, length_app. simpl. lia.
Qed.

Lemma gains_incr_retrieve : gains 0 BasicRAG.incr_retrieve.
Proof. intros st. unfold uncounted, generations. simpl. lia. Qed.

Lemma gains_incr_hallucinated : gains 0 BasicRAG.incr_hallucinated.
Proof. intros st. unfold uncounted, generations. simpl. lia. Qed.

Lemma gains_add_generate text : gains (-1) (BasicRAG.add_generate W text).
Proof. intros st. unfold uncounted, generations. simpl. lia. Qed.

Lemma gains_count_generate (self : RAG F) text :
  gains (-1) (BasicRAG.count_generate W self text).
Proof.
  unfold BasicRAG.count_generate. destruct (use_counter (args self)).
  - apply gains_add_generate.
  - eapply gains_weaken; [apply gains_ret|lia].
Qed.

Lemma gains__retrieve query retriever topk mql :
  gains 0 (BasicRAG._retrieve W query retriever topk mql).
Proof.
  unfold BasicRAG._retrieve.
  apply (gains_bind 0 0); [apply gains_incr_retrieve| |lia].
  intros _.
  repeat match goal with
         | |- context [if ?b then _ else _] => destruct b
         end; try apply gains_search; apply gains_raise.
Qed.

Lemma gains_for_each {A B} (body : B -> A -> M B) xs :
  (forall acc x, gains 0 (body acc x)) ->
  forall acc, gains 0 (for_each xs acc body).
Proof.
  intros Hbody. induction xs as [|x xs IH]; intros acc; simpl.
  - apply gains_ret.
  - apply (gains_bind 0 0); [apply Hbody|apply IH|lia].
Qed.

Lemma gains_retrieve self query topk mql :
  gains 0 (BasicRAG.retrieve W self query topk mql).
Proof.
  unfold BasicRAG.retrieve.
  apply (gains_bind 0 0); [apply gains_incr_retrieve| |lia].
  intros _. destruct (gateway self) as [[multi retrievers]|];
    [|apply gains_raise].
  destruct (negb multi).
  - apply (gains_bind 0 0); [apply gains_lift| |lia]. intros name.
    apply (gains_bind 0 0); [apply gains_lift| |lia]. intros entry.
    apply gains__retrieve.
  - apply (gains_weaken 1 0); [|lia].
    apply (gains_bind_pos 1 0); [apply gains_generate| |lia]. intros t.
    apply (gains_bind 0 0); [apply gains_lift| |lia]. intros first.
    apply (gains_bind 0 0); [apply gains_lift| |lia]. intros out.
    apply gains_for_each. intros docs line.
    apply (gains_bind 0 0); [apply gains_lift| |lia]. intros entry.
    apply (gains_bind 0 0); [apply gains__retrieve| |lia]. intros more.
    apply gains_ret.
Qed.

Lemma gains_generate_attn input_text max_length solver use_entropy
    use_logprob :
  gains 1 (BasicGenerator.generate_attn W input_text max_length solver
             use_entropy use_logprob).
Proof.
  unfold BasicGenerator.generate_attn.
  apply (gains_bind_pos 1 0); [apply gains_generate| |lia]. intros t.
  apply (gains_bind 0 0); [apply gains_lift| |lia].
  intros [[[text ids] lps] outputs].
  apply (gains_bind 0 0); [apply gains_lift| |lia]. intros text'.
  apply (gains_bind 0 0); [apply gains_lift| |lia]. intros ids'.
  apply (gains_bind 0 0); [apply gains_lift| |lia]. intros lps'.
  apply (gains_bind 0 0); [apply gains_lift| |lia]. intros ids0.
  apply (gains_bind 0 0); [apply gains_forward| |lia]. intros atten.
  apply (gains_bind 0 0); [apply gains_lift| |lia]. intros mean_atten.
  apply (gains_bind 0 0);
    [destruct use_entropy; [apply gains_raise|apply gains_ret]| |lia].
  intros ent. apply gains_ret.
Qed.

Lemma gains_keep_real_words self prev_text curr_tokens curr_hit :
  gains 0 (AttnWeightRAG.keep_real_words W self prev_text curr_tokens
             curr_hit).
Proof.
  unfold AttnWeightRAG.keep_real_words.
  apply (gains_bind 0 0); [apply gains_forward| |lia]. intros atten.
  apply (gains_bind 0 0); [apply gains_lift| |lia]. intros attns.
  apply (gains_bind 0 0); [apply gains_lift| |lia]. intros [fa hit_cnt].
  apply (gains_bind 0 0); [apply gains_lift| |lia]. intros real_pairs.
  apply (gains_bind 0 0); [apply gains_lift| |lia]. intros top_k.
  apply gains_ret.
Qed.

Lemma gains_formulate self question text ptext curr_tokens curr_hit :
  gains 0 (AttnWeightRAG.formulate W self question text ptext curr_tokens
             curr_hit).
Proof.
  unfold AttnWeightRAG.formulate.
  repeat match goal with
         | |- context [if ?b then _ else _] => destruct b
         end; try apply gains_ret; try apply gains_raise;
    try apply gains_keep_real_words.
  destruct (retrieve_keep_top_k (args self));
    [apply gains_ret|apply gains_raise].
Qed.

Lemma gains_count_hallucinated (self : RAG F) text :
  gains (-1)
    (if use_counter (args self)
     then bind (BasicRAG.add_generate W text)
            (fun _ => BasicRAG.incr_hallucinated)
     else ret tt).
Proof.
  destruct (use_counter (args self)).
  - apply (gains_bind (-1) 0);
      [apply gains_add_generate|intros _; apply gains_incr_hallucinated|lia].
  - apply (gains_weaken 0); [apply gains_ret|lia].
Qed.

Lemma gains_attn_iteration self question demo case text :
  gains 0 (AttnWeightRAG.iteration W self question demo case text).
Proof.
  unfold AttnWeightRAG.iteration.
  apply (gains_bind 1 (-1)); [apply gains_generate_attn| |lia].
  intros [[[[new_text tokens] attns] logprobs] entropies].
  apply (gains_bind 0 (-1)); [|intros weight|lia].
  { destruct (Py.eqb (method (args self)) (py "dragin")).
    - destruct entropies; [apply gains_ret|apply gains_raise].
    - destruct logprobs; [apply gains_ret|apply gains_raise]. }
  apply (gains_bind_pos (-1) 0); [apply gains_count_generate| |lia].
  intros _.
  apply (gains_bind 0 0); [apply gains_lift| |lia].
  intros [[[hallucination ptext] curr_tokens] curr_hit].
  destruct (negb hallucination); [apply gains_ret|].
  apply (gains_bind 0 0); [apply gains_lift| |lia]. intros ct.
  apply (gains_bind 0 0); [apply gains_lift| |lia]. intros ch.
  apply (gains_bind 0 0); [apply gains_formulate| |lia]. intros rq.
  apply (gains_bind 0 0); [apply gains_retrieve| |lia]. intros docs.
  apply (gains_bind 1 (-1)); [apply gains_generate| |lia]. intros t.
  apply (gains_bind 0 (-1)); [apply gains_lift| |lia].
  intros [[[new_text' x] y] z].
  apply (gains_bind 0 (-1)); [apply gains_lift| |lia]. intros nt.
  apply (gains_bind (-1) 0); [apply gains_count_hallucinated| |lia].
  intros _. apply gains_ret.
Qed.

Lemma gains_attn_loop self question demo case fuel :
  forall text,
    gains 0 (AttnWeightRAG.loop W self question demo case fuel text).
Proof.
  induction fuel as [|fuel IH]; intros text; simpl; [apply gains_ret|].
  apply (gains_bind 0 0); [apply gains_attn_iteration| |lia].
  intros text'. destruct (BasicRAG.stop W self (Py.len text) text');
    [apply gains_ret|apply IH].
Qed.

Lemma gains_token_iteration modifier_of_self self question demo case text :
  gains 0 (TokenRAG.iteration W modifier_of_self self question demo case
             text).
Proof.
  unfold TokenRAG.iteration.
  apply (gains_bind 1 (-1)); [apply gains_generate| |lia]. intros t.
  apply (gains_bind 0 (-1)); [apply gains_lift| |lia].
  intros [[new_text tokens] logprobs].
  apply (gains_bind 0 (-1)); [apply gains_lift| |lia]. intros nt.
  apply (gains_bind 0 (-1)); [apply gains_lift| |lia]. intros toks.
  apply (gains_bind 0 (-1)); [apply gains_lift| |lia]. intros lps.
  apply (gains_bind_pos (-1) 0); [apply gains_count_generate| |lia].
  intros _.
  apply (gains_bind 0 0); [apply gains_lift| |lia].
  intros [[ptext curr] hallucination].
  destruct (negb hallucination); [apply gains_ret|].
  apply (gains_bind 0 0); [|intros rq|lia].
  { destruct (Py.eqb (query_formulation (args self)) (py "direct"));
      [destruct curr; [apply gains_ret|apply gains_raise]|].
    destruct (Py.eqb (query_formulation (args self)) (py "forward_all"));
      [apply gains_ret|apply gains_raise]. }
  apply (gains_bind 0 0); [apply gains_retrieve| |lia]. intros docs.
  apply (gains_bind 1 (-1)); [apply gains_generate| |lia]. intros t'.
  apply (gains_bind 0 (-1)); [apply gains_lift| |lia].
  intros [[new_text' x] y].
  apply (gains_bind 0 (-1)); [apply gains_lift| |lia]. intros nt'.
  apply (gains_bind (-1) 0); [apply gains_count_hallucinated| |lia].
  intros _. apply gains_ret.
Qed.

Lemma gains_token_loop modifier_of_self self question demo case fuel :
  forall text,
    gains 0 (TokenRAG.loop W modifier_of_self self question demo case fuel
               text).
Proof.
  induction fuel as [|fuel IH]; intros text; simpl; [apply gains_ret|].
  apply (gains_bind 0 0); [apply gains_token_iteration| |lia].
  intros text'. destruct (BasicRAG.stop W self (Py.len text) text');
    [apply gains_ret|apply IH].
Qed.

Lemma gains_fixlength_loop self demo case fuel :
  forall text retrieve_question,
    gains 0 (FixLengthRAG.loop W self demo case fuel text
               retrieve_question).
Proof.
  induction fuel as [|fuel IH]; intros text rq; simpl; [apply gains_ret|].
  apply (gains_bind 0 0); [| |lia].
  - unfold FixLengthRAG.iteration.
    apply (gains_bind 0 0); [apply gains_retrieve| |lia]. intros docs.
    destruct (Py.eqb (method (args self)) (py "fix-length-retrieval")).
    + apply (gains_bind 1 (-1)); [apply gains_generate| |lia]. intros t.
      apply (gains_bind 0 (-1)); [apply gains_lift| |lia].
      intros [[new_text x] y].
      apply (gains_bind 0 (-1)); [apply gains_lift| |lia]. intros nt.
      apply (gains_bind (-1) 0); [apply gains_count_generate| |lia].
      intros _. apply gains_ret.
    + apply (gains_bind 1 (-1)); [apply gains_generate| |lia]. intros t.
      apply (gains_bind 0 (-1)); [apply gains_lift| |lia].
      intros [[new_text x] y].
      apply (gains_bind 0 (-1)); [apply gains_lift| |lia]. intros nt.
      apply (gains_bind (-1) 0); [apply gains_count_generate| |lia].
      intros _. destruct (map Py.strip _); apply gains_ret.
  - intros [[text' rq'] broke]. destruct broke; [apply gains_ret|].
    destruct (BasicRAG.stop W self (Py.len text) text');
      [apply gains_ret|apply IH].
Qed.

Lemma gains_basic_inference self question demo case :
  gains 0 (BasicRAG.inference W self question demo case).
Proof.
  unfold BasicRAG.inference.
  destruct (Py.eqb (query_formulation (args self)) (py "direct"));
    [|apply gains_raise].
  apply (gains_bind 1 (-1)); [apply gains_generate| |lia]. intros t.
  apply (gains_bind 0 (-1)); [apply gains_lift| |lia].
  intros [[[text x] y] z].
  apply (gains_bind 0 (-1)); [apply gains_lift| |lia]. intros nt.
  apply (gains_bind (-1) 0); [apply gains_count_generate| |lia].
  intros _. apply gains_ret.
Qed.

Lemma gains_single_inference self question demo case :
  gains 0 (SingleRAG.inference W self question demo case).
Proof.
  unfold SingleRAG.inference.
  destruct (Py.eqb (query_formulation (args self)) (py "direct"));
    [|apply gains_raise].
  apply (gains_bind 0 0); [| |lia].
  - unfold SingleRAG.documents.
    destruct (query_decomposition (args self)); [|apply gains_retrieve].
    apply (gains_bind 0 0); [| |lia].
    + unfold BasicRAG.decompose_query.
      apply (gains_weaken 1 0); [|lia].
      apply (gains_bind_pos 1 0); [apply gains_generate| |lia]. intros t.
      apply (gains_bind 0 0); [apply gains_lift| |lia].
      intros [[[text x] y] z].
      apply (gains_bind 0 0); [apply gains_lift| |lia]. intros nt.
      apply gains_ret.
    + intros subqueries. apply gains_for_each. intros docs subquery.
      apply (gains_bind 0 0); [apply gains_retrieve| |lia]. intros more.
      apply gains_ret.
  - intros docs.
    apply (gains_bind 0 0); [apply gains_raise| |lia]. intros et.
    apply (gains_bind 1 (-1)); [apply gains_generate| |lia]. intros t.
    apply (gains_bind 0 (-1)); [apply gains_lift| |lia].
    intros [[[text x] y] z].
    apply (gains_bind 0 (-1)); [apply gains_lift| |lia]. intros nt.
    apply (gains_bind (-1) 0); [apply gains_count_generate| |lia].
    intros _. apply gains_ret.
Qed.
End Uncounted.

(** X21.  No inference method counts a generation that it did not ask
    for: over a call of any of them, returning or raising,
    [counter.generate] rises by no more than the number of requests to
    [model.generate].  (It can rise by less: the selection of the indices
    in multi-index mode and the query decomposition are never counted, and
    nothing is with [use_counter] off.) *)
Theorem generate_counter_never_exceeds_generations :
  forall {F : Type} `{Float F} (W : Backend F) (self : RAG F)
         (question : str) (demo : list Demo) (case : str) (fuel : nat)
         (st : State),
    let counted_within (st' : State) :=
      Counter.generate (counter st') - Counter.generate (counter st)
      <= generations st' - generations st in
    counted_within (snd (BasicRAG.inference W self question demo case st))
    /\ counted_within
         (snd (SingleRAG.inference W self question demo case st))
    /\ counted_within
         (snd (FixLengthRAG.inference W self question demo case fuel st))
    /\ counted_within
         (snd (TokenRAG.inference W fuel self question demo case st))
    /\ counted_within
         (snd (EntityRAG.inference W fuel self question demo case st))
    /\ counted_within
         (snd (AttnWeightRAG.inference W fuel self question demo case st)).
Proof.
  intros F HF W self question demo case fuel st counted_within.
  subst counted_within. cbv beta.
  repeat split.
  - pose proof (gains_basic_inference W self question demo case st) as Hg.
    unfold uncounted in Hg. lia.
  - pose proof (gains_single_inference W self question demo case st) as Hg.
    unfold uncounted in Hg. lia.
  - unfold FixLengthRAG.inference.
    destruct (Py.eqb (query_formulation (args self)) (py "direct"));
      [|simpl; lia].
    pose proof (gains_fixlength_loop W self demo case fuel [] question st)
      as Hg.
    unfold uncounted in Hg. lia.
  - pose proof (gains_token_loop W (TokenRAG.modifier W) self question demo
                  case fuel [] st) as Hg.
    unfold uncounted in Hg.
    unfold TokenRAG.inference, TokenRAG.inference_with. lia.
  - pose proof (gains_token_loop W (EntityRAG.modifier W) self question
                  demo case fuel [] st) as Hg.
    unfold uncounted in Hg.
    unfold EntityRAG.inference, TokenRAG.inference_with. lia.
  - pose proof (gains_attn_loop W self question demo case fuel [] st) as Hg.
    unfold uncounted in Hg.
    unfold AttnWeightRAG.inference. lia.
Qed.

(** X22.  On an object constructed with exactly one retriever
    configuration, of one of the three supported kinds, [retrieve] returns
    what the retriever of that configuration ranks for the query, asked
    once and at once: no generator is consulted, and the counter of
    retrievals is two higher. *)
Theorem retrieve_single_asks_the_configured_retriever :
  forall {F : Type} `{Float F} (W : Backend F) (a : Args F)
         (config : RetrieverConfig) (self : RAG F) (c : Counter.t)
         (query : str) (topk max_query_length : Z) (st : State),
    retriever_configs a = Some [config] ->
    BasicRAG.init a = Ok (self, c) ->
    let retriever := entry_retriever (entry_of_config config) in
    supported retriever = true ->
    BasicRAG.retrieve W self query topk max_query_length st
    = (Ok (passages W (clock st) retriever query topk max_query_length),
       mkState
         (Counter.mk (Counter.retrieve (counter st) + 2)
            (Counter.generate (counter st))
            (Counter.hallucinated (counter st))
            (Counter.token (counter st))
            (Counter.sentence (counter st)))
         (events st ++ [EvSearch retriever query topk])).
Proof.
  intros F HF W a config self c query topk mql st Hc Hinit retriever Hsup.
  unfold BasicRAG.init in Hinit. rewrite Hc in Hinit.
  cbn [BasicRAG.build_retrievers List.length Nat.eqb] in Hinit.
  assert (Hsel : BasicRAG._retriever_selector (retriever_type config)
                   (rc_kwargs config) = Ok retriever).
  { subst retriever. unfold entry_of_config. cbn [entry_retriever].
    unfold BasicRAG._retriever_selector.
    repeat match goal with
           | |- context [if ?b then _ else _] => destruct b
           end; reflexivity. }
  rewrite Hsel in Hinit. cbn [rbind dict_set] in Hinit.
  inversion Hinit; subst self c. clear Hinit.
  unfold BasicRAG.retrieve. cbn [gateway].
  unfold bind at 1.
  set (st0 := snd (BasicRAG.incr_retrieve st)).
  assert (Hst0 : BasicRAG.incr_retrieve st = (Ok tt, st0)) by reflexivity.
  rewrite Hst0. cbv beta iota. change (negb false) with true. cbv iota.
  unfold bind at 1, lift. simpl map. rewrite getitem_head. cbv beta iota.
  unfold bind at 1, dict_item. simpl dict_get. rewrite py_eqb_refl.
  cbv beta iota. cbn [entry_retriever].
  unfold BasicRAG._retrieve, BasicRAG.incr_retrieve, update_counter,
    bind, request, passages, clock.
  subst st0.
  destruct retriever; try discriminate; simpl;
    rewrite <- Z.add_assoc; reflexivity.
Qed.

(** X22 at work: the one index [wiki] of the toy configuration. *)
Lemma retrieve_single_asks_the_configured_retriever_witness :
  fst (BasicRAG.retrieve Toy.world (Toy.rag Toy.args0) (py "q") 1 64
         Toy.st0)
  = Ok (passages Toy.world 0 (BM25 []) (py "q") 1 64).
Proof.
  exact (f_equal fst
           (retrieve_single_asks_the_configured_retriever Toy.world
              Toy.args0 Toy.wiki (Toy.rag Toy.args0) Counter.init
              (py "q") 1 64 Toy.st0 eq_refl eq_refl eq_refl)).
Defined.
